(* ===== verification/_CoqProject ===== *)
-Q . S2P
Prelude.v
JsString.v
Db.v
DbSpec.v
Base64.v
Persist.v
QuickAdd.v
Sampler.v
Playlists.v
Render.v
Pdf.v
Views.v
Pages.v
App.v
Sim.v
Ui.v
Progress.v
Picker.v
