(* ===== verification/Prelude.v ===== *)
(** * study.me: a verification development of src/app/index.js

    ** The program
    study.me is a single-page question organiser written as one script,
    src/app/index.js.  Its state is an in-browser SQLite database (sql.js)
    with six tables (boards, subjects, chapters, questions, playlists,
    playlist_items, created by [createSchema]), the global
    [currentBoardId], and one localStorage slot ['studyme_db'] holding the
    base64 text of the exported database.  Every handler the page wires
    ([DOMContentLoaded], lines 408-417) runs SQL statements on the
    database, then [saveDBToLocalStorage], then re-renders; [initDB]
    reopens the slot at page load; [importDbFile] replaces the database.

    ** Files, in dependency order
    - [Prelude] (this file): the execution monad [Exec S A = S -> S * (A +
      exn)] in which a handler is modelled (state passing; a JavaScript
      exception ends the handler and keeps the state, since nothing rolls
      back), its notation in [exec_scope], [forM_] for the script's
      [for ... of] loops, the hint database [studyme], tactics, and the
      list and integer lemmas the components share.
    - [JsString] (Module [Js]): the JavaScript primitives the script
      relies on, on Latin-1 strings: [trim], [split] on one character,
      [join], [parseInt] (sign, 0x prefix, digit prefix, NaN as [None]),
      [||] on numbers and strings, [String(n)].
    - [Db] (Module [Db]): rows as Records, the tables, a [store] that is
      [Live] tables or [Broken] (an imported file with no schema), the
      64-bit rowid allocation of SQLite (one more than the largest,
      SQLITE_FULL at 2^63-1), every INSERT and DELETE of the script as an
      [Exec store] computation, the SELECTs as functions, [runQuery]'s
      swallowing of errors, and the invariant [wf] (rowids sorted and in
      range, every reference present and consistent), decidable as [wfb].
    - [DbSpec] (Module [DbSpec]): the abstract specification of the store:
      what SQLite promises, on tables as finite maps from rowid to row
      ([gmap Z R]).  [stmt] lists the statements the script runs, [astep]
      is the contract (an INSERT takes some unused rowid in [1, 2^63-1];
      a DELETE keeps the rows its condition rejects), [abs] reads the
      lists of [Db] as maps.
    - [Base64] (Module [B64]): [btoa] (RFC 4648) and the HTML standard's
      forgiving [atob], [String.fromCharCode] and [charCodeAt] on bytes.
    - [Persist] (Module [Persist]): the application state [app] (database,
      [currentBoardId], slot); the interfaces [Serializer] (sql.js's
      [db.export()] and [new SQL.Database(u8)], with the law that
      reopening an export gives the tables back) and [Browser] (the spread
      limit of [fromCharCode(...data)] and the slot's quota);
      [saveDBToLocalStorage], [initDB] with [load], [exportDb],
      [importDbFile]; and [bytes_serializer], a serializer of the model
      that shows the interface satisfiable and runs the witnesses.
    - [QuickAdd] (Module [QuickAdd]): [addQuickQuestions]: line
      splitting, the pipe-delimited parser with its fallbacks,
      resolve-or-create of subject and chapter, the question INSERT.
    - [Sampler] (Module [Sampler]): [generateMTP]: the pool query,
      boosting of preferred marks, and the random-pick loop driven by an
      explicit stream of [Math.random] draws.
    - [Playlists] (Module [Playlists]): adding from the picker, the
      confirmed delete with its cascade, "Remove", the item count and the
      contents query.
    - [Render] (Module [Render]): [escapeHtml], the occurrence count and
      the card HTML of [renderQuestions] as UTF-16 code units.
    - [Pdf] (Module [Pdf]): [handlePdfUpload] after pdf.js: the page
      texts joined into [fullText], the split on [/\n\s*\n/] as the
      scan the regular expression performs, the trimmed non-empty
      blocks, and the question inserts.
    - [Views] (Module [Views]): the listing queries ([ORDER BY id DESC],
      the dashboard's [LIMIT 8]), the board page's title, and the other
      HTML templates written into [innerHTML] (dashboard card and
      caption, board header, Add to playlist button, playlist header,
      contents item, paper item).
    - [Pages] (Module [Pages]): the element tree each render function
      leaves in its container ([node]: tag, class, children, innerHTML,
      textContent): [renderBoards], [renderDashboard], the board header,
      [renderQuestions] with its LEFT JOINs and badges, the picker popup,
      [renderPlaylists], [showPlaylistContents] and the generated paper.
    - [App] (Module [App]): every state-changing handler as [Exec app]
      (statements via [on_db], then the save), the Generate button's
      parsing, the [event]s the page offers ([enabled]), the reachable
      states [reach] from a fresh browser, and the invariant [inv].
    - [Sim] (Module [Sim]): the simulation of the abstract store by the
      handlers: [by_steps] and [app_by_steps] (a computation changes the
      store only by steps of [DbSpec.astep]), closed under the monad and
      proved of every statement and handler.
    - [Ui] (Module [Ui]): the DOM the renders write, as a [screen]: the
      nodes of [#boards], [#questionList], [#generated], the board header,
      the dashboard's two lists, the hidden flags of [#dashboardRoot] and
      [#questionsRoot], and one [card] per playlist with its open state and
      the items shown in it, and the text fields the buttons read and
      empty.  Each render ([renderBoards],
      [renderQuestions], [renderPlaylists], [renderDashboard],
      [renderBoardPage], [showPlaylistContents], the View toggle, the
      featured playlist's click, the paper of [generateMTP]) is a function
      on it; [ui_handle] runs a handler of [App] and then the renders the
      code calls after the save ([renders]).  The page's initial DOM
      (index.html) is a Section variable [html_screen].
    - [Picker] (Module [Picker]): the popups of [showPlaylistPicker]
      (188-211) as a state machine: the popups in [document.body], the
      pending 10 ms timers and the registered [onDocClick] listeners; a
      click runs its target's handler (a pick runs [App.handle]) and then
      the document listeners, also after an exception; [preach] is the
      states reached by any sequence of clicks and timer firings; the
      popup's inline styles place it under the anchor's box.
    - [Progress] (Module [Progress]): [eventually], the states reached by
      events the page offers, and the liveness theorem, from a state
      whose [Ui.screen] shows the store.

    ** What is proved
    - Consistency: every statement, [addQuickQuestions] whatever its
      outcome, and every handler keep [wf]; every state reached through
      offered events whose handlers return has a consistent database
      whose selected board exists and a slot that reopens a consistent
      store ([App.reach_inv]).  [reach] leaves out handlers that throw:
      after an import whose save throws the page keeps the old board
      buttons ([Ui.import_error_stale_screen]), so the page may offer a
      board the database lacks.
    - Refinement: every statement of [Db] is a step of [DbSpec.astep]
      between the abstract tables, SQLITE_FULL is raised only where the
      contract allows it, the counting queries are sizes of filtered maps
      ([DbSpec.run_stmt_refines], [DbSpec.queries_refine]); the confirmed
      playlist delete is a key deletion plus the removal of its items
      ([Playlists.delete_playlist_refines]).
    - Liveness: a question the page shows, on a screen that shows the
      store, can always be filed into a new playlist in two clicks
      ([Progress.question_can_be_filed]).  The clicks need no redraw:
      the name field is static and the picker queries the database when
      it opens.
    - Equivalence and types: [escapeHtml]'s chained replaces equal
      per-character escaping ([Render.escapeHtml_single_pass]); the slot
      text is canonical base64 ([B64.btoa_canonical]).
    - Pages: a playlist's header count equals its listed contents, and
      the question list is the board's questions newest first with their
      board names ([Pages.contents_match_count], [Pages.question_rows_spec]).
    - Simulation: every handler but an import and a page load, completed
      or interrupted by an exception, takes the abstract tables to new
      ones by steps of the contract ([Sim.handle_simulates]), a lemma
      that says which statements a handler may run, not in what order.
    - Persistence: [atob (btoa s) = s] and the byte round trip; the text
      length [4 * ceil(n/3)] and the exact condition under which a save
      succeeds; saving then reloading gives the tables back, and so does
      exporting, importing and reloading ([Persist.export_import_reload]);
      a handler
      that returns normally leaves the slot in sync, one that throws is
      undone by the next reload.
    - Functional behaviour: the line parser field by field, the counts of
      inserted questions, uniqueness of resolved subjects and chapters,
      the no-board case, playlist cascade, removal of all copies, the
      contents order, the paper's size and distinctness (and that
      [generateMTP] returns early exactly on an empty pool), boosting
      (each preferred row three times, each other once),
      escaping, the occurrence count, [parseInt (String n) = n],
      [split]/[join].
    - PDF import: on a document whose text items hold no line break,
      the blocks are exactly the pages that are not blank (one question
      per page), and a completed upload appends one question per block.
    - Findings: the stale [currentBoardId] after an import breaks
      consistency; an import whose save throws skips the renders and
      leaves stale board buttons; the board name reaches [innerHTML] unescaped; a PDF
      page is never split into paragraphs; the contents preview cuts the
      escaped text and can end inside an entity.
    - Views: listings are newest first on a consistent store; every other
      template holds exactly its own markup whatever is substituted.
    - Types: every question a quick-add writes has non-zero marks, a null
      or non-zero year and a non-empty text
      ([QuickAdd.add_quick_questions_typed]).
    - Errors on the page: the text fields are emptied only by a handler
      that returned, so a quick-add whose save throws keeps its text
      though its questions are in the database ([Ui.add_quick_press]);
      an import whose save throws leaves the screen as it was while the
      database is the imported one ([Ui.import_error_stale_screen]).
    - Screen: every event that completes, the picker's pick apart, leaves
      the three lists on the page equal to what the new store and board
      give ([Ui.screen_fresh]); a pick changes the count in the store but
      not the screen ([Ui.pick_leaves_screen]); a Remove closes and empties
      every playlist card ([Ui.remove_collapses_cards]); [selectBoard] and
      [renderDashboard] are never called, so the dashboard is never shown.
    - Picker: in every reached state each open popup is watched by its
      timer or its listener ([Picker.picker_reach_inv], by induction on
      [preach]); once the timers have fired, "Add to playlist" leaves
      exactly the new popup, but two clicks within 10 ms leave two
      ([Picker.add_click_single]); a completed pick on a listed playlist
      removes every popup but leaves the popup's own document listener
      registered, one that throws leaves its own popup open
      ([Picker.popup_pick_closes]).

    ** Bounds and fuel
    Rowids are [Z] with the bound [2^63-1] of SQLite's INTEGER PRIMARY
    KEY written out; at that bound SQLite tries unused rowids at random
    before SQLITE_FULL, and [Db] takes the failing outcome, which
    [DbSpec]'s contract allows.  The pick loop of [generateMTP] is a [Fixpoint] on
    fuel [length pool]: every iteration removes one element of
    [available], so the fuel is enough, and more fuel changes nothing
    ([Sampler.pick_loop_fuel]).  [String(n)] computes its digits with fuel [S (log2 n)],
    at least the number of decimal digits, proved enough
    ([Js.dec_digits_spec]).  [Math.random] is a draw [k] in
    [0, 2^53) read as [k / 2^53], the double it returns.  The limits of
    [Browser] are parameters; the witnesses use small ones, because the
    kernel compares unary [nat]s by evaluation.

    ** Not modelled
    Layout: the stylesheet and what the browser computes from it (the
    inline styles the script sets are [Pages.Styled] nodes; the anchor's
    box a popup is placed under is an argument, in whole pixels, where
    the browser's are doubles); time, except the order in which the
    10 ms timers fire among the clicks ([Picker.TimerFires] is an event);
    the contents of index.html, which is not in the repository (the
    initial screen is the variable [html_screen], its fields empty in the
    witnesses); the
    text extraction of pdf.js (a document is its pages' item strings;
    code units beyond Latin-1 are not modelled, so [\s] is the Latin-1
    whitespace of [Js.is_ws]), the byte format of sql.js (the
    [Serializer] interface), and
    the engine's exact spread limit and the browser's quota (the
    [Browser] interface). *)

From Stdlib Require Import String ZArith List Lia Sorting.Sorted.
From stdpp Require Import base list.

Declare Scope exec_scope.
Delimit Scope exec_scope with exec.

(** ** Exceptions that escape a handler

    The script never catches an exception outside [runQuery]; an
    exception raised by [db.run] or by [localStorage.setItem] ends the
    handler, and the statements already executed stay executed. *)
Inductive exn :=
| SqliteFull      (** [db.run]: an INSERT found no free rowid (SQLITE_FULL) *)
| NotADatabase    (** [db.run] on a store that holds no schema *)
| QuotaExceeded   (** [localStorage.setItem] over the slot's quota *)
| ArgRangeError   (** [String.fromCharCode(...data)]: too many arguments *)
| InvalidCharacter. (** [atob]: the slot is not base64 *)

#[export] Instance exn_eq_dec : EqDecision exn.
Proof. solve_decision. Qed.

(** ** The execution monad

    A computation of a handler over a state [S]: it returns the new state
    together with either a value or the exception that stopped it.  The
    state is returned in both cases, because JavaScript has no rollback:
    a statement that ran before the exception keeps its effect. *)
Definition Exec (S A : Type) : Type := S -> S * (A + exn).

Definition ret {S A} (a : A) : Exec S A := fun s => (s, inl a).
Definition throw {S A} (e : exn) : Exec S A := fun s => (s, inr e).
Definition get {S} : Exec S S := fun s => (s, inl s).
Definition put {S} (s : S) : Exec S unit := fun _ => (s, inl tt).
Definition modify {S} (f : S -> S) : Exec S unit := fun s => (f s, inl tt).
Definition bind {S A B} (c : Exec S A) (k : A -> Exec S B) : Exec S B :=
  fun s => match c s with
           | (s', inl a) => k a s'
           | (s', inr e) => (s', inr e)
           end.

Notation "x <- c1 ;; c2" := (bind c1 (fun x => c2))
  (at level 65, c1 at next level, right associativity) : exec_scope.
Notation "c1 ;;; c2" := (bind c1 (fun _ => c2))
  (at level 65, right associativity) : exec_scope.

Local Open Scope exec_scope.

(** [for (const x of xs) body(x)]: the loop stops at the first exception. *)
Fixpoint forM_ {S A} (xs : list A) (body : A -> Exec S unit) : Exec S unit :=
  match xs with
  | [] => ret tt
  | x :: xs' => body x ;;; forM_ xs' body
  end.

(** A computation that never throws and whose effect on the state is [f]. *)
Definition total_as {S A} (c : Exec S A) (f : S -> S) (v : S -> A) : Prop :=
  forall s, c s = (f s, inl (v s)).

Lemma bind_ret_l {S A B} (a : A) (k : A -> Exec S B) s :
  bind (ret a) k s = k a s.
Proof. reflexivity. Qed.

Lemma bind_throw {S A B} (e : exn) (k : A -> Exec S B) s :
  bind (throw e) k s = (s, inr e).
Proof. reflexivity. Qed.

Lemma bind_total {S A B} (c : Exec S A) f v (k : A -> Exec S B) s :
  total_as c f v -> bind c k s = k (v s) (f s).
Proof. intros H. unfold bind. by rewrite H. Qed.

Lemma forM_app {S A} (xs ys : list A) (body : A -> Exec S unit) s :
  forM_ (xs ++ ys) body s = bind (forM_ xs body) (fun _ => forM_ ys body) s.
Proof.
  revert s. induction xs as [|x xs IH]; intros s; [reflexivity|].
  simpl. cbv [bind] in *. destruct (body x s) as [s' [[]|e]]; [apply IH|reflexivity].
Qed.

(** A loop whose body never throws never throws, and its effect is the
    left fold of the body's effects. *)
Lemma forM_total {S A} (xs : list A) (body : A -> Exec S unit) (f : A -> S -> S) :
  (forall x, total_as (body x) (f x) (fun _ => tt)) ->
  total_as (forM_ xs body) (fun s => fold_left (fun s x => f x s) xs s) (fun _ => tt).
Proof.
  intros Hb. induction xs as [|x xs IH]; intros s; [reflexivity|].
  simpl. rewrite (bind_total _ _ _ _ _ (Hb x)). apply IH.
Qed.

(** ** Tactics and hints shared by the components *)

Create HintDb studyme.

(** Unfold the monad's combinators and compute. *)
Ltac exec_simpl := cbv [bind ret throw get put modify] in *; simpl in *.

(** Case on the result of a computation inside the goal. *)
Ltac exec_case c :=
  let s' := fresh "s'" in let r := fresh "r" in let E := fresh "E" in
  destruct c as [s' r] eqn:E.

(** ** Shared list lemmas *)

Lemma Forall_last {A} (P : A -> Prop) (l : list A) (x : A) :
  Forall P l -> P x -> Forall P (l ++ [x]).
Proof. intros H1 H2. apply Forall_app. auto. Qed.
#[export] Hint Resolve Forall_last : studyme.

Lemma StronglySorted_snoc {A} (R : A -> A -> Prop) (l : list A) (x : A) :
  StronglySorted R l -> Forall (fun y => R y x) l -> StronglySorted R (l ++ [x]).
Proof.
  induction 1 as [|y l Hs IH Hall]; intros Hx; simpl.
  - repeat constructor.
  - inversion Hx as [|? ? Hyx Hl]; subst. constructor; [by apply IH|].
    apply Forall_app. split; [done|]. by constructor.
Qed.

Lemma StronglySorted_map_filter {A B} (R : B -> B -> Prop) (g : A -> B) (f : A -> bool)
    (l : list A) :
  StronglySorted R (map g l) -> StronglySorted R (map g (List.filter f l)).
Proof.
  induction l as [|x l IH]; intros Hs; simpl; [constructor|].
  inversion Hs as [|? ? Hs' Hall]; subst.
  destruct (f x); simpl; [|auto]. constructor; [auto|].
  rewrite Forall_map in Hall |- *. rewrite List.Forall_forall in Hall |- *.
  intros y Hy. apply Hall. apply filter_In in Hy. tauto.
Qed.

Lemma forallb_filter_keep {A} (f g : A -> bool) (l : list A) :
  forallb f l = true -> forallb f (List.filter g l) = true.
Proof.
  rewrite !forallb_forall. intros H x Hx. apply filter_In in Hx. apply H. tauto.
Qed.
#[export] Hint Resolve forallb_filter_keep : studyme.

(** An invariant of the state that every iteration of a loop body keeps,
    whatever the iteration's outcome, holds after the loop. *)
Lemma forM_preserves_in {S A} (P : S -> Prop) (xs : list A) (body : A -> Exec S unit) :
  (forall x s s' r, In x xs -> P s -> body x s = (s', r) -> P s') ->
  forall s s' r, P s -> forM_ xs body s = (s', r) -> P s'.
Proof.
  intros Hb. induction xs as [|x xs IH]; intros s s' r Hs Hrun.
  - injection Hrun as <- _. done.
  - simpl in Hrun. cbv [bind] in Hrun.
    destruct (body x s) as [s1 [u|e]] eqn:E.
    + eapply IH; [|eapply Hb; [left| |]; eauto|exact Hrun]. intros; eapply Hb; [right| |]; eauto.
    + injection Hrun as <- _. eapply Hb; [left| |]; eauto.
Qed.

Lemma forM_preserves {S A} (P : S -> Prop) (xs : list A) (body : A -> Exec S unit) :
  (forall x s s' r, P s -> body x s = (s', r) -> P s') ->
  forall s s' r, P s -> forM_ xs body s = (s', r) -> P s'.
Proof. intros Hb. apply forM_preserves_in. intros x s s' r _. apply Hb. Qed.

(** A loop that succeeds ran every body to success: a measure that each
    successful body raises by one rises by the number of iterations. *)
Lemma forM_ok_count {St A} (m : St -> nat) (xs : list A) (body : A -> Exec St unit) :
  (forall x s s', body x s = (s', inl tt) -> m s' = S (m s)) ->
  forall s s', forM_ xs body s = (s', inl tt) -> m s' = (length xs + m s)%nat.
Proof.
  intros Hb. induction xs as [|x xs IH]; intros s s' Hrun.
  - by injection Hrun as <-.
  - simpl in Hrun. cbv [bind] in Hrun.
    destruct (body x s) as [s1 [[]|e]] eqn:E; [|discriminate].
    rewrite (IH _ _ Hrun), (Hb _ _ _ E). simpl. lia.
Qed.

Lemma find_app_l {A} (f : A -> bool) (l m : list A) x :
  List.find f l = Some x -> List.find f (l ++ m) = Some x.
Proof. induction l as [|y l IH]; [done|]. simpl. by destruct (f y). Qed.

Lemma NoDup_snoc {A} (l : list A) (x : A) : NoDup l -> ~ In x l -> NoDup (l ++ [x]).
Proof.
  intros Hnd Hx. apply NoDup_app. split; [done|]. split; [|apply NoDup_singleton].
  intros y Hy Hin. apply list_elem_of_singleton in Hin. subst. apply Hx.
  by apply list_elem_of_In.
Qed.

(** ** Shared integer lemmas *)

(** An OR of a shifted value and a value below the shift is their sum. *)
Lemma lor_shiftl_add (x y k : Z) :
  (0 <= k)%Z -> (0 <= y < 2 ^ k)%Z -> Z.lor (Z.shiftl x k) y = (x * 2 ^ k + y)%Z.
Proof.
  intros Hk Hy. rewrite Z.shiftl_mul_pow2 by done.
  assert (Hand : Z.land (x * 2 ^ k) y = 0%Z).
  { apply Z.bits_inj'. intros n Hn. rewrite Z.land_spec, Z.bits_0.
    destruct (Z.lt_ge_cases n k) as [Hlt|Hge].
    - rewrite Z.mul_pow2_bits by done. rewrite Z.testbit_neg_r by lia. done.
    - rewrite <- (Z.mod_small y (2 ^ k)) by lia.
      rewrite Z.mod_pow2_bits_high by lia. apply andb_false_r. }
  pose proof (Z.sub_2lor_lxor (x * 2 ^ k) y) as H2.
  rewrite (Z.lxor_lor _ _ Hand) in H2. lia.
Qed.

(** [lia] treats [/] and [mod] as atoms: replace each by its quotient and
    remainder equations first. *)
Ltac zify_divmod := Z.div_mod_to_equations; lia.

(** Induction by groups of three, the recursion of a base64 encoder. *)
Lemma list3_ind {A} (P : list A -> Prop) :
  P [] -> (forall a, P [a]) -> (forall a b, P [a; b]) ->
  (forall a b c r, P r -> P (a :: b :: c :: r)) -> forall l, P l.
Proof.
  intros H0 H1 H2 H3. fix IH 1. intros [|a [|b [|c r]]]; [auto..|]. apply H3, IH.
Qed.
