(* ===== verification/JsString.v ===== *)
(** * JavaScript string and number primitives

    The string functions of ECMA-262 that src/app/index.js calls, on
    strings of Latin-1 code units (Stdlib's [string], one [ascii] per code
    unit): [trim] (lines 214, 217), [split] with a one-character
    separator (214, 217), [Array.prototype.join] (222), [slice] (222),
    [parseInt] without a radix (218, 221, 414), [String(n)] on integers
    (365) and the [||] operator on numbers and strings (218-222).  A
    Number is modelled as [option Z]: [None] is NaN, [Some z] the integer
    [z]; the script only ever feeds integers through these paths. *)

From Stdlib Require Import String Ascii ZArith List Lia Bool.
From stdpp Require Import base list.
From S2P Require Import Prelude.

Module Js.

(** ** Whitespace

    The WhiteSpace and LineTerminator code points of ECMA-262 that lie in
    Latin-1: TAB, LF, VT, FF, CR, SPACE and NO-BREAK SPACE. *)
Definition is_ws (c : ascii) : bool :=
  existsb (Nat.eqb (nat_of_ascii c)) [9; 10; 11; 12; 13; 32; 160]%nat.

(** [TrimString(s, start)]. *)
Fixpoint trim_start (s : string) : string :=
  match s with
  | EmptyString => EmptyString
  | String c r => if is_ws c then trim_start r else s
  end.

(** [TrimString(s, end)]. *)
Fixpoint trim_end (s : string) : string :=
  match s with
  | EmptyString => EmptyString
  | String c r =>
      let r' := trim_end r in
      if is_ws c && String.eqb r' EmptyString then EmptyString else String c r'
  end.

(** [String.prototype.trim]. *)
Definition trim (s : string) : string := trim_end (trim_start s).

(** [Boolean(s)] on a string: the empty string is the only falsy one. *)
Definition str_truthy (s : string) : bool := negb (String.eqb s EmptyString).

(** ** [split] and [join] *)

(** [s.split(sep)] for a one-character separator: the first piece and the
    pieces after each occurrence of [sep]. *)
Fixpoint split_ne (sep : ascii) (s : string) : string * list string :=
  match s with
  | EmptyString => (EmptyString, [])
  | String c r =>
      let '(p, ps) := split_ne sep r in
      if Ascii.eqb c sep then (EmptyString, p :: ps) else (String c p, ps)
  end.

Definition split (sep : ascii) (s : string) : list string :=
  let '(p, ps) := split_ne sep s in p :: ps.

(** [xs.join(sep)]. *)
Fixpoint join (sep : string) (xs : list string) : string :=
  match xs with
  | [] => EmptyString
  | [x] => x
  | x :: xs' => String.append x (String.append sep (join sep xs'))
  end.

(** [s.slice(0, n)]: the first [n] code units, or all of them. *)
Definition slice_to (n : nat) (s : string) : string := substring 0 n s.

(** Whether a code unit occurs in a string. *)
Fixpoint has_char (c : ascii) (s : string) : bool :=
  match s with
  | EmptyString => false
  | String c' r => Ascii.eqb c' c || has_char c r
  end.

(** [xs[xs.length - 1]] on a non-empty array, [undefined] ([None]) on an
    empty one. *)
Definition last_elem (xs : list string) : option string := last xs.

(** ** [parseInt(s)] with no radix (ECMA-262, 19.2.5) *)

(** The value of a code unit as a digit of radix [radix] (2 to 36):
    [0-9] then [a-z] / [A-Z] for 10 to 35. *)
Definition digit_val (radix : Z) (c : ascii) : option Z :=
  let n := Z.of_nat (nat_of_ascii c) in
  let v := if (48 <=? n)%Z && (n <=? 57)%Z then Some (n - 48)%Z
           else if (97 <=? n)%Z && (n <=? 122)%Z then Some (n - 87)%Z
           else if (65 <=? n)%Z && (n <=? 90)%Z then Some (n - 55)%Z
           else None in
  match v with
  | Some d => if (d <? radix)%Z then Some d else None
  | None => None
  end.

(** The longest prefix of radix-[radix] digits, as digit values. *)
Fixpoint take_digits (radix : Z) (s : string) : list Z :=
  match s with
  | EmptyString => []
  | String c r =>
      match digit_val radix c with
      | Some d => d :: take_digits radix r
      | None => []
      end
  end.

Definition digits_value (radix : Z) (ds : list Z) : Z :=
  fold_left (fun acc d => acc * radix + d)%Z ds 0%Z.

(** Steps 4 to 6: read a sign. *)
Definition strip_sign (s1 : string) : Z * string :=
  match s1 with
  | String c r =>
      if Ascii.eqb c "-"%char then ((-1)%Z, r)
      else if Ascii.eqb c "+"%char then (1%Z, r) else (1%Z, s1)
  | EmptyString => (1%Z, s1)
  end.

(** Steps 7 to 10 with no radix argument: a [0x]/[0X] prefix selects
    radix 16 and is removed, otherwise radix 10. *)
Definition strip_radix (s2 : string) : Z * string :=
  match s2 with
  | String z (String x r) =>
      if Ascii.eqb z "0"%char && (Ascii.eqb x "x"%char || Ascii.eqb x "X"%char)
      then (16%Z, r) else (10%Z, s2)
  | _ => (10%Z, s2)
  end.

(** The whole algorithm: strip leading whitespace, sign, radix prefix,
    take the longest digit prefix; no digit gives NaN. *)
Definition parseInt (s : string) : option Z :=
  let '(sign, s2) := strip_sign (trim_start s) in
  let '(radix, s3) := strip_radix s2 in
  match take_digits radix s3 with
  | [] => None
  | ds => Some (sign * digits_value radix ds)%Z
  end.

(** [ToString] of an array element that may be [undefined]:
    [parseInt(parts[3])] on a short array parses ["undefined"]. *)
Definition arg_string (o : option string) : string :=
  match o with Some s => s | None => "undefined"%string end.

(** [n || d] on a Number: NaN, +0 and -0 are falsy. *)
Definition num_or (n : option Z) (d : Z) : Z :=
  match n with
  | Some z => if Z.eqb z 0 then d else z
  | None => d
  end.

(** [n || null] on a Number. *)
Definition num_or_null (n : option Z) : option Z :=
  match n with
  | Some z => if Z.eqb z 0 then None else Some z
  | None => None
  end.

(** [s || d] on a string that may be [undefined]. *)
Definition str_or (o : option string) (d : string) : string :=
  match o with
  | Some s => if str_truthy s then s else d
  | None => d
  end.

(** ** [String(n)] for an integer Number

    Decimal digits, most significant first, with a leading ['-'] for a
    negative number.  The fuel [S (log2 n)] bounds the number of decimal
    digits of [n]. *)
Fixpoint dec_digits_acc (fuel : nat) (n : Z) (acc : list Z) : list Z :=
  match fuel with
  | O => acc
  | S f => if (n <? 10)%Z then n :: acc
           else dec_digits_acc f (n / 10)%Z ((n mod 10)%Z :: acc)
  end.

Definition dec_digits (n : Z) : list Z :=
  dec_digits_acc (S (Z.to_nat (Z.log2 n))) n [].

Definition digit_char (d : Z) : ascii := ascii_of_nat (Z.to_nat (48 + d)).

Fixpoint string_of_digits (ds : list Z) : string :=
  match ds with
  | [] => EmptyString
  | d :: ds' => String (digit_char d) (string_of_digits ds')
  end.

Definition number_to_string (z : Z) : string :=
  if (z <? 0)%Z then String "-"%char (string_of_digits (dec_digits (- z)))
  else string_of_digits (dec_digits z).

(** Whether every code unit of a string is whitespace (a blank string). *)
Fixpoint all_ws (s : string) : bool :=
  match s with
  | EmptyString => true
  | String c r => is_ws c && all_ws r
  end.

(** ** Lemmas *)

Lemma split_ne_join sep s :
  let '(p, ps) := split_ne sep s in join (String sep EmptyString) (p :: ps) = s.
Proof.
  induction s as [|c r IH]; [reflexivity|]. simpl.
  destruct (split_ne sep r) as [p ps].
  destruct (Ascii.eqb_spec c sep) as [->|_].
  - by rewrite <- IH.
  - rewrite <- IH. by destruct ps.
Qed.

(** [s.split(sep).join(sep)] gives back [s], for every
    string and one-character separator. *)
Theorem split_join (sep : ascii) (s : string) :
  join (String sep EmptyString) (split sep s) = s.
Proof. unfold split. pose proof (split_ne_join sep s). by destruct (split_ne sep s). Qed.

Lemma split_ne_no_char sep a :
  has_char sep a = false -> split_ne sep a = (a, []).
Proof.
  induction a as [|c a IH]; [done|]. simpl. intros [Hc Ha]%orb_false_iff.
  rewrite IH by done. by rewrite Hc.
Qed.

Lemma split_ne_app sep a b :
  has_char sep a = false ->
  split_ne sep (String.append a (String sep b)) =
  (a, let '(p, ps) := split_ne sep b in p :: ps).
Proof.
  induction a as [|c a IH]; simpl.
  - intros _. destruct (split_ne sep b). by rewrite Ascii.eqb_refl.
  - intros [Hc Ha]%orb_false_iff. rewrite IH by done. by rewrite Hc.
Qed.

(** splitting the join of pieces that do not contain the
    separator gives back the pieces. *)
Theorem join_split (sep : ascii) (xs : list string) :
  xs <> [] -> Forall (fun x => has_char sep x = false) xs ->
  split sep (join (String sep EmptyString) xs) = xs.
Proof.
  intros Hne Hall. induction Hall as [|x xs Hx Hall IH]; [done|].
  destruct xs as [|x' xs'].
  - unfold split. simpl. by rewrite split_ne_no_char.
  - change (join (String sep EmptyString) (x :: x' :: xs'))
      with (String.append x (String sep (join (String sep EmptyString) (x' :: xs')))).
    unfold split in *. rewrite split_ne_app by done. rewrite <- IH at 2 by done.
    by destruct (split_ne sep _).
Qed.

(** The pieces of a split never contain the separator. *)
Lemma split_ne_no_sep sep s :
  let '(p, ps) := split_ne sep s in
  Forall (fun q => ~ In sep (list_ascii_of_string q)) (p :: ps).
Proof.
  induction s as [|c r IH]; simpl.
  - constructor; [tauto|constructor].
  - destruct (split_ne sep r) as [p ps].
    inversion IH as [|? ? Hp Hps]; subst.
    destruct (Ascii.eqb_spec c sep) as [->|Hne].
    + repeat constructor; auto.
    + constructor; [|done]. simpl. intros [->|?]; auto.
Qed.

(** *** Decimal digits *)

Definition dec_step (acc d : Z) : Z := (acc * 10 + d)%Z.

Lemma dec_digits_acc_value fuel n acc :
  (0 <= n < 10 ^ Z.of_nat fuel)%Z ->
  fold_left dec_step (dec_digits_acc fuel n acc) 0%Z = fold_left dec_step acc n.
Proof.
  revert n acc. induction fuel as [|f IH]; intros n acc Hn; cbn [dec_digits_acc].
  - replace n with 0%Z by (simpl in Hn; lia). reflexivity.
  - destruct (Z.ltb_spec n 10) as [Hlt|Hge]; [reflexivity|].
    assert (Hp : (10 ^ Z.of_nat (S f) = 10 * 10 ^ Z.of_nat f)%Z).
    { rewrite Nat2Z.inj_succ. apply Z.pow_succ_r. lia. }
    rewrite IH.
    + simpl. f_equal. unfold dec_step. pose proof (Z.div_mod n 10 ltac:(lia)). lia.
    + split; [apply Z.div_pos; lia|]. apply Z.div_lt_upper_bound; lia.
Qed.

Lemma dec_digits_acc_range fuel n acc :
  (0 <= n)%Z -> Forall (fun d => 0 <= d <= 9)%Z acc ->
  Forall (fun d => 0 <= d <= 9)%Z (dec_digits_acc fuel n acc).
Proof.
  revert n acc. induction fuel as [|f IH]; intros n acc Hn Hacc; simpl; [done|].
  destruct (Z.ltb_spec n 10).
  - constructor; [lia|done].
  - apply IH; [apply Z.div_pos; lia|]. constructor; [|done].
    pose proof (Z.mod_pos_bound n 10). lia.
Qed.

Lemma dec_digits_acc_nonempty fuel n acc :
  (fuel <> 0 \/ acc <> [])%nat -> dec_digits_acc fuel n acc <> [].
Proof.
  revert n acc. induction fuel as [|f IH]; intros n acc H; simpl.
  - destruct H; [done|auto].
  - destruct (n <? 10)%Z; [done|]. apply IH. by right.
Qed.

Lemma dec_digits_fuel n : (0 <= n)%Z -> (n < 10 ^ Z.of_nat (S (Z.to_nat (Z.log2 n))))%Z.
Proof.
  intros Hn. rewrite Nat2Z.inj_succ, Z2Nat.id by apply Z.log2_nonneg.
  destruct (Z.eq_dec n 0%Z) as [->|Hn0]; [reflexivity|].
  destruct (Z.log2_spec n) as [_ Hup]; [lia|].
  eapply Z.lt_le_trans; [exact Hup|].
  apply Z.pow_le_mono_l. pose proof (Z.log2_nonneg n). lia.
Qed.

Lemma dec_digits_spec n :
  (0 <= n)%Z ->
  dec_digits n <> [] /\ Forall (fun d => 0 <= d <= 9)%Z (dec_digits n) /\
  digits_value 10 (dec_digits n) = n.
Proof.
  intros Hn. unfold dec_digits, digits_value. split; [|split].
  - apply dec_digits_acc_nonempty. by left.
  - by apply dec_digits_acc_range.
  - fold dec_step. rewrite dec_digits_acc_value; [reflexivity|].
    split; [done|]. by apply dec_digits_fuel.
Qed.

(** Facts about one decimal digit character, by evaluation on 0..9. *)
Lemma digit_char_facts d :
  (0 <= d <= 9)%Z ->
  digit_val 10 (digit_char d) = Some d /\ is_ws (digit_char d) = false /\
  Ascii.eqb (digit_char d) "-"%char = false /\ Ascii.eqb (digit_char d) "+"%char = false /\
  Ascii.eqb (digit_char d) "x"%char = false /\ Ascii.eqb (digit_char d) "X"%char = false.
Proof.
  intros Hd.
  assert (d = 0 \/ d = 1 \/ d = 2 \/ d = 3 \/ d = 4 \/ d = 5 \/ d = 6 \/ d = 7
          \/ d = 8 \/ d = 9)%Z as Hc by lia.
  repeat destruct Hc as [->|Hc]; [..|subst]; vm_compute; repeat split.
Qed.

Lemma take_digits_of_digits ds :
  Forall (fun d => 0 <= d <= 9)%Z ds -> take_digits 10 (string_of_digits ds) = ds.
Proof.
  induction 1 as [|d ds Hd _ IH]; [reflexivity|]. simpl.
  destruct (digit_char_facts d Hd) as [-> _]. by rewrite IH.
Qed.

Lemma strip_radix_digits ds :
  Forall (fun d => 0 <= d <= 9)%Z ds ->
  strip_radix (string_of_digits ds) = (10%Z, string_of_digits ds).
Proof.
  intros Hds. destruct ds as [|d [|d' ds']]; [reflexivity|reflexivity|].
  inversion Hds as [|? ? _ Hrest]; inversion Hrest as [|? ? Hd' _]; subst.
  simpl. destruct (digit_char_facts d' Hd') as (_ & _ & _ & _ & -> & ->).
  by rewrite andb_false_r.
Qed.

(** [parseInt] of an optional sign followed by a non-empty string of
    decimal digits. *)
Lemma parseInt_signed_digits sign ds :
  ds <> [] -> Forall (fun d => 0 <= d <= 9)%Z ds ->
  strip_sign (trim_start (string_of_digits ds)) = (1%Z, string_of_digits ds) /\
  strip_sign (trim_start (String "-"%char (string_of_digits ds)))
    = ((-1)%Z, string_of_digits ds) /\
  (forall s, strip_sign (trim_start s) = (sign, string_of_digits ds) ->
   parseInt s = Some (sign * digits_value 10 ds)%Z).
Proof.
  intros Hne Hds. destruct ds as [|d ds']; [done|].
  inversion Hds as [|? ? Hd _]; subst.
  destruct (digit_char_facts d Hd) as (_ & Hws & Hm & Hp & _).
  split; [|split].
  - cbn [string_of_digits trim_start]. rewrite Hws. cbn [strip_sign]. by rewrite Hm, Hp.
  - reflexivity.
  - intros s Hs. unfold parseInt. rewrite Hs, strip_radix_digits by done.
    by rewrite take_digits_of_digits.
Qed.

(** [parseInt(String(n))] gives back [n] for every integer
    [n]: the decimal printing of a Number and [parseInt] are inverse. *)
Theorem parseInt_number_to_string (z : Z) :
  parseInt (number_to_string z) = Some z.
Proof.
  unfold number_to_string. destruct (Z.ltb_spec z 0) as [Hneg|Hpos].
  - destruct (dec_digits_spec (- z)) as (Hne & Hr & Hv); [lia|].
    destruct (parseInt_signed_digits (-1) _ Hne Hr) as (_ & Hs & Hp).
    rewrite (Hp _ Hs), Hv. f_equal. lia.
  - destruct (dec_digits_spec z) as (Hne & Hr & Hv); [lia|].
    destruct (parseInt_signed_digits 1 _ Hne Hr) as (Hs & _ & Hp).
    rewrite (Hp _ Hs), Hv. f_equal. lia.
Qed.

Lemma has_char_app d a b : has_char d (a ++ b) = has_char d a || has_char d b.
Proof. induction a as [|x a IH]; [done|]. simpl. by rewrite IH, orb_assoc. Qed.

Lemma has_char_slice_to d n s : has_char d s = false -> has_char d (slice_to n s) = false.
Proof.
  unfold slice_to. revert n. induction s as [|c s IH]; intros [|n]; simpl; try done.
  intros [-> Hs]%orb_false_iff. by apply IH.
Qed.

Lemma append_assoc a b c : String.append (String.append a b) c = String.append a (String.append b c).
Proof. induction a as [|x a IH]; [done|]. simpl. by rewrite IH. Qed.

Lemma slice_to_app a b n : slice_to (String.length a + n) (String.append a b) = String.append a (slice_to n b).
Proof. unfold slice_to. induction a as [|c a IH]; [done|]. simpl. by rewrite IH. Qed.

(** ** Trimming *)

Lemma all_ws_app a b : all_ws (a ++ b) = all_ws a && all_ws b.
Proof. induction a as [|c a IH]; [done|]. simpl. by rewrite IH, andb_assoc. Qed.

Lemma trim_start_blank_app w x : all_ws w = true -> trim_start (w ++ x) = trim_start x.
Proof.
  induction w as [|c w IH]; [done|]. simpl. intros [-> Hw]%andb_prop. by apply IH.
Qed.

Lemma trim_blank_app w x : all_ws w = true -> trim (w ++ x) = trim x.
Proof. intros Hw. unfold trim. by rewrite trim_start_blank_app. Qed.

Lemma trim_blank x : all_ws x = true -> trim x = EmptyString.
Proof.
  unfold trim. induction x as [|c x IH]; [done|]. simpl. intros [-> Hx]%andb_prop. by apply IH.
Qed.

(** A string that is not blank is a blank prefix, a non-whitespace code
    unit, and the rest. *)
Lemma not_blank_split x :
  all_ws x = false -> exists w c y, x = (w ++ String c y)%string /\ all_ws w = true /\ is_ws c = false.
Proof.
  induction x as [|c x IH]; [done|]. simpl. destruct (is_ws c) eqn:Hc; simpl.
  - intros Hx. destruct (IH Hx) as (w & c' & y & -> & Hw & Hc').
    exists (String c w), c', y. simpl. by rewrite Hc, Hw.
  - intros _. by exists EmptyString, c, x.
Qed.

Lemma trim_not_blank x : all_ws x = false -> str_truthy (trim x) = true.
Proof.
  intros Hx. destruct (not_blank_split x Hx) as (w & c & y & -> & Hw & Hc).
  unfold trim. rewrite trim_start_blank_app by done. simpl. rewrite Hc. simpl. by rewrite Hc.
Qed.

End Js.
