(* ===== verification/Db.v ===== *)
(** * The SQLite store

    The six tables of [createSchema] (src/app/index.js:19-29) as lists of
    row records in ascending rowid order, the rowid allocation of an
    [INTEGER PRIMARY KEY] column (a 64-bit signed integer: the new rowid
    is one more than the largest, 1 in an empty table, and SQLITE_FULL
    when the largest is already 2^63-1, where SQLite first tries unused
    rowids at random: the model takes the outcome in which that search
    fails, which the contract of [DbSpec] allows), the INSERT and DELETE
    statements of the script as computations of [Exec store], the SELECT
    statements as functions of the tables, and [runQuery] (37-45), which turns a
    failing query into an empty result.

    A [store] is [Live] tables, or [Broken]: a database that holds no
    schema (an imported file that is not a study.me database).  Every
    query on a broken store fails and [runQuery] answers it with no rows;
    every [db.run] on it throws. *)

From Stdlib Require Import String ZArith List Lia Sorting.Sorted.
From stdpp Require Import base list.
From S2P Require Import Prelude.

Module Db.

(** ** Rows (createSchema, lines 21-26) *)

Record board := mkBoard { board_id : Z; board_name : string }.
Record subject := mkSubject { subject_id : Z; subject_board : Z; subject_name : string }.
Record chapter := mkChapter { chapter_id : Z; chapter_subject : Z; chapter_name : string }.
Record question := mkQuestion {
  q_id : Z; q_board : option Z; q_subject : option Z; q_chapter : option Z;
  q_marks : Z; q_year : option Z; q_text : string; q_tags : option string }.
Record playlist := mkPlaylist { pl_id : Z; pl_name : string }.
Record playlist_item := mkItem { item_id : Z; item_playlist : Z; item_question : Z }.

(** Every table's primary key is its rowid. *)
Class HasRowid (R : Type) := row_id : R -> Z.
#[export] Instance board_rowid : HasRowid board := board_id.
#[export] Instance subject_rowid : HasRowid subject := subject_id.
#[export] Instance chapter_rowid : HasRowid chapter := chapter_id.
#[export] Instance question_rowid : HasRowid question := q_id.
#[export] Instance playlist_rowid : HasRowid playlist := pl_id.
#[export] Instance item_rowid : HasRowid playlist_item := item_id.

Record tables := mkTables {
  boards : list board; subjects : list subject; chapters : list chapter;
  questions : list question; playlists : list playlist; items : list playlist_item }.

Inductive store := Live (t : tables) | Broken.

(** [new SQL.Database(); createSchema()] (lines 11-12). *)
Definition empty_tables : tables := mkTables [] [] [] [] [] [].

(** ** Rowid allocation *)

Definition max_rowid : Z := (2 ^ 63 - 1)%Z.

Fixpoint largest {R} `{HasRowid R} (t : list R) : option Z :=
  match t with
  | [] => None
  | r :: t' => match largest t' with
               | None => Some (row_id r)
               | Some m => Some (Z.max (row_id r) m)
               end
  end.

Definition new_rowid {R} `{HasRowid R} (t : list R) : option Z :=
  match largest t with
  | None => Some 1%Z
  | Some m => if (m <? max_rowid)%Z then Some (m + 1)%Z else None
  end.

(** ** Statements *)

(** [db.run('INSERT INTO <table>(...) VALUES(...)')]: the row built from
    its new rowid is appended; the rowid is what [last_insert_rowid()]
    returns afterwards (lines 228, 234). *)
Definition insert_into {R} `{HasRowid R} (get : tables -> list R)
    (set : list R -> tables -> tables) (mk : Z -> R) : Exec store Z :=
  fun st => match st with
  | Broken => (st, inr NotADatabase)
  | Live t => match new_rowid (get t) with
              | Some id => (Live (set (get t ++ [mk id]) t), inl id)
              | None => (st, inr SqliteFull)
              end
  end.

(** [db.run('DELETE FROM <table> WHERE ...')]: keeps the rows the
    condition rejects. *)
Definition delete_from {R} (get : tables -> list R)
    (set : list R -> tables -> tables) (cond : R -> bool) : Exec store unit :=
  fun st => match st with
  | Broken => (st, inr NotADatabase)
  | Live t => (Live (set (List.filter (fun r => negb (cond r)) (get t)) t), inl tt)
  end.

Definition set_boards b t := mkTables b (subjects t) (chapters t) (questions t) (playlists t) (items t).
Definition set_subjects s t := mkTables (boards t) s (chapters t) (questions t) (playlists t) (items t).
Definition set_chapters c t := mkTables (boards t) (subjects t) c (questions t) (playlists t) (items t).
Definition set_questions q t := mkTables (boards t) (subjects t) (chapters t) q (playlists t) (items t).
Definition set_playlists p t := mkTables (boards t) (subjects t) (chapters t) (questions t) p (items t).
Definition set_items i t := mkTables (boards t) (subjects t) (chapters t) (questions t) (playlists t) i.

(** [INSERT INTO boards(name) VALUES(?)] (line 48). *)
Definition insert_board (name : string) : Exec store Z :=
  insert_into boards set_boards (fun id => mkBoard id name).

(** [INSERT INTO subjects(board_id,name) VALUES(?,?)] (line 228). *)
Definition insert_subject (b : Z) (name : string) : Exec store Z :=
  insert_into subjects set_subjects (fun id => mkSubject id b name).

(** [INSERT INTO chapters(subject_id,name) VALUES(?,?)] (line 234). *)
Definition insert_chapter (s : Z) (name : string) : Exec store Z :=
  insert_into chapters set_chapters (fun id => mkChapter id s name).

(** [INSERT INTO questions(board_id,subject_id,chapter_id,marks,year,text)]
    (line 236); [handlePdfUpload]'s insert (line 258) is the instance with
    no subject, chapter or year.  [tags] is never written: NULL. *)
Definition insert_question (b s c : option Z) (marks : Z) (year : option Z)
    (text : string) : Exec store Z :=
  insert_into questions set_questions (fun id => mkQuestion id b s c marks year text None).

(** [INSERT INTO playlists(name) VALUES(?)] (line 265). *)
Definition insert_playlist (name : string) : Exec store Z :=
  insert_into playlists set_playlists (fun id => mkPlaylist id name).

(** [INSERT INTO playlist_items(playlist_id, question_id) VALUES(?,?)]
    (line 199). *)
Definition insert_item (pid qid : Z) : Exec store Z :=
  insert_into items set_items (fun id => mkItem id pid qid).

(** [DELETE FROM playlist_items WHERE playlist_id=?] (line 317). *)
Definition delete_items_of (pid : Z) : Exec store unit :=
  delete_from items set_items (fun it => Z.eqb (item_playlist it) pid).

(** [DELETE FROM playlists WHERE id=?] (line 318). *)
Definition delete_playlist_row (pid : Z) : Exec store unit :=
  delete_from playlists set_playlists (fun p => Z.eqb (pl_id p) pid).

(** [DELETE FROM playlist_items WHERE playlist_id=? AND question_id=?]
    (line 345). *)
Definition delete_item_pair (pid qid : Z) : Exec store unit :=
  delete_from items set_items
    (fun it => Z.eqb (item_playlist it) pid && Z.eqb (item_question it) qid).

(** ** Queries *)

(** [runQuery(sql, params)] (lines 37-45): the rows of the query, or no
    rows when the query throws. *)
Definition runQuery {A} (q : tables -> list A) (st : store) : list A :=
  match st with Live t => q t | Broken => [] end.

(** [SELECT id FROM subjects WHERE board_id=? AND name=?] (line 226): the
    rows in rowid order (a table scan). *)
Definition select_subject (b : Z) (name : string) (t : tables) : list Z :=
  map subject_id (List.filter (fun s => Z.eqb (subject_board s) b
                                        && String.eqb (subject_name s) name) (subjects t)).

(** [SELECT id FROM chapters WHERE subject_id=? AND name=?] (line 232). *)
Definition select_chapter (s : Z) (name : string) (t : tables) : list Z :=
  map chapter_id (List.filter (fun c => Z.eqb (chapter_subject c) s
                                        && String.eqb (chapter_name c) name) (chapters t)).

(** [SELECT COUNT( * ) FROM questions WHERE text = ?] (line 166). *)
Definition count_text (text : string) (t : tables) : Z :=
  Z.of_nat (length (List.filter (fun q => String.eqb (q_text q) text) (questions t))).

(** [SELECT COUNT( * ) FROM playlist_items WHERE playlist_id=?] (line 278). *)
Definition count_items (pid : Z) (t : tables) : Z :=
  Z.of_nat (length (List.filter (fun it => Z.eqb (item_playlist it) pid) (items t))).

(** ** Membership tests and the referential-integrity invariant

    Decidable as boolean functions, so that a concrete store is checked
    by evaluation. *)

Definition has_id {R} `{HasRowid R} (t : list R) (id : Z) : bool :=
  existsb (fun r => Z.eqb (row_id r) id) t.

Definition subject_of (t : tables) (s : Z) : option subject :=
  List.find (fun x => Z.eqb (subject_id x) s) (subjects t).
Definition chapter_of (t : tables) (c : Z) : option chapter :=
  List.find (fun x => Z.eqb (chapter_id x) c) (chapters t).

(** A question's references: its board exists; its subject exists and
    belongs to its board; its chapter exists and belongs to its subject
    (spec, section 3). *)
Definition question_args_ok (t : tables) (b s c : option Z) : bool :=
  match b with Some b => has_id (boards t) b | None => true end &&
  match s with
  | Some s => match subject_of t s with
              | Some x => bool_decide (b = Some (subject_board x))
              | None => false end
  | None => true end &&
  match c with
  | Some c => match chapter_of t c with
              | Some x => bool_decide (s = Some (chapter_subject x))
              | None => false end
  | None => true end.

Definition question_refs_ok (t : tables) (q : question) : bool :=
  question_args_ok t (q_board q) (q_subject q) (q_chapter q).

Definition refs_ok (t : tables) : bool :=
  forallb (fun s => has_id (boards t) (subject_board s)) (subjects t) &&
  forallb (fun c => has_id (subjects t) (chapter_subject c)) (chapters t) &&
  forallb (question_refs_ok t) (questions t) &&
  forallb (fun it => has_id (playlists t) (item_playlist it)
                     && has_id (questions t) (item_question it)) (items t).

(** The rowids of a table: strictly increasing (the list is in rowid
    order and the key is unique) and within [1, 2^63-1]. *)
Definition ids_ok {R} `{HasRowid R} (t : list R) : Prop :=
  StronglySorted Z.lt (map row_id t) /\ Forall (fun r => 1 <= row_id r <= max_rowid)%Z t.

Definition all_ids_ok (t : tables) : Prop :=
  ids_ok (boards t) /\ ids_ok (subjects t) /\ ids_ok (chapters t) /\
  ids_ok (questions t) /\ ids_ok (playlists t) /\ ids_ok (items t).

Definition wf (t : tables) : Prop := all_ids_ok t /\ refs_ok t = true.

(** ** Generic lemmas on one table *)

Section Table.
Context {R : Type} `{HasRowid R}.

Lemma largest_bound (t : list R) m :
  largest t = Some m -> Forall (fun r => row_id r <= m)%Z t.
Proof.
  revert m. induction t as [|r t IH]; intros m Hm; [done|]. simpl in Hm.
  destruct (largest t) as [m'|] eqn:E; injection Hm as <-.
  - constructor; [lia|]. eapply Forall_impl; [apply IH; reflexivity|]. simpl. lia.
  - constructor; [lia|]. destruct t; [constructor|]. simpl in E.
    by destruct (largest t).
Qed.

Lemma largest_In (t : list R) m : largest t = Some m -> In m (map row_id t).
Proof.
  revert m. induction t as [|r t IH]; intros m Hm; [done|]. simpl in *.
  destruct (largest t) as [m'|]; injection Hm as <-; [|by left].
  destruct (Z.max_spec (row_id r) m') as [[_ ->]|[_ ->]]; [right; by apply IH|by left].
Qed.

Lemma largest_None (t : list R) : largest t = None -> t = [].
Proof. destruct t as [|r t]; [done|]. simpl. by destruct (largest t). Qed.

(** The new rowid is larger than every rowid of the table and fits in
    64 bits. *)
Lemma new_rowid_fresh (t : list R) id :
  new_rowid t = Some id -> Forall (fun r => row_id r < id)%Z t /\ (id <= max_rowid)%Z.
Proof.
  unfold new_rowid. destruct (largest t) as [m|] eqn:E.
  - destruct (Z.ltb_spec m max_rowid); intros Hid; [|done]. injection Hid as <-.
    split; [|lia]. eapply Forall_impl; [apply largest_bound, E|]. simpl. lia.
  - intros [= <-]. rewrite (largest_None _ E). split; [constructor|done].
Qed.

Lemma new_rowid_pos (t : list R) id :
  ids_ok t -> new_rowid t = Some id -> (1 <= id)%Z.
Proof.
  intros [_ Hb]. unfold new_rowid. destruct (largest t) as [m|] eqn:E; [|intros [= <-]; lia].
  destruct (Z.ltb_spec m max_rowid); intros Hid; [|done]. injection Hid as <-.
  destruct t as [|r t]; [done|]. pose proof (largest_bound _ _ E) as Hm.
  inversion Hm; inversion Hb; subst. lia.
Qed.

(** Appending the row built from the new rowid keeps the rowids sorted and
    in range. *)
Lemma ids_ok_snoc (t : list R) id (x : R) :
  ids_ok t -> new_rowid t = Some id -> row_id x = id -> ids_ok (t ++ [x]).
Proof.
  intros Hok Hid Hx. pose proof (new_rowid_pos _ _ Hok Hid) as Hpos.
  destruct (new_rowid_fresh _ _ Hid) as [Hlt Hmax]. destruct Hok as [Hs Hb].
  split.
  - rewrite map_app. apply StronglySorted_snoc; [done|]. simpl. rewrite Hx.
    by apply Forall_map.
  - apply Forall_app. split; [done|]. constructor; [lia|constructor].
Qed.

Lemma ids_ok_filter (t : list R) (f : R -> bool) : ids_ok t -> ids_ok (List.filter f t).
Proof.
  intros [Hs Hb]. split; [by apply StronglySorted_map_filter|].
  apply List.Forall_forall. intros x Hx. apply filter_In in Hx.
  rewrite List.Forall_forall in Hb. apply Hb. tauto.
Qed.

(** SQLITE_FULL only once the rowid 2^63-1 is taken. *)
Lemma new_rowid_None_max (t : list R) :
  ids_ok t -> new_rowid t = None -> In max_rowid (map row_id t).
Proof.
  intros [Hs Hb]. unfold new_rowid.
  destruct (largest t) as [m|] eqn:E; [|done].
  destruct (Z.ltb_spec m max_rowid) as [|Hge]; [done|]. intros _.
  pose proof (largest_In _ _ E) as Hin. apply in_map_iff in Hin as (r & <- & Hin).
  rewrite List.Forall_forall in Hb. specialize (Hb r Hin).
  replace max_rowid with (row_id r) by lia. by apply in_map.
Qed.

(** On a well-formed table an INSERT fails with SQLITE_FULL
    exactly when the rowid 2^63-1 is already taken. *)
Theorem new_rowid_None_iff (t : list R) :
  ids_ok t -> new_rowid t = None <-> In max_rowid (map row_id t).
Proof.
  intros Hok. split; [by apply new_rowid_None_max|]. destruct Hok as [Hs Hb]. unfold new_rowid.
  intros Hin. destruct (largest t) as [m|] eqn:E.
  - pose proof (largest_bound _ _ E) as Hm. apply in_map_iff in Hin as (r & Hr & Hin).
    rewrite List.Forall_forall in Hm. specialize (Hm r Hin).
    destruct (Z.ltb_spec m max_rowid); [lia|done].
  - rewrite (largest_None _ E) in Hin. done.
Qed.

Lemma find_id_in (l : list R) x :
  ids_ok l -> In x l -> List.find (fun y => Z.eqb (row_id y) (row_id x)) l = Some x.
Proof.
  intros [Hs _]. induction l as [|y l IH]; intros Hin; [done|].
  inversion Hs as [|? ? Hs' Hall]; subst. simpl.
  destruct Hin as [->|Hin]; [by rewrite Z.eqb_refl|].
  destruct (Z.eqb_spec (row_id y) (row_id x)) as [Heq|]; [|by apply IH].
  rewrite List.Forall_forall in Hall. exfalso.
  assert (row_id y < row_id x)%Z by (apply Hall, in_map, Hin). lia.
Qed.

Lemma find_id_snoc_fresh (l : list R) x :
  Forall (fun y => row_id y < row_id x)%Z l ->
  List.find (fun y => Z.eqb (row_id y) (row_id x)) (l ++ [x]) = Some x.
Proof.
  induction 1 as [|y l Hy _ IH]; simpl; [by rewrite Z.eqb_refl|].
  destruct (Z.eqb_spec (row_id y) (row_id x)); [lia|done].
Qed.

Lemma has_id_of_find (l : list R) i x :
  List.find (fun y => Z.eqb (row_id y) i) l = Some x -> has_id l i = true.
Proof.
  intros Hf. apply find_some in Hf as [Hin Heq]. apply existsb_exists. eauto.
Qed.

End Table.

(** ** The invariant, decided

    [wfb] checks [wf] by evaluation; [wfb_sound] transfers the check. *)

Fixpoint increasing (l : list Z) : bool :=
  match l with
  | x :: ((y :: _) as l') => (x <? y)%Z && increasing l'
  | _ => true
  end.

Definition ids_okb {R} `{HasRowid R} (t : list R) : bool :=
  increasing (map row_id t) &&
  forallb (fun r => (1 <=? row_id r)%Z && (row_id r <=? max_rowid)%Z) t.

Definition wfb (t : tables) : bool :=
  ids_okb (boards t) && ids_okb (subjects t) && ids_okb (chapters t) &&
  ids_okb (questions t) && ids_okb (playlists t) && ids_okb (items t) && refs_ok t.

Lemma increasing_sorted l : increasing l = true -> Sorted Z.lt l.
Proof.
  induction l as [|x [|y l] IH]; simpl; intros H; [constructor|repeat constructor|].
  apply andb_true_iff in H as [Hxy H]. constructor; [by apply IH|].
  constructor. by apply Z.ltb_lt.
Qed.

Lemma ids_okb_sound {R} `{HasRowid R} (t : list R) : ids_okb t = true -> ids_ok t.
Proof.
  unfold ids_okb. intros [Hi Hb]%andb_true_iff. split.
  - apply Sorted_StronglySorted; [intros ???; lia|]. by apply increasing_sorted.
  - apply List.Forall_forall. intros x Hx. rewrite forallb_forall in Hb.
    specialize (Hb x Hx). apply andb_true_iff in Hb as [H1 H2].
    apply Z.leb_le in H1, H2. lia.
Qed.

Lemma wfb_sound t : wfb t = true -> wf t.
Proof.
  unfold wfb. repeat rewrite andb_true_iff.
  intros [[[[[[H1 H2] H3] H4] H5] H6] H7].
  split; [|done]. repeat split; by apply ids_okb_sound.
Qed.

(** ** Statements and the invariant *)

(** An INSERT either appends the row with the new rowid, or throws
    SQLITE_FULL and leaves the store as it was. *)
Lemma insert_into_cases {R} `{HasRowid R} get set (mk : Z -> R) t :
  (exists id, new_rowid (get t) = Some id /\
     insert_into get set mk (Live t) = (Live (set (get t ++ [mk id]) t), inl id)) \/
  (new_rowid (get t) = None /\ insert_into get set mk (Live t) = (Live t, inr SqliteFull)).
Proof.
  unfold insert_into. destruct (new_rowid (get t)) as [id|]; [left; by exists id|by right].
Qed.

(** One store extends another when every table of the first is a prefix
    of the same table of the second: INSERTs only extend. *)
Definition tables_prefix (t t' : tables) : Prop :=
  boards t `prefix_of` boards t' /\ subjects t `prefix_of` subjects t' /\
  chapters t `prefix_of` chapters t' /\ questions t `prefix_of` questions t' /\
  playlists t `prefix_of` playlists t' /\ items t `prefix_of` items t'.

Lemma tables_prefix_refl t : tables_prefix t t.
Proof. unfold tables_prefix. repeat split; reflexivity. Qed.

Lemma tables_prefix_trans t1 t2 t3 :
  tables_prefix t1 t2 -> tables_prefix t2 t3 -> tables_prefix t1 t3.
Proof. unfold tables_prefix. intros. intuition (etransitivity; eauto). Qed.
#[export] Hint Resolve tables_prefix_refl : studyme.

Lemma has_id_prefix {R} `{HasRowid R} (l l' : list R) i :
  l `prefix_of` l' -> has_id l i = true -> has_id l' i = true.
Proof.
  intros [k ->] Hi. unfold has_id in *. rewrite existsb_app. by rewrite Hi.
Qed.

Lemma find_prefix {A} (f : A -> bool) (l l' : list A) y :
  l `prefix_of` l' -> List.find f l = Some y -> List.find f l' = Some y.
Proof.
  intros [k ->]. induction l as [|x l IH]; [done|]. simpl.
  destruct (f x); [done|]. apply IH.
Qed.

Lemma question_refs_ok_mono t t' q :
  tables_prefix t t' -> question_refs_ok t q = true -> question_refs_ok t' q = true.
Proof.
  intros (Hb & Hs & Hc & _) Hq.
  unfold question_refs_ok, question_args_ok, subject_of, chapter_of in *.
  apply andb_prop in Hq as [Hq Hch]. apply andb_prop in Hq as [Hbo Hsu].
  repeat (apply andb_true_intro; split).
  - destruct (q_board q); [by eapply has_id_prefix|done].
  - destruct (q_subject q); [|done].
    destruct (List.find _ (subjects t)) eqn:E; [|done]. by erewrite find_prefix.
  - destruct (q_chapter q); [|done].
    destruct (List.find _ (chapters t)) eqn:E; [|done]. by erewrite find_prefix.
Qed.

(** The references of the rows already present survive an extension. *)
Lemma refs_ok_mono t t' :
  tables_prefix t t' -> refs_ok t = true ->
  forallb (fun s => has_id (boards t') (subject_board s)) (subjects t) &&
  forallb (fun c => has_id (subjects t') (chapter_subject c)) (chapters t) &&
  forallb (question_refs_ok t') (questions t) &&
  forallb (fun it => has_id (playlists t') (item_playlist it)
                     && has_id (questions t') (item_question it)) (items t) = true.
Proof.
  intros Hp Hr. pose proof Hp as (Hb & Hs & Hc & Hq & Hpl & Hi).
  unfold refs_ok in Hr. repeat rewrite andb_true_iff in Hr |- *.
  destruct Hr as [[[H1 H2] H3] H4]. rewrite !forallb_forall in *.
  repeat split; intros x Hx.
  - eapply has_id_prefix; [done|auto].
  - eapply has_id_prefix; [done|auto].
  - eapply question_refs_ok_mono; [done|auto].
  - specialize (H4 x Hx). apply andb_true_iff in H4 as [H4a H4b].
    apply andb_true_iff; split; eapply has_id_prefix; eauto.
Qed.

Lemma prefix_snoc {A} (l : list A) x : l `prefix_of` l ++ [x].
Proof. by exists [x]. Qed.
#[export] Hint Resolve prefix_snoc : studyme.

Lemma all_ids_ok_intro b s c q p i :
  ids_ok b -> ids_ok s -> ids_ok c -> ids_ok q -> ids_ok p -> ids_ok i ->
  all_ids_ok (mkTables b s c q p i).
Proof. unfold all_ids_ok. simpl. tauto. Qed.

Ltac prefix_tac := unfold tables_prefix; simpl; repeat split; auto with studyme.

(** Establish [wf] after an INSERT: sortedness from [ids_ok_snoc], the
    references of old rows from [refs_ok_mono], those of the new row from
    the hypothesis [Hnew]. *)
Ltac wf_insert_tac t Hwf Hid Hnew :=
  let H1 := fresh in let H2 := fresh in let H3 := fresh in let H4 := fresh in
  let H5 := fresh in let H6 := fresh in let Hr := fresh in
  let Hp := fresh in let Hm := fresh in
  destruct Hwf as [(H1 & H2 & H3 & H4 & H5 & H6) Hr];
  match goal with |- wf ?t' =>
    assert (Hp : tables_prefix t t') by prefix_tac;
    pose proof (refs_ok_mono _ _ Hp Hr) as Hm end;
  split;
  [ apply all_ids_ok_intro; simpl; first [assumption | eapply ids_ok_snoc; eauto]
  | unfold refs_ok; simpl in *; rewrite ?forallb_app; simpl; rewrite ?andb_true_r;
    repeat rewrite andb_true_iff in Hm |- *; intuition auto;
    try (apply andb_true_iff; split; auto);
    try (eapply has_id_prefix; [|exact Hnew]; prefix_tac);
    try (eapply question_refs_ok_mono; [|exact Hnew]; prefix_tac) ].

Section Inserts.
Variable t : tables.
Hypothesis Hwf : wf t.

Lemma wf_insert_board name t' id :
  insert_board name (Live t) = (Live t', inl id) -> wf t'.
Proof.
  unfold insert_board. destruct (insert_into_cases boards set_boards (fun id => mkBoard id name) t)
    as [(id' & Hid & ->)|[_ ->]]; [intros [= <- <-]|done].
  wf_insert_tac t Hwf Hid I.
Qed.

Lemma wf_insert_subject b name t' id :
  has_id (boards t) b = true ->
  insert_subject b name (Live t) = (Live t', inl id) -> wf t'.
Proof.
  intros Hb. unfold insert_subject.
  destruct (insert_into_cases subjects set_subjects (fun id => mkSubject id b name) t)
    as [(id' & Hid & ->)|[_ ->]]; [intros [= <- <-]|done].
  wf_insert_tac t Hwf Hid Hb.
Qed.

Lemma wf_insert_chapter sj name t' id :
  has_id (subjects t) sj = true ->
  insert_chapter sj name (Live t) = (Live t', inl id) -> wf t'.
Proof.
  intros Hs. unfold insert_chapter.
  destruct (insert_into_cases chapters set_chapters (fun id => mkChapter id sj name) t)
    as [(id' & Hid & ->)|[_ ->]]; [intros [= <- <-]|done].
  wf_insert_tac t Hwf Hid Hs.
Qed.

Lemma wf_insert_question b sj c marks year text t' id :
  question_args_ok t b sj c = true ->
  insert_question b sj c marks year text (Live t) = (Live t', inl id) -> wf t'.
Proof.
  intros Hq. unfold insert_question.
  destruct (insert_into_cases questions set_questions
              (fun id => mkQuestion id b sj c marks year text None) t)
    as [(id' & Hid & ->)|[_ ->]]; [intros [= <- <-]|done].
  change (question_refs_ok t (mkQuestion id' b sj c marks year text None) = true) in Hq.
  wf_insert_tac t Hwf Hid Hq.
Qed.

Lemma wf_insert_playlist name t' id :
  insert_playlist name (Live t) = (Live t', inl id) -> wf t'.
Proof.
  unfold insert_playlist.
  destruct (insert_into_cases playlists set_playlists (fun id => mkPlaylist id name) t)
    as [(id' & Hid & ->)|[_ ->]]; [intros [= <- <-]|done].
  wf_insert_tac t Hwf Hid I.
Qed.

Lemma wf_insert_item pid qid t' id :
  has_id (playlists t) pid = true -> has_id (questions t) qid = true ->
  insert_item pid qid (Live t) = (Live t', inl id) -> wf t'.
Proof.
  intros Hpl Hq. unfold insert_item.
  destruct (insert_into_cases items set_items (fun id => mkItem id pid qid) t)
    as [(id' & Hid & ->)|[_ ->]]; [intros [= <- <-]|done].
  assert (Hn : has_id (playlists t) pid && has_id (questions t) qid = true)
    by (by apply andb_true_iff).
  wf_insert_tac t Hwf Hid Hn.
Qed.

(** Deleting playlist items never breaks an invariant: no row refers to
    an item. *)
Lemma wf_delete_items (cond : playlist_item -> bool) :
  wf (set_items (List.filter (fun r => negb (cond r)) (items t)) t).
Proof.
  destruct Hwf as [(H1 & H2 & H3 & H4 & H5 & H6) Hr]. split.
  - apply all_ids_ok_intro; simpl; try assumption. by apply ids_ok_filter.
  - unfold refs_ok in *. simpl. repeat rewrite andb_true_iff in Hr |- *.
    intuition auto with studyme.
Qed.

Lemma has_id_filter_ne {R} `{HasRowid R} (l : list R) i j :
  i <> j -> has_id (List.filter (fun r => negb (Z.eqb (row_id r) j)) l) i = has_id l i.
Proof.
  intros Hne. induction l as [|x l IH]; [done|]. simpl.
  destruct (Z.eqb_spec (row_id x) j) as [Hx|Hx]; simpl; rewrite IH; [|done].
  destruct (Z.eqb_spec (row_id x) i); [lia|done].
Qed.

(** Deleting a playlist row keeps the invariant when no item refers to
    that playlist any more. *)
Lemma wf_delete_playlist pid :
  count_items pid t = 0%Z ->
  wf (set_playlists (List.filter (fun p => negb (Z.eqb (pl_id p) pid)) (playlists t)) t).
Proof.
  intros Hc. destruct Hwf as [(H1 & H2 & H3 & H4 & H5 & H6) Hr]. split.
  - apply all_ids_ok_intro; simpl; try assumption. by apply ids_ok_filter.
  - unfold refs_ok in *. simpl. repeat rewrite andb_true_iff in Hr |- *.
    intuition auto. rewrite forallb_forall in *. intros it Hit.
    assert (Hne : item_playlist it <> pid).
    { intros <-. unfold count_items in Hc.
      assert (Hin : In it (List.filter (fun it' => Z.eqb (item_playlist it') (item_playlist it))
                             (items t))) by (apply filter_In; split; [done|apply Z.eqb_refl]).
      destruct (List.filter _ _); [done|simpl in Hc; lia]. }
    lazymatch goal with
    | Hi : forall x : playlist_item, In x (items t) -> _ |- _ => pose proof (Hi it Hit) as Hit2
    end.
    apply andb_true_iff in Hit2 as [Hp Hq].
    apply andb_true_iff. split; [|done].
    change (has_id (List.filter (fun p => negb (Z.eqb (row_id p) pid)) (playlists t))
                   (item_playlist it) = true).
    by rewrite has_id_filter_ne.
Qed.

End Inserts.

(** ** Witnesses *)

Lemma new_rowid_None_iff_witness :
  new_rowid [mkBoard 1 "Board"; mkBoard max_rowid "Last"] = None <->
  In max_rowid (map row_id [mkBoard 1 "Board"; mkBoard max_rowid "Last"]).
Proof. apply new_rowid_None_iff. apply ids_okb_sound. vm_compute. reflexivity. Defined.

End Db.
