(* ===== verification/DbSpec.v ===== *)
(** * An abstract specification of the store, and its refinement

    What SQLite promises the script, stated without lists: a table is a
    finite map from rowid to row ([gmap Z R]); an INSERT gives the new
    row some rowid that is unused and within [1, 2^63-1] and returns it
    (SQLite takes one more than the largest when it can, and otherwise
    tries unused rowids at random before it reports SQLITE_FULL); a
    DELETE keeps the rows its condition rejects; a COUNT( * ) is the size
    of the filtered map.  [astep] is this contract, one constructor per
    statement the script runs ([stmt]).

    [Db] resolves the choice: the new rowid is one more than the largest,
    and SQLITE_FULL when the largest is already 2^63-1.  [abs] reads the
    lists of [Db] as maps; the theorems of this file show that every
    statement of [Db] is a step of [astep] ([run_stmt_refines]), that
    SQLITE_FULL is only raised when the contract lets it be, and that the
    queries compute the counts of the abstract tables. *)

From Stdlib Require Import String ZArith List Lia Sorting.Sorted.
From stdpp Require Import base list gmap.
From S2P Require Import Prelude Db.

Module DbSpec.
Import Db.
Local Open Scope exec_scope.

(** ** A table as a map *)

Section Rows.
Context {R : Type} `{HasRowid R}.

(** The rows of a table, keyed by rowid. *)
Definition tmap (l : list R) : gmap Z R := list_to_map (map (fun r => (row_id r, r)) l).

(** A rowid SQLite may give a new row: unused, and a positive 64-bit
    integer. *)
Definition fresh_rowid (m : gmap Z R) (k : Z) : Prop :=
  m !! k = None /\ (1 <= k <= max_rowid)%Z.

(** The abstract INSERT: the row built from some fresh rowid. *)
Definition ains (m : gmap Z R) (mk : Z -> R) (k : Z) : gmap Z R := <[k := mk k]> m.

(** The abstract DELETE: the rows the condition rejects. *)
Definition adel (m : gmap Z R) (cond : R -> bool) : gmap Z R :=
  filter (fun kv => cond kv.2 = false) m.

End Rows.

(** ** The abstract tables *)

Record atables := mkATables {
  a_boards : gmap Z board; a_subjects : gmap Z subject; a_chapters : gmap Z chapter;
  a_questions : gmap Z question; a_playlists : gmap Z playlist; a_items : gmap Z playlist_item }.

Definition abs (t : tables) : atables :=
  mkATables (tmap (boards t)) (tmap (subjects t)) (tmap (chapters t))
            (tmap (questions t)) (tmap (playlists t)) (tmap (items t)).

Definition aset_boards m a := mkATables m (a_subjects a) (a_chapters a) (a_questions a) (a_playlists a) (a_items a).
Definition aset_subjects m a := mkATables (a_boards a) m (a_chapters a) (a_questions a) (a_playlists a) (a_items a).
Definition aset_chapters m a := mkATables (a_boards a) (a_subjects a) m (a_questions a) (a_playlists a) (a_items a).
Definition aset_questions m a := mkATables (a_boards a) (a_subjects a) (a_chapters a) m (a_playlists a) (a_items a).
Definition aset_playlists m a := mkATables (a_boards a) (a_subjects a) (a_chapters a) (a_questions a) m (a_items a).
Definition aset_items m a := mkATables (a_boards a) (a_subjects a) (a_chapters a) (a_questions a) (a_playlists a) m.

(** ** The statements of the script *)

Inductive stmt :=
| InsBoard (name : string)                          (* line 48 *)
| InsSubject (b : Z) (name : string)                (* line 228 *)
| InsChapter (s : Z) (name : string)                (* line 234 *)
| InsQuestion (b s c : option Z) (marks : Z) (year : option Z) (text : string)
                                                    (* lines 236, 258 *)
| InsPlaylist (name : string)                       (* line 265 *)
| InsItem (pid qid : Z)                             (* line 199 *)
| DelItemsOf (pid : Z)                              (* line 317 *)
| DelPlaylistRow (pid : Z)                          (* line 318 *)
| DelItemPair (pid qid : Z).                        (* line 345 *)

(** A statement run by [db.run]: an INSERT returns its rowid. *)
Definition run_stmt (s : stmt) : Exec store (option Z) :=
  match s with
  | InsBoard n => k <- insert_board n ;; ret (Some k)
  | InsSubject b n => k <- insert_subject b n ;; ret (Some k)
  | InsChapter c n => k <- insert_chapter c n ;; ret (Some k)
  | InsQuestion b s c m y x => k <- insert_question b s c m y x ;; ret (Some k)
  | InsPlaylist n => k <- insert_playlist n ;; ret (Some k)
  | InsItem p q => k <- insert_item p q ;; ret (Some k)
  | DelItemsOf p => delete_items_of p ;;; ret None
  | DelPlaylistRow p => delete_playlist_row p ;;; ret None
  | DelItemPair p q => delete_item_pair p q ;;; ret None
  end.

(** The contract: the steps SQLite may take on each statement. *)
Inductive astep : stmt -> atables -> atables -> option Z -> Prop :=
| AInsBoard n a k : fresh_rowid (a_boards a) k ->
    astep (InsBoard n) a (aset_boards (ains (a_boards a) (fun i => mkBoard i n) k) a) (Some k)
| AInsSubject b n a k : fresh_rowid (a_subjects a) k ->
    astep (InsSubject b n) a (aset_subjects (ains (a_subjects a) (fun i => mkSubject i b n) k) a) (Some k)
| AInsChapter s n a k : fresh_rowid (a_chapters a) k ->
    astep (InsChapter s n) a (aset_chapters (ains (a_chapters a) (fun i => mkChapter i s n) k) a) (Some k)
| AInsQuestion b s c m y x a k : fresh_rowid (a_questions a) k ->
    astep (InsQuestion b s c m y x) a
          (aset_questions (ains (a_questions a) (fun i => mkQuestion i b s c m y x None) k) a) (Some k)
| AInsPlaylist n a k : fresh_rowid (a_playlists a) k ->
    astep (InsPlaylist n) a (aset_playlists (ains (a_playlists a) (fun i => mkPlaylist i n) k) a) (Some k)
| AInsItem p q a k : fresh_rowid (a_items a) k ->
    astep (InsItem p q) a (aset_items (ains (a_items a) (fun i => mkItem i p q) k) a) (Some k)
| ADelItemsOf p a :
    astep (DelItemsOf p) a (aset_items (adel (a_items a) (fun it => Z.eqb (item_playlist it) p)) a) None
| ADelPlaylistRow p a :
    astep (DelPlaylistRow p) a (aset_playlists (adel (a_playlists a) (fun r => Z.eqb (pl_id r) p)) a) None
| ADelItemPair p q a :
    astep (DelItemPair p q) a
          (aset_items (adel (a_items a) (fun it => Z.eqb (item_playlist it) p && Z.eqb (item_question it) q)) a)
          None.

(** SQLite may report SQLITE_FULL on an INSERT only once the largest
    rowid, 2^63-1, is in use. *)
Definition may_be_full (s : stmt) (a : atables) : Prop :=
  match s with
  | InsBoard _ => is_Some (a_boards a !! max_rowid)
  | InsSubject _ _ => is_Some (a_subjects a !! max_rowid)
  | InsChapter _ _ => is_Some (a_chapters a !! max_rowid)
  | InsQuestion _ _ _ _ _ _ => is_Some (a_questions a !! max_rowid)
  | InsPlaylist _ => is_Some (a_playlists a !! max_rowid)
  | InsItem _ _ => is_Some (a_items a !! max_rowid)
  | _ => False
  end.

(** Any number of steps of the contract. *)
Definition asteps : relation atables := rtc (fun a b => exists s v, astep s a b v).

(** ** Tables as maps *)

Section TableLemmas.
Context {R : Type} `{HasRowid R}.

Lemma tmap_keys (l : list R) : (map (fun r => (row_id r, r)) l).*1 = map row_id l.
Proof. induction l as [|r l IH]; [done|]. csimpl. by f_equal. Qed.

Lemma ids_ok_NoDup (l : list R) : ids_ok l -> NoDup (map row_id l).
Proof.
  intros [Hs _]. induction l as [|r l IH]; [constructor|]. cbn [map] in Hs.
  apply StronglySorted_inv in Hs as [Hs Hall]. constructor; [|by apply IH].
  rewrite list_elem_of_In. intros Hin. rewrite List.Forall_forall in Hall.
  specialize (Hall _ Hin). lia.
Qed.

Lemma tmap_lookup_None (l : list R) k : tmap l !! k = None <-> ~ In k (map row_id l).
Proof. unfold tmap. by rewrite <- not_elem_of_list_to_map, tmap_keys, list_elem_of_In. Qed.

Lemma tmap_snoc (l : list R) x :
  ~ In (row_id x) (map row_id l) -> tmap (l ++ [x]) = <[row_id x := x]> (tmap l).
Proof.
  intros Hx. unfold tmap. rewrite map_app. apply list_to_map_snoc.
  by rewrite tmap_keys, list_elem_of_In.
Qed.

Lemma tmap_filter (l : list R) (f : R -> bool) :
  NoDup (map row_id l) -> tmap (List.filter f l) = filter (fun kv => f kv.2 = true) (tmap l).
Proof.
  induction l as [|r l IH]; intros Hnd; [symmetry; apply map_filter_empty|].
  cbn [map] in Hnd. apply NoDup_cons in Hnd as [Hr Hnd].
  unfold tmap at 2. cbn [map]. rewrite list_to_map_cons, map_filter_insert. cbn [List.filter].
  destruct (f r) eqn:E.
  - rewrite decide_True by done. unfold tmap. cbn [map]. rewrite list_to_map_cons. f_equal. by apply IH.
  - rewrite decide_False by (simpl; congruence). rewrite delete_id; [by apply IH|].
    apply tmap_lookup_None. by rewrite <- list_elem_of_In.
Qed.

Lemma not_in_of_lt (l : list R) k :
  Forall (fun r => row_id r < k)%Z l -> ~ In k (map row_id l).
Proof.
  intros Hall (r & Hr & Hin)%in_map_iff. rewrite List.Forall_forall in Hall.
  specialize (Hall r Hin). lia.
Qed.

(** The INSERT of [Db] is an abstract INSERT: on a table with sorted
    in-range rowids, the rowid it allocates is fresh, and the new table
    is the old map with the new row at that key.  It fails only with
    SQLITE_FULL, and only when 2^63-1 is in use. *)
Lemma insert_into_refines get set (mk : Z -> R) t st' r :
  ids_ok (get t) -> (forall i, row_id (mk i) = i) ->
  (k <- insert_into get set mk ;; ret (Some k)) (Live t) = (st', r) ->
  match r with
  | inl v => exists k, v = Some k /\ st' = Live (set (get t ++ [mk k]) t) /\ ids_ok (get t ++ [mk k]) /\
             fresh_rowid (tmap (get t)) k /\ tmap (get t ++ [mk k]) = ains (tmap (get t)) mk k
  | inr e => st' = Live t /\ e = SqliteFull /\ is_Some (tmap (get t) !! max_rowid)
  end.
Proof.
  intros Hok Hmk. unfold bind, insert_into, ret.
  destruct (new_rowid (get t)) as [k|] eqn:E; intros [= <- <-].
  - destruct (new_rowid_fresh _ _ E) as [Hlt Hmax]. pose proof (new_rowid_pos _ _ Hok E).
    pose proof (not_in_of_lt _ _ Hlt) as Hni. exists k. do 2 (split; [done|]).
    split; [by apply (ids_ok_snoc _ k)|]. split.
    + split; [by apply tmap_lookup_None|lia].
    + unfold ains. rewrite <- (Hmk k) at 2. apply tmap_snoc. by rewrite Hmk.
  - do 2 (split; [done|]). apply (new_rowid_None_iff _ Hok) in E.
    destruct (tmap (get t) !! max_rowid) eqn:Hm; [done|]. by apply tmap_lookup_None in Hm.
Qed.

(** The DELETE of [Db] is the abstract DELETE. *)
Lemma delete_from_refines (cond : R -> bool) (l : list R) :
  ids_ok l -> tmap (List.filter (fun r => negb (cond r)) l) = adel (tmap l) cond.
Proof.
  intros Hok. rewrite tmap_filter by (by apply ids_ok_NoDup). apply map_filter_ext.
  intros i x _. simpl. by rewrite negb_true_iff.
Qed.

Lemma tmap_lookup_key (l : list R) k x : tmap l !! k = Some x -> row_id x = k.
Proof.
  unfold tmap. intros Hx%elem_of_list_to_map_2. rewrite list_elem_of_In in Hx.
  apply in_map_iff in Hx as (r & Hr & _). by injection Hr as <- <-.
Qed.

(** [DELETE ... WHERE id=?] removes the key. *)
Lemma adel_by_id (l : list R) k : adel (tmap l) (fun r => Z.eqb (row_id r) k) = delete k (tmap l).
Proof.
  apply map_eq. intros i. unfold adel. rewrite map_lookup_filter, lookup_delete.
  destruct (tmap l !! i) as [x|] eqn:Hx; simpl; [|by case_decide].
  pose proof (tmap_lookup_key _ _ _ Hx) as <-.
  destruct (Z.eqb_spec (row_id x) k); case_guard; case_decide; simpl in *; congruence.
Qed.

(** A [COUNT( * ) ... WHERE] over the list is the size of the filtered
    map. *)
Lemma count_refines (l : list R) (f : R -> bool) :
  ids_ok l -> length (List.filter f l) = size (filter (fun kv => f kv.2 = true) (tmap l)).
Proof.
  intros Hok. rewrite <- tmap_filter by (by apply ids_ok_NoDup). unfold tmap.
  rewrite map_size_list_to_map, length_map; [done|].
  rewrite tmap_keys. by apply ids_ok_NoDup, ids_ok_filter.
Qed.

End TableLemmas.

(** ** Every statement of [Db] is a step of the contract *)

Lemma astep_eq s a b b' v : astep s a b v -> b = b' -> astep s a b' v.
Proof. by intros ? <-. Qed.

Ltac abs_simpl :=
  unfold abs, aset_boards, aset_subjects, aset_chapters, aset_questions, aset_playlists, aset_items,
    set_boards, set_subjects, set_chapters, set_questions, set_playlists, set_items;
  cbn [a_boards a_subjects a_chapters a_questions a_playlists a_items
       boards subjects chapters questions playlists items].

Ltac ids_tac Hall :=
  unfold all_ids_ok, set_boards, set_subjects, set_chapters, set_questions, set_playlists, set_items;
  cbn [boards subjects chapters questions playlists items]; unfold all_ids_ok in Hall;
  intuition auto using ids_ok_filter.

Ltac ins_case Hall Hok H :=
  apply insert_into_refines in H; [|exact Hok|reflexivity];
  match type of H with
  | match ?r with inl _ => _ | inr _ => _ end =>
      destruct r as [v|e];
      [destruct H as (k & -> & -> & Hids & Hf & Heq); eexists; split; [reflexivity|];
       split; [ids_tac Hall|];
       eapply astep_eq; [constructor; exact Hf|]; abs_simpl; by rewrite Heq
      |exact H]
  end.

Ltac del_case Hall Hok H :=
  unfold bind, ret, delete_from in H; injection H as <- <-; eexists; split; [reflexivity|];
  split; [ids_tac Hall|];
  eapply astep_eq; [constructor|]; abs_simpl; f_equal; symmetry; apply (delete_from_refines _ _ Hok).

(** A statement on a store with sorted in-range rowids: on success the
    new store has them too and the statement is a step of the contract;
    on failure it is SQLITE_FULL where the contract allows it. *)
Lemma run_stmt_sound s t st' r :
  all_ids_ok t -> run_stmt s (Live t) = (st', r) ->
  match r with
  | inl v => exists t', st' = Live t' /\ all_ids_ok t' /\ astep s (abs t) (abs t') v
  | inr e => st' = Live t /\ e = SqliteFull /\ may_be_full s (abs t)
  end.
Proof.
  intros Hall H. pose proof Hall as (Hb & Hs & Hc & Hq & Hp & Hi).
  destruct s; cbn [run_stmt] in H;
    unfold insert_board, insert_subject, insert_chapter, insert_question, insert_playlist,
      insert_item, delete_items_of, delete_playlist_row, delete_item_pair in H.
  - ins_case Hall Hb H.
  - ins_case Hall Hs H.
  - ins_case Hall Hc H.
  - ins_case Hall Hq H.
  - ins_case Hall Hp H.
  - ins_case Hall Hi H.
  - del_case Hall Hi H.
  - del_case Hall Hp H.
  - del_case Hall Hi H.
Qed.

(** Whatever its outcome, a statement takes the store by steps of the
    contract to a store with sorted in-range rowids. *)
Lemma run_stmt_steps s t st' r :
  all_ids_ok t -> run_stmt s (Live t) = (st', r) ->
  exists t', st' = Live t' /\ all_ids_ok t' /\ asteps (abs t) (abs t').
Proof.
  intros Hall H. pose proof (run_stmt_sound _ _ _ _ Hall H) as Hs. destruct r as [v|e].
  - destruct Hs as (t' & -> & Hok & Hst). exists t'. do 2 (split; [done|]). apply rtc_once. eauto.
  - destruct Hs as (-> & _). exists t. do 2 (split; [done|]). apply rtc_refl.
Qed.

(** C32: every statement the script runs refines the contract: on a
    store whose tables have sorted in-range rowids, a statement that
    succeeds is a step of [astep] between the abstract tables (an INSERT
    takes a fresh rowid in [1, 2^63-1] and returns it, a DELETE removes
    exactly the matching rows), and one that fails raised SQLITE_FULL
    where the contract allows it, leaving the store unchanged. *)
Theorem run_stmt_refines s t st' r :
  all_ids_ok t -> run_stmt s (Live t) = (st', r) ->
  match r with
  | inl v => exists t', st' = Live t' /\ astep s (abs t) (abs t') v
  | inr e => st' = Live t /\ e = SqliteFull /\ may_be_full s (abs t)
  end.
Proof.
  intros Hall H. pose proof (run_stmt_sound _ _ _ _ Hall H) as Hs.
  destruct r; [destruct Hs as (t' & ? & _ & ?); eauto|exact Hs].
Qed.

(** The counts the pages show are counts of the abstract tables:
    [SELECT COUNT( * ) FROM questions WHERE text = ?] is the number of
    questions with that text, and [SELECT COUNT( * ) FROM playlist_items
    WHERE playlist_id=?] the number of items of the playlist, as sizes of
    the filtered maps. *)
Theorem queries_refine t x pid :
  all_ids_ok t ->
  count_text x t =
    Z.of_nat (size (filter (fun kv => String.eqb (q_text kv.2) x = true) (a_questions (abs t)))) /\
  count_items pid t =
    Z.of_nat (size (filter (fun kv => Z.eqb (item_playlist kv.2) pid = true) (a_items (abs t)))).
Proof.
  intros (_ & _ & _ & Hq & _ & Hi). unfold count_text, count_items.
  split; f_equal; by apply count_refines.
Qed.

(** ** Instances *)

Definition demo_tables : tables :=
  mkTables [mkBoard 1 "Physics"] [] [] [] [mkPlaylist 1 "Mechanics"; mkPlaylist 2 "Optics"] [].

Lemma run_stmt_refines_witness :
  exists t', fst (run_stmt (InsBoard "Chemistry") (Live demo_tables)) = Live t' /\
             astep (InsBoard "Chemistry") (abs demo_tables) (abs t') (Some 2%Z).
Proof.
  apply (run_stmt_refines (InsBoard "Chemistry") demo_tables _ (inl (Some 2%Z))).
  - exact (proj1 (wfb_sound demo_tables eq_refl)).
  - vm_compute. reflexivity.
Defined.

Lemma queries_refine_witness :
  count_items 1 demo_tables =
    Z.of_nat (size (filter (fun kv => Z.eqb (item_playlist kv.2) 1 = true) (a_items (abs demo_tables)))).
Proof.
  apply (queries_refine demo_tables "Motion" 1). exact (proj1 (wfb_sound demo_tables eq_refl)).
Defined.

End DbSpec.
