(* ===== verification/Base64.v ===== *)
(** * The slot encoding: [btoa] and [atob] (src/app/index.js:8, 33)

    [saveDBToLocalStorage] turns the exported bytes into a binary string
    with [String.fromCharCode(...data)] and encodes it with [btoa];
    [initDB] decodes the slot with [atob] and reads the bytes back with
    [charCodeAt].  A byte is Stdlib's [Byte.byte]; a binary string is a
    [string] whose code units are the bytes ([ascii_of_byte] and
    [byte_of_ascii] are [fromCharCode] and [charCodeAt] on 0..255).
    [btoa] is RFC 4648 base64 with padding; [atob] is the HTML
    standard's forgiving-base64 decode: ASCII whitespace is removed, one
    or two trailing '=' are removed from a length divisible by 4, a
    length of 1 modulo 4 or a character outside the alphabet fails, and
    the bits left over at the end are discarded. *)

From Stdlib Require Import String Ascii ZArith List Lia Bool.
From stdpp Require Import base list.
From S2P Require Import Prelude JsString.

Module B64.

Definition alphabet : string :=
  "ABCDEFGHIJKLMNOPQRSTUVWXYZabcdefghijklmnopqrstuvwxyz0123456789+/".

Definition pad : ascii := "="%char.

(** The character of a sextet 0..63. *)
Definition enc_char (i : Z) : ascii :=
  match String.get (Z.to_nat i) alphabet with Some c => c | None => pad end.

(** The sextet of an alphabet character. *)
Definition dec_char (c : ascii) : option Z :=
  let n := Z.of_nat (nat_of_ascii c) in
  if (65 <=? n)%Z && (n <=? 90)%Z then Some (n - 65)%Z
  else if (97 <=? n)%Z && (n <=? 122)%Z then Some (n - 71)%Z
  else if (48 <=? n)%Z && (n <=? 57)%Z then Some (n + 4)%Z
  else if (n =? 43)%Z then Some 62%Z
  else if (n =? 47)%Z then Some 63%Z
  else None.

Definition code (c : ascii) : Z := Z.of_nat (nat_of_ascii c).

(** The four sextets of three bytes, by shifts and masks. *)
Definition sextets3 (a b c : ascii) : list Z :=
  let n := Z.lor (Z.shiftl (code a) 16) (Z.lor (Z.shiftl (code b) 8) (code c)) in
  [Z.shiftr n 18; Z.land (Z.shiftr n 12) 63; Z.land (Z.shiftr n 6) 63; Z.land n 63].

(** The sextets of a binary string: four per three bytes, then three for
    two trailing bytes or two for one (the missing bytes read as 0). *)
Fixpoint sextets (l : list ascii) : list Z :=
  match l with
  | a :: b :: c :: r => sextets3 a b c ++ sextets r
  | [a; b] => take 3 (sextets3 a b Ascii.zero)
  | [a] => take 2 (sextets3 a Ascii.zero Ascii.zero)
  | [] => []
  end.

Definition padding (n : nat) : list ascii :=
  match (n mod 3)%nat with 1%nat => [pad; pad] | 2%nat => [pad] | _ => [] end.

(** [btoa(s)]. *)
Definition btoa (s : string) : string :=
  let l := list_ascii_of_string s in
  string_of_list_ascii (map enc_char (sextets l) ++ padding (length l)).

(** ASCII whitespace of the HTML standard: TAB, LF, FF, CR, SPACE. *)
Definition ascii_ws (c : ascii) : bool :=
  existsb (Nat.eqb (nat_of_ascii c)) [9; 10; 12; 13; 32]%nat.

(** Remove one or two trailing '=' (step 2 of the decode). *)
Definition strip_padding (l : list ascii) : list ascii :=
  match rev l with
  | c1 :: c2 :: r => if Ascii.eqb c1 pad then
                       if Ascii.eqb c2 pad then rev r else rev (c2 :: r)
                     else l
  | [c1] => if Ascii.eqb c1 pad then [] else l
  | [] => l
  end.

(** Bytes from groups of four sextets; a last group of three gives two
    bytes and one of two gives one byte, the extra bits discarded. *)
Fixpoint bytes_of (xs : list Z) : list ascii :=
  match xs with
  | s1 :: s2 :: s3 :: s4 :: r =>
      let n := Z.lor (Z.shiftl s1 18) (Z.lor (Z.shiftl s2 12) (Z.lor (Z.shiftl s3 6) s4)) in
      ascii_of_nat (Z.to_nat (Z.shiftr n 16)) ::
      ascii_of_nat (Z.to_nat (Z.land (Z.shiftr n 8) 255)) ::
      ascii_of_nat (Z.to_nat (Z.land n 255)) :: bytes_of r
  | [s1; s2; s3] =>
      let n := Z.shiftr (Z.lor (Z.shiftl s1 12) (Z.lor (Z.shiftl s2 6) s3)) 2 in
      [ascii_of_nat (Z.to_nat (Z.shiftr n 8)); ascii_of_nat (Z.to_nat (Z.land n 255))]
  | [s1; s2] =>
      let n := Z.shiftr (Z.lor (Z.shiftl s1 6) s2) 4 in
      [ascii_of_nat (Z.to_nat n)]
  | _ => []
  end.

Fixpoint map_option {A B} (f : A -> option B) (l : list A) : option (list B) :=
  match l with
  | [] => Some []
  | x :: r => match f x, map_option f r with
              | Some y, Some ys => Some (y :: ys)
              | _, _ => None
              end
  end.

(** [atob(s)]: [None] where it throws InvalidCharacterError. *)
Definition atob (s : string) : option string :=
  let l0 := List.filter (fun c => negb (ascii_ws c)) (list_ascii_of_string s) in
  let l := if (length l0 mod 4 =? 0)%nat then strip_padding l0 else l0 in
  if (length l mod 4 =? 1)%nat then None
  else match map_option dec_char l with
       | Some xs => Some (string_of_list_ascii (bytes_of xs))
       | None => None
       end.

(** [String.fromCharCode(...data)] and [Uint8Array.from(s, c => c.charCodeAt(0))]. *)
Definition from_char_codes (data : list Byte.byte) : string :=
  string_of_list_ascii (map ascii_of_byte data).
Definition char_codes (s : string) : list Byte.byte :=
  map byte_of_ascii (list_ascii_of_string s).

(** ** Lemmas *)

Lemma code_range c : (0 <= code c < 256)%Z.
Proof. unfold code. pose proof (nat_ascii_bounded c). lia. Qed.

Lemma code_inj c : ascii_of_nat (Z.to_nat (code c)) = c.
Proof. unfold code. rewrite Nat2Z.id. apply ascii_nat_embedding. Qed.

Lemma land_mask x k : (0 <= k)%Z -> Z.land x (2 ^ k - 1) = (x mod 2 ^ k)%Z.
Proof. intros Hk. rewrite <- Z.land_ones by done. f_equal. by rewrite Z.ones_equiv. Qed.

(** The powers of two of the encoding as numerals, for [lia]. *)
Ltac pows :=
  change (2 ^ 2)%Z with 4%Z in *; change (2 ^ 4)%Z with 16%Z in *;
  change (2 ^ 6)%Z with 64%Z in *; change (2 ^ 8)%Z with 256%Z in *;
  change (2 ^ 12)%Z with 4096%Z in *; change (2 ^ 16)%Z with 65536%Z in *;
  change (2 ^ 18)%Z with 262144%Z in *.

Lemma sextets3_value a b c :
  sextets3 a b c =
  let n := (code a * 65536 + (code b * 256 + code c))%Z in
  [n / 262144; (n / 4096) mod 64; (n / 64) mod 64; n mod 64]%Z.
Proof.
  pose proof (code_range a). pose proof (code_range b). pose proof (code_range c).
  unfold sextets3. change 63%Z with (2 ^ 6 - 1)%Z.
  rewrite (lor_shiftl_add (code b) (code c) 8) by (pows; lia).
  rewrite (lor_shiftl_add (code a) _ 16) by (pows; lia).
  rewrite !Z.shiftr_div_pow2, !land_mask by lia. pows. reflexivity.
Qed.

Lemma bytes_of_four s1 s2 s3 s4 r :
  (0 <= s2 < 64)%Z -> (0 <= s3 < 64)%Z -> (0 <= s4 < 64)%Z ->
  bytes_of (s1 :: s2 :: s3 :: s4 :: r) =
  let m := (s1 * 262144 + (s2 * 4096 + (s3 * 64 + s4)))%Z in
  ascii_of_nat (Z.to_nat (m / 65536)) :: ascii_of_nat (Z.to_nat ((m / 256) mod 256)) ::
  ascii_of_nat (Z.to_nat (m mod 256)) :: bytes_of r.
Proof.
  intros H2 H3 H4. cbn [bytes_of]. change 255%Z with (2 ^ 8 - 1)%Z.
  rewrite (lor_shiftl_add s3 s4 6) by (pows; lia).
  rewrite (lor_shiftl_add s2 _ 12) by (pows; lia).
  rewrite (lor_shiftl_add s1 _ 18) by (pows; lia).
  rewrite !Z.shiftr_div_pow2, !land_mask by lia. pows. reflexivity.
Qed.

Lemma group_roundtrip a b c r :
  bytes_of (sextets3 a b c ++ r) = a :: b :: c :: bytes_of r.
Proof.
  pose proof (code_range a). pose proof (code_range b). pose proof (code_range c).
  rewrite sextets3_value. cbv zeta. cbn [app].
  rewrite bytes_of_four by (apply Z.mod_pos_bound; lia). cbv zeta.
  set (A := code a). set (B := code b). set (C := code c).
  set (n := (A * 65536 + (B * 256 + C))%Z).
  assert (Hm : (n / 262144 * 262144 + ((n / 4096) mod 64 * 4096 +
                ((n / 64) mod 64 * 64 + n mod 64)))%Z = n) by (unfold n; zify_divmod).
  rewrite Hm. unfold n.
  replace ((A * 65536 + (B * 256 + C)) / 65536)%Z with A by zify_divmod.
  replace (((A * 65536 + (B * 256 + C)) / 256) mod 256)%Z with B by zify_divmod.
  replace ((A * 65536 + (B * 256 + C)) mod 256)%Z with C by zify_divmod.
  unfold A, B, C. by rewrite !code_inj.
Qed.

Lemma bytes_of_three s1 s2 s3 :
  (0 <= s2 < 64)%Z -> (0 <= s3 < 64)%Z ->
  bytes_of [s1; s2; s3] =
  let m := ((s1 * 4096 + (s2 * 64 + s3)) / 4)%Z in
  [ascii_of_nat (Z.to_nat (m / 256)); ascii_of_nat (Z.to_nat (m mod 256))].
Proof.
  intros H2 H3. cbn [bytes_of]. change 255%Z with (2 ^ 8 - 1)%Z.
  rewrite (lor_shiftl_add s2 s3 6) by (pows; lia).
  rewrite (lor_shiftl_add s1 _ 12) by (pows; lia).
  rewrite !Z.shiftr_div_pow2, !land_mask by lia. pows. reflexivity.
Qed.

Lemma bytes_of_two s1 s2 :
  (0 <= s2 < 64)%Z -> bytes_of [s1; s2] = [ascii_of_nat (Z.to_nat ((s1 * 64 + s2) / 16))].
Proof.
  intros H2. cbn [bytes_of]. rewrite (lor_shiftl_add s1 s2 6) by (pows; lia).
  rewrite Z.shiftr_div_pow2 by lia. pows. reflexivity.
Qed.

(** Two trailing bytes: the three sextets give them back. *)
Lemma pair_roundtrip a b : bytes_of (take 3 (sextets3 a b Ascii.zero)) = [a; b].
Proof.
  pose proof (code_range a). pose proof (code_range b).
  rewrite sextets3_value. cbv zeta. cbn [take].
  rewrite bytes_of_three by (apply Z.mod_pos_bound; lia). cbv zeta.
  change (code Ascii.zero) with 0%Z.
  set (A := code a). set (B := code b).
  replace ((A * 65536 + (B * 256 + 0)) / 262144 * 4096 +
           (((A * 65536 + (B * 256 + 0)) / 4096) mod 64 * 64 +
            ((A * 65536 + (B * 256 + 0)) / 64) mod 64))%Z
    with (A * 1024 + B * 4)%Z by zify_divmod.
  replace ((A * 1024 + B * 4) / 4)%Z with (A * 256 + B)%Z by zify_divmod.
  replace ((A * 256 + B) / 256)%Z with A by zify_divmod.
  replace ((A * 256 + B) mod 256)%Z with B by zify_divmod.
  unfold A, B. by rewrite !code_inj.
Qed.

(** One trailing byte: the two sextets give it back. *)
Lemma single_roundtrip a : bytes_of (take 2 (sextets3 a Ascii.zero Ascii.zero)) = [a].
Proof.
  pose proof (code_range a).
  rewrite sextets3_value. cbv zeta. cbn [take].
  rewrite bytes_of_two by (apply Z.mod_pos_bound; lia).
  change (code Ascii.zero) with 0%Z. set (A := code a).
  replace (((A * 65536 + (0 * 256 + 0)) / 262144 * 64 +
            ((A * 65536 + (0 * 256 + 0)) / 4096) mod 64) / 16)%Z with A by zify_divmod.
  unfold A. by rewrite code_inj.
Qed.

Definition sextet (x : Z) : Prop := (0 <= x < 64)%Z.

Lemma sextets3_range a b c : Forall sextet (sextets3 a b c).
Proof.
  pose proof (code_range a). pose proof (code_range b). pose proof (code_range c).
  rewrite sextets3_value. cbv zeta. unfold sextet.
  repeat constructor; try (apply Z.mod_pos_bound; lia); zify_divmod.
Qed.

Lemma sextets_range l : Forall sextet (sextets l).
Proof.
  induction l as [| a | a b | a b c r IH] using list3_ind; cbn [sextets].
  - constructor.
  - apply Forall_take, sextets3_range.
  - apply Forall_take, sextets3_range.
  - apply Forall_app; split; [apply sextets3_range|exact IH].
Qed.

(** Decoding the sextets of a binary string gives the string back. *)
Lemma bytes_of_sextets l : bytes_of (sextets l) = l.
Proof.
  induction l as [| a | a b | a b c r IH] using list3_ind; cbn [sextets].
  - reflexivity.
  - apply single_roundtrip.
  - apply pair_roundtrip.
  - by rewrite group_roundtrip, IH.
Qed.

(** Four characters per three bytes, with the last group padded to four. *)
Lemma sextets_length l :
  (length (sextets l) + length (padding (length l))) mod 4 = 0%nat /\
  length (sextets l) mod 4 <> 1%nat.
Proof.
  induction l as [| a | a b | a b c r IH] using list3_ind; [done..|].
  cbn [sextets length]. rewrite length_app.
  replace (length (sextets3 a b c)) with 4%nat by reflexivity.
  replace (padding (S (S (S (length r))))) with (padding (length r)).
  2:{ unfold padding. f_equal. replace (S (S (S (length r)))) with (length r + 1 * 3)%nat by lia.
      by rewrite Nat.Div0.mod_add. }
  destruct IH as [IH1 IH2]. split.
  - replace (4 + length (sextets r) + length (padding (length r)))%nat
      with ((length (sextets r) + length (padding (length r))) + 1 * 4)%nat by lia.
    by rewrite Nat.Div0.mod_add.
  - replace (4 + length (sextets r))%nat with (length (sextets r) + 1 * 4)%nat by lia.
    by rewrite Nat.Div0.mod_add.
Qed.

(** The 64 characters of the alphabet, checked one by one: each decodes
    to its sextet, none is whitespace, none is the pad. *)
Definition enc_ok (i : Z) : bool :=
  match dec_char (enc_char i) with Some j => Z.eqb i j | None => false end &&
  negb (ascii_ws (enc_char i)) && negb (Ascii.eqb (enc_char i) pad).

Lemma enc_ok_all : forallb enc_ok (map Z.of_nat (seq 0 64)) = true.
Proof. vm_compute. reflexivity. Qed.

Lemma enc_char_ok i :
  sextet i -> dec_char (enc_char i) = Some i /\ ascii_ws (enc_char i) = false /\ enc_char i <> pad.
Proof.
  intros Hi. pose proof enc_ok_all as Hall. rewrite forallb_forall in Hall.
  specialize (Hall i). unfold enc_ok in Hall.
  destruct (dec_char (enc_char i)) as [j|]; rewrite ?andb_true_iff, ?negb_true_iff in Hall;
    (destruct Hall as [[Hj Hw] Hp]; [apply in_map_iff; exists (Z.to_nat i);
      rewrite in_seq; unfold sextet in Hi; split; lia|]).
  - apply Z.eqb_eq in Hj as ->. repeat split; [done|]. by apply Ascii.eqb_neq.
  - discriminate.
Qed.

Lemma map_option_enc xs : Forall sextet xs -> map_option dec_char (map enc_char xs) = Some xs.
Proof.
  induction 1 as [|x xs Hx _ IH]; [done|]. simpl.
  by rewrite (proj1 (enc_char_ok x Hx)), IH.
Qed.

Lemma padding_cases n : padding n = [] \/ padding n = [pad] \/ padding n = [pad; pad].
Proof. unfold padding. destruct (n mod 3)%nat as [|[|[|]]]; auto. Qed.

(** Step 2 of the decode removes exactly the padding [btoa] appended. *)
Lemma strip_padding_app xs p :
  Forall (fun c => c <> pad) xs -> p = [] \/ p = [pad] \/ p = [pad; pad] ->
  strip_padding (xs ++ p) = xs.
Proof.
  intros Hxs Hp. apply Forall_rev in Hxs. unfold strip_padding.
  destruct Hp as [-> | [-> | ->]]; rewrite ?app_nil_r, ?rev_app_distr; cbn [rev app].
  - destruct (rev xs) as [|c1 r] eqn:E; [done|]. inversion Hxs as [|? ? H1 _].
    destruct r; by rewrite (proj2 (Ascii.eqb_neq _ _) H1).
  - rewrite <- (rev_involutive xs) at 2.
    destruct (rev xs) as [|c2 r]; [done|]. inversion Hxs as [|? ? H2 _]. simpl.
    by rewrite (proj2 (Ascii.eqb_neq _ _) H2).
  - simpl. apply rev_involutive.
Qed.

(** [atob(btoa(s)) = s] for every binary string: the slot text decodes
    to the string that was encoded. *)
Lemma atob_btoa s : atob (btoa s) = Some s.
Proof.
  unfold atob, btoa. rewrite list_ascii_of_string_of_list_ascii.
  set (l := list_ascii_of_string s). set (xs := sextets l).
  assert (Hxs : Forall sextet xs) by apply sextets_range.
  assert (Hok : forall x, In x xs -> enc_char x <> pad /\ ascii_ws (enc_char x) = false).
  { intros x Hx. rewrite List.Forall_forall in Hxs.
    destruct (enc_char_ok x (Hxs x Hx)) as (_ & ? & ?); auto. }
  rewrite List.filter_app, forallb_filter_id, (forallb_filter_id _ (padding _)).
  2:{ destruct (padding_cases (length l)) as [-> | [-> | ->]]; reflexivity. }
  2:{ apply forallb_forall. intros c (x & <- & Hx)%in_map_iff. apply negb_true_iff, Hok, Hx. }
  destruct (sextets_length l) as [H4 H1]. fold xs in H4, H1.
  rewrite length_app, length_map, H4. cbn [Nat.eqb].
  rewrite strip_padding_app by (apply padding_cases || (apply Forall_map, List.Forall_forall;
    intros x Hx; apply Hok, Hx)).
  rewrite length_map. apply Nat.eqb_neq in H1. rewrite H1, map_option_enc by exact Hxs.
  unfold xs, l. rewrite bytes_of_sextets. by rewrite string_of_list_ascii_of_string.
Qed.

Lemma char_codes_from_char_codes d : char_codes (from_char_codes d) = d.
Proof.
  unfold char_codes, from_char_codes. rewrite list_ascii_of_string_of_list_ascii, map_map.
  rewrite <- (map_id d) at 2. apply map_ext, byte_of_ascii_of_byte.
Qed.

Lemma length_list_ascii s : length (list_ascii_of_string s) = String.length s.
Proof. induction s as [|c s IH]; simpl; congruence. Qed.

(** Four characters for every three bytes begun: the text [btoa] stores
    is [4 * ceil(n / 3)] characters long for [n] bytes. *)
Lemma btoa_length s : String.length (btoa s) = (4 * ((String.length s + 2) / 3))%nat.
Proof.
  unfold btoa. rewrite <- length_list_ascii, list_ascii_of_string_of_list_ascii, length_app,
    length_map, <- (length_list_ascii s).
  induction (list_ascii_of_string s) as [| a | a b | a b c r IH] using list3_ind; [done..|].
  cbn [sextets length]. rewrite length_app.
  replace (padding (S (S (S (length r))))) with (padding (length r)).
  2:{ unfold padding. f_equal. replace (S (S (S (length r)))) with (length r + 1 * 3)%nat by lia.
      by rewrite Nat.Div0.mod_add. }
  replace (S (S (S (length r))) + 2)%nat with ((length r + 2) + 1 * 3)%nat by lia.
  rewrite Nat.div_add by lia. change (length (sextets3 a b c)) with 4%nat. lia.
Qed.

Lemma btoa_nonempty s : s <> EmptyString -> Js.str_truthy (btoa s) = true.
Proof.
  intros Hs. unfold Js.str_truthy. apply negb_true_iff, String.eqb_neq. intros E.
  apply (f_equal String.length) in E. rewrite btoa_length in E.
  assert (1 <= String.length s)%nat by (destruct s; [done|simpl; lia]).
  assert (1 <= (String.length s + 2) / 3)%nat by (apply Nat.div_le_lower_bound; lia).
  cbn [String.length] in E. lia.
Qed.

(** The slot's text gives the saved bytes back: for every
    byte sequence [data], [atob(btoa(String.fromCharCode(...data)))]
    succeeds, and the char codes of the result are [data], whatever the
    length of [data] modulo 3 (0, 1 or 2 '=' of padding). *)
Theorem bytes_slot_roundtrip (data : list Byte.byte) :
  option_map char_codes (atob (btoa (from_char_codes data))) = Some data.
Proof. by rewrite atob_btoa; cbn [option_map]; rewrite char_codes_from_char_codes. Qed.

Lemma padding_repeat n : padding n = repeat pad ((3 - n mod 3) mod 3).
Proof.
  unfold padding. pose proof (Nat.mod_upper_bound n 3 ltac:(lia)).
  destruct (n mod 3) as [|[|[|k]]]; [done..|lia].
Qed.

(** The text [btoa] stores is canonical base64: characters of
    the alphabet, then '=' twice, once or not at all as the length of the
    input is 1, 2 or 0 modulo 3, and a length that is a multiple of 4. *)
Theorem btoa_canonical s :
  exists body, list_ascii_of_string (btoa s) = body ++ repeat pad ((3 - String.length s mod 3) mod 3) /\
    Forall (fun c => is_Some (dec_char c)) body /\ (String.length (btoa s) mod 4 = 0)%nat.
Proof.
  exists (map enc_char (sextets (list_ascii_of_string s))). split_and!.
  - unfold btoa. by rewrite list_ascii_of_string_of_list_ascii, padding_repeat, length_list_ascii.
  - apply Forall_map. eapply Forall_impl; [apply sextets_range|].
    intros x Hx. destruct (enc_char_ok x Hx) as (-> & _). eauto.
  - by rewrite btoa_length, Nat.mul_comm, Nat.Div0.mod_mul.
Qed.

End B64.
