(* ===== verification/Persist.v ===== *)
(** * Persistence: the localStorage slot (src/app/index.js:4-17, 31-35, 387-405)

    The application state [app] is what outlives a handler: the database
    [db], the global [currentBoardId] and the localStorage slot
    ['studyme_db'].  [saveDBToLocalStorage] exports the database, turns
    the bytes into a binary string with [String.fromCharCode(...data)]
    and stores its base64 text; [initDB] reads the slot back at page load;
    [importDbFile] replaces the database by an uploaded file and saves it.

    sql.js is a library the script only calls: its file format is the
    interface [Serializer] (export a store to bytes, open bytes as a
    store, and reopening an export gives the tables back).  The two limits
    of the browser are the interface [Browser]: the most arguments a call
    may spread ([max_args]; V8 throws RangeError beyond it) and the
    longest text the slot takes ([slot_quota]; [setItem] throws
    QuotaExceededError beyond it).  [bytes_serializer] is a serializer of
    the model (the tables encoded through stdpp's [Countable]), which
    shows the interface satisfiable and runs the witnesses. *)

From Stdlib Require Import String Ascii ZArith List Lia Bool.
From stdpp Require Import base list countable strings.
From S2P Require Import Prelude JsString Db Base64.

Local Open Scope exec_scope.

Module Persist.
Import Db.

(** ** Interfaces *)

(** What the script relies on of sql.js: [db.export()] and
    [new SQL.Database(u8)]. *)
Class Serializer := {
  db_export : store -> list Byte.byte;
  db_open : list Byte.byte -> store;
  (** Reopening an exported database gives its tables back. *)
  db_open_export t : db_open (db_export (Live t)) = Live t;
  (** An SQLite file is never empty: it holds at least its header page. *)
  db_export_nonempty t : db_export (Live t) <> []
}.

(** The limits of the browser the script runs in. *)
Class Browser := { max_args : nat; slot_quota : nat }.

(** ** A serializer of the model

    Rows and tables have decidable equality and are countable; a store is
    written as a header byte followed by the bits of its [encode], one
    byte per bit. *)

#[export] Instance board_eq_dec : EqDecision board.
Proof. solve_decision. Defined.
#[export] Instance subject_eq_dec : EqDecision subject.
Proof. solve_decision. Defined.
#[export] Instance chapter_eq_dec : EqDecision chapter.
Proof. solve_decision. Defined.
#[export] Instance question_eq_dec : EqDecision question.
Proof. solve_decision. Defined.
#[export] Instance playlist_eq_dec : EqDecision playlist.
Proof. solve_decision. Defined.
#[export] Instance item_eq_dec : EqDecision playlist_item.
Proof. solve_decision. Defined.
#[export] Instance tables_eq_dec : EqDecision tables.
Proof. solve_decision. Defined.

#[export] Program Instance board_countable : Countable board :=
  inj_countable' (fun r => (board_id r, board_name r)) (fun p => mkBoard p.1 p.2) _.
Next Obligation. by intros []. Qed.
#[export] Program Instance subject_countable : Countable subject :=
  inj_countable' (fun r => (subject_id r, subject_board r, subject_name r))
                 (fun p => mkSubject p.1.1 p.1.2 p.2) _.
Next Obligation. by intros []. Qed.
#[export] Program Instance chapter_countable : Countable chapter :=
  inj_countable' (fun r => (chapter_id r, chapter_subject r, chapter_name r))
                 (fun p => mkChapter p.1.1 p.1.2 p.2) _.
Next Obligation. by intros []. Qed.
#[export] Program Instance question_countable : Countable question :=
  inj_countable'
    (fun q => (q_id q, q_board q, q_subject q, q_chapter q, q_marks q, q_year q, q_text q, q_tags q))
    (fun p => mkQuestion p.1.1.1.1.1.1.1 p.1.1.1.1.1.1.2 p.1.1.1.1.1.2 p.1.1.1.1.2
                         p.1.1.1.2 p.1.1.2 p.1.2 p.2) _.
Next Obligation. by intros []. Qed.
#[export] Program Instance playlist_countable : Countable playlist :=
  inj_countable' (fun r => (pl_id r, pl_name r)) (fun p => mkPlaylist p.1 p.2) _.
Next Obligation. by intros []. Qed.
#[export] Program Instance item_countable : Countable playlist_item :=
  inj_countable' (fun r => (item_id r, item_playlist r, item_question r))
                 (fun p => mkItem p.1.1 p.1.2 p.2) _.
Next Obligation. by intros []. Qed.
#[export] Program Instance tables_countable : Countable tables :=
  inj_countable'
    (fun t => (boards t, subjects t, chapters t, questions t, playlists t, items t))
    (fun p => mkTables p.1.1.1.1.1 p.1.1.1.1.2 p.1.1.1.2 p.1.1.2 p.1.2 p.2) _.
Next Obligation. by intros []. Qed.

Fixpoint pos_bytes (p : positive) : list Byte.byte :=
  match p with
  | xH => []
  | xO p => Byte.x00 :: pos_bytes p
  | xI p => Byte.x01 :: pos_bytes p
  end.

Fixpoint bytes_pos (l : list Byte.byte) : option positive :=
  match l with
  | [] => Some xH
  | Byte.x00 :: r => xO <$> bytes_pos r
  | Byte.x01 :: r => xI <$> bytes_pos r
  | _ => None
  end.

Lemma bytes_pos_bytes p : bytes_pos (pos_bytes p) = Some p.
Proof. induction p as [p IH|p IH|]; simpl; rewrite ?IH; done. Qed.

Definition model_export (st : store) : list Byte.byte :=
  match st with Live t => Byte.x53 :: pos_bytes (encode t) | Broken => [] end.

Definition model_open (l : list Byte.byte) : store :=
  match l with
  | Byte.x53 :: r => match bytes_pos r ≫= decode with Some t => Live t | None => Broken end
  | _ => Broken
  end.

(** ** State *)

Record app := mkApp { db : store; currentBoardId : option Z; slot : option string }.

Definition set_db (st : store) (a : app) : app := mkApp st (currentBoardId a) (slot a).
Definition set_board (b : option Z) (a : app) : app := mkApp (db a) b (slot a).
Definition set_slot (s : option string) (a : app) : app := mkApp (db a) (currentBoardId a) s.

(** A statement of the database run by a handler: it changes [db] only. *)
Definition on_db {A} (c : Exec store A) : Exec app A := fun a =>
  let '(st', r) := c (db a) in (set_db st' a, r).

(** A page reload: the script's globals start again ([db] is not yet
    opened, [currentBoardId = null], line 72); the slot stays. *)
Definition reload (a : app) : app := mkApp Broken None (slot a).

#[export] Program Instance bytes_serializer : Serializer :=
  {| db_export := model_export; db_open := model_open |}.
Next Obligation. intros t. simpl. rewrite bytes_pos_bytes. simpl. by rewrite decode_encode. Qed.
Next Obligation. discriminate. Qed.

Section Persistence.
Context `{Serializer} `{Browser}.

(** [saveDBToLocalStorage()] (31-35). *)
Definition saveDBToLocalStorage : Exec app unit := fun a =>
  let data := db_export (db a) in
  if (max_args <? length data)%nat then (a, inr ArgRangeError)
  else let b64 := B64.btoa (B64.from_char_codes data) in
       if (slot_quota <? String.length b64)%nat then (a, inr QuotaExceeded)
       else (set_slot (Some b64) a, inl tt).

(** The store [initDB] opens from a slot (6-13): a truthy slot is decoded
    ([None] when [atob] throws) and opened; no slot, or an empty one, gives
    a fresh database with the schema. *)
Definition load (saved : option string) : option store :=
  match saved with
  | Some s =>
      if Js.str_truthy s then
        match B64.atob s with
        | Some bin => Some (db_open (B64.char_codes bin))
        | None => None
        end
      else Some (Live empty_tables)
  | None => Some (Live empty_tables)
  end.

(** [initDB()] (4-17); the renders that follow change no state. *)
Definition initDB : Exec app unit := fun a =>
  match load (slot a) with
  | Some st => (set_db st a, inl tt)
  | None => (a, inr InvalidCharacter)
  end.

(** [exportDb()] (387-394): the bytes offered for download. *)
Definition exportDb (a : app) : list Byte.byte := db_export (db a).

(** [reader.onload] of [importDbFile] (398-403): the database is
    replaced, then saved; [currentBoardId] is left as it was. *)
Definition importDbFile (u8 : list Byte.byte) : Exec app unit :=
  modify (set_db (db_open u8)) ;;; saveDBToLocalStorage.

(** The slot holds the database: a reload would open the store [db]. *)
Definition synced (a : app) : Prop := load (slot a) = Some (db a).

End Persistence.

(** ** Theorems *)

Section PersistenceFacts.
Context `{Serializer} `{Browser}.

Lemma length_from_char_codes d : String.length (B64.from_char_codes d) = length d.
Proof.
  unfold B64.from_char_codes.
  by rewrite <- B64.length_list_ascii, list_ascii_of_string_of_list_ascii, length_map.
Qed.

(** The text a successful save writes opens the exported bytes again. *)
Lemma load_saved data :
  data <> [] -> load (Some (B64.btoa (B64.from_char_codes data))) = Some (db_open data).
Proof.
  intros Hd. unfold load. rewrite B64.btoa_nonempty.
  - by rewrite B64.atob_btoa, B64.char_codes_from_char_codes.
  - intros E. apply (f_equal String.length) in E.
    rewrite length_from_char_codes in E. destruct data; [done|discriminate].
Qed.

(** A save either throws and changes nothing, or writes the slot only. *)
Lemma save_cases a :
  (exists e, saveDBToLocalStorage a = (a, inr e)) \/
  saveDBToLocalStorage a =
    (set_slot (Some (B64.btoa (B64.from_char_codes (db_export (db a))))) a, inl tt).
Proof.
  unfold saveDBToLocalStorage.
  destruct (max_args <? _)%nat; [left; by eexists|].
  destruct (slot_quota <? _)%nat; [left; by eexists|by right].
Qed.

(** A successful save of a live store syncs the slot and changes nothing
    else. *)
Lemma save_ok_synced a a' t :
  db a = Live t -> saveDBToLocalStorage a = (a', inl tt) ->
  synced a' /\ db a' = db a /\ currentBoardId a' = currentBoardId a.
Proof.
  intros Hdb. unfold saveDBToLocalStorage.
  destruct (max_args <? _)%nat; [discriminate|]. destruct (slot_quota <? _)%nat; [discriminate|].
  intros [= <-]. unfold synced. cbn [slot db set_slot currentBoardId].
  rewrite Hdb, load_saved by apply db_export_nonempty. by rewrite db_open_export.
Qed.

(** C16: a save succeeds exactly when the export's [n] bytes fit
    the argument limit of [String.fromCharCode(...data)] and its base64
    text, [4 * ceil(n / 3)] characters, fits the slot's quota; a failed
    save throws and leaves the application state as it was, slot
    included. *)
Theorem saveDB_bounds a :
  let n := length (db_export (db a)) in
  (snd (saveDBToLocalStorage a) = inl tt <->
     (n <= max_args /\ 4 * ((n + 2) / 3) <= slot_quota)%nat) /\
  (snd (saveDBToLocalStorage a) <> inl tt -> fst (saveDBToLocalStorage a) = a).
Proof.
  intros n. unfold saveDBToLocalStorage.
  rewrite B64.btoa_length, length_from_char_codes. fold n.
  destruct (Nat.ltb_spec max_args n); [cbn [fst snd]; split; [split; [discriminate|intros []; lia]|done]|].
  destruct (Nat.ltb_spec slot_quota (4 * ((n + 2) / 3))); cbn [fst snd]; split; try done.
  - split; [discriminate|intros []; lia].
Qed.

(** C3: saving then reloading the page gives the saved tables
    back: the slot's base64 text decodes to the exported bytes and
    sql.js reopens them; [currentBoardId] starts again at [null]. *)
Theorem reload_after_save a a' t :
  db a = Live t -> saveDBToLocalStorage a = (a', inl tt) ->
  initDB (reload a') = (mkApp (Live t) None (slot a'), inl tt).
Proof.
  intros Hdb Hs. destruct (save_ok_synced a a' t Hdb Hs) as (Hsync & Hdb' & _).
  unfold initDB, reload. cbn [slot]. rewrite Hsync, Hdb', Hdb. reflexivity.
Qed.

(** C4: export, import, reload.  Importing the file [exportDb]
    downloads (the bytes of [db.export()]) and reloading the page opens
    the exported database, when the import's save succeeds: the import
    replaces the database and saves it to the slot (398-401), and
    [initDB] reopens the slot (6-13). *)
Theorem export_import_reload a b t a' :
  db b = Live t -> importDbFile (exportDb b) a = (a', inl tt) ->
  initDB (reload a') = (mkApp (Live t) None (slot a'), inl tt).
Proof.
  intros Hb E. unfold importDbFile, exportDb in E. rewrite Hb, db_open_export in E.
  cbv [bind modify] in E.
  destruct (save_ok_synced (set_db (Live t) a) a' t eq_refl E) as (Hsync & Hdb' & _).
  unfold initDB, reload. cbn [slot]. rewrite Hsync, Hdb'. reflexivity.
Qed.

End PersistenceFacts.

(** ** Witnesses *)

(** A browser with small limits (the counts are unary [nat]s, and the
    kernel compares them by evaluation). *)
Definition demo_browser : Browser := {| max_args := 2048; slot_quota := 4096 |}.

Definition demo_tables : tables :=
  mkTables [mkBoard 1 "P"] [] [] [] [] [].

Definition demo_app : app := mkApp (Live demo_tables) (Some 1%Z) None.

Definition demo_saved : app :=
  Eval vm_compute in fst (@saveDBToLocalStorage bytes_serializer demo_browser demo_app).

Lemma reload_after_save_witness :
  initDB (reload demo_saved) = (mkApp (Live demo_tables) None (slot demo_saved), inl tt).
Proof.
  apply (@reload_after_save bytes_serializer demo_browser demo_app demo_saved demo_tables);
    vm_compute; reflexivity.
Defined.

(** The one-board store exported and imported into a fresh page. *)
Definition demo_imported : app :=
  Eval vm_compute in fst (@importDbFile bytes_serializer demo_browser
                            (@exportDb bytes_serializer demo_app) (mkApp (Live empty_tables) None None)).

Lemma export_import_reload_witness :
  initDB (reload demo_imported) = (mkApp (Live demo_tables) None (slot demo_imported), inl tt).
Proof.
  apply (@export_import_reload bytes_serializer demo_browser (mkApp (Live empty_tables) None None)
           demo_app demo_tables demo_imported); vm_compute; reflexivity.
Defined.

End Persist.
