(* ===== verification/QuickAdd.v ===== *)
(** * Quick-add: [addQuickQuestions] (src/app/index.js:213-241)

    The database part of the handler, lines 214-237: the text is split
    into trimmed non-empty lines; each line is split on ['|'] into
    trimmed parts read as [marks|subject|chapter|year|text] with the
    fallbacks of lines 218-222; the subject and the chapter are resolved
    or created under the current board (lines 223-235); one question row
    is inserted (236).  The save and re-render that follow (238-240) are
    composed with this loop in the application model. *)

From Stdlib Require Import String Ascii ZArith List Lia Bool.
From stdpp Require Import base list.
From S2P Require Import Prelude JsString Db.

Local Open Scope exec_scope.

Module QuickAdd.
Import Db.

(** The five fields read from one line. *)
Record fields := mkFields {
  f_marks : Z; f_subject : string; f_chapter : string;
  f_year : option Z; f_text : string }.

Definition newline : ascii := Ascii.ascii_of_nat 10.
Definition pipe : ascii := "|"%char.

(** [text.split('\n').map(l=>l.trim()).filter(Boolean)] (line 214). *)
Definition quick_lines (text : string) : list string :=
  List.filter Js.str_truthy (map Js.trim (Js.split newline text)).

(** Lines 217-222. *)
Definition parse_line (line : string) : fields :=
  let parts := map Js.trim (Js.split pipe line) in
  mkFields
    (Js.num_or (Js.parseInt (Js.arg_string (nth_error parts 0))) 3)
    (Js.str_or (nth_error parts 1) "General")
    (Js.str_or (nth_error parts 2) "General")
    (Js.num_or_null (Js.parseInt (Js.arg_string (nth_error parts 3))))
    (Js.str_or (Some (Js.join " | " (drop 4 parts)))
               (Js.str_or (last parts) line)).

(** Lines 224-229: with a board, the first subject of that board with
    that name, or a new one. *)
Definition resolve_subject (boardId : option Z) (name : string) : Exec store (option Z) :=
  match boardId with
  | None => ret None
  | Some b =>
      st <- get ;;
      match runQuery (select_subject b name) st with
      | sid :: _ => ret (Some sid)
      | [] => sid <- insert_subject b name ;; ret (Some sid)
      end
  end.

(** Lines 230-235: the same for the chapter, under a truthy subject. *)
Definition resolve_chapter (subjectId : option Z) (name : string) : Exec store (option Z) :=
  match Js.num_or_null subjectId with
  | None => ret None
  | Some s =>
      st <- get ;;
      match runQuery (select_chapter s name) st with
      | cid :: _ => ret (Some cid)
      | [] => cid <- insert_chapter s name ;; ret (Some cid)
      end
  end.

(** The body of the loop for one line (lines 217-236). *)
Definition add_line (boardId : option Z) (line : string) : Exec store unit :=
  let f := parse_line line in
  sid <- resolve_subject boardId (f_subject f) ;;
  cid <- resolve_chapter sid (f_chapter f) ;;
  insert_question boardId sid cid (f_marks f) (f_year f) (f_text f) ;;;
  ret tt.

(** Lines 214-237; [boardId = currentBoardId || null] (line 223). *)
Definition add_quick_questions (currentBoardId : option Z) (text : string) : Exec store unit :=
  forM_ (quick_lines text) (add_line (Js.num_or_null currentBoardId)).

(** ** The line parser *)

(** C8: a line [m|s|c|y|r1|...|rk] whose fields hold no pipe is
    read positionally: marks is [parseInt(m) || 3], subject and chapter
    fall back to "General" when empty, year is [parseInt(y) || null], each
    field trimmed; the text is the pieces after the fourth pipe, trimmed
    and re-joined with " | " (not with the original "|"), when that is
    non-empty. *)
Theorem parse_line_fields (m sj ch y : string) (rest : list string) :
  rest <> [] ->
  Forall (fun x => Js.has_char pipe x = false) (m :: sj :: ch :: y :: rest) ->
  Js.str_truthy (Js.join " | " (map Js.trim rest)) = true ->
  parse_line (Js.join (String pipe EmptyString) (m :: sj :: ch :: y :: rest)) =
  mkFields (Js.num_or (Js.parseInt (Js.trim m)) 3)
           (if Js.str_truthy (Js.trim sj) then Js.trim sj else "General")
           (if Js.str_truthy (Js.trim ch) then Js.trim ch else "General")
           (Js.num_or_null (Js.parseInt (Js.trim y)))
           (Js.join " | " (map Js.trim rest)).
Proof.
  intros Hne Hall Htxt. unfold parse_line. rewrite Js.join_split by done.
  cbn [map nth_error drop Js.arg_string last]. unfold Js.str_or. rewrite drop_0, Htxt. reflexivity.
Qed.

(** ** Resolve-or-create keeps the store consistent *)

Definition board_ok (t : tables) (boardId : option Z) : Prop :=
  match boardId with Some b => has_id (boards t) b = true | None => True end.

(** A resolved subject exists and belongs to the board. *)
Definition subject_ok (t : tables) (boardId sid : option Z) : Prop :=
  match sid with
  | None => True
  | Some s => exists x, subject_of t s = Some x /\ boardId = Some (subject_board x)
  end.

(** A resolved chapter exists and belongs to the subject. *)
Definition chapter_ok (t : tables) (sid cid : option Z) : Prop :=
  match cid with
  | None => True
  | Some c => exists y, chapter_of t c = Some y /\ sid = Some (chapter_subject y)
  end.

(** A computation from a well-formed store ends in a well-formed store
    that extends it, whatever its outcome. *)
Definition grows (t : tables) (st' : store) : Prop :=
  exists t', st' = Live t' /\ wf t' /\ tables_prefix t t'.

Lemma board_ok_mono t t' b : tables_prefix t t' -> board_ok t b -> board_ok t' b.
Proof. destruct b; simpl; [|done]. intros (Hp & _). by apply has_id_prefix. Qed.

Lemma subject_ok_mono t t' b s : tables_prefix t t' -> subject_ok t b s -> subject_ok t' b s.
Proof.
  destruct s; simpl; [|done]. intros (_ & Hp & _) (x & Hx & Hb).
  exists x. split; [|done]. by eapply find_prefix.
Qed.

Lemma chapter_ok_mono t t' s c : tables_prefix t t' -> chapter_ok t s c -> chapter_ok t' s c.
Proof.
  destruct c; simpl; [|done]. intros (_ & _ & Hp & _) (y & Hy & Hs).
  exists y. split; [|done]. by eapply find_prefix.
Qed.

Lemma grows_refl t : wf t -> grows t (Live t).
Proof. intros. exists t. auto with studyme. Qed.

Lemma resolve_subject_spec t boardId name st' r :
  wf t -> board_ok t boardId ->
  resolve_subject boardId name (Live t) = (st', r) ->
  grows t st' /\
  (forall sid t', r = inl sid -> st' = Live t' -> subject_ok t' boardId sid).
Proof.
  intros Hwf Hb. destruct boardId as [b|]; cbv [resolve_subject bind get ret runQuery].
  2: { intros [= <- <-]. split; [by apply grows_refl|]. by intros ? ? [= <-]. }
  destruct (select_subject b name t) as [|sid rest] eqn:Hsel.
  - unfold insert_subject.
    destruct (insert_into_cases subjects set_subjects (fun id => mkSubject id b name) t)
      as [(id & Hid & Hins)|[_ Hins]]; rewrite Hins; intros [= <- <-].
    + split.
      * eexists. split; [reflexivity|]. split; [eapply wf_insert_subject; eauto|prefix_tac].
      * intros ? ? [= <-] [= <-]. exists (mkSubject id b name). split; [|done].
        unfold subject_of. simpl.
        apply new_rowid_fresh in Hid as [Hf _].
        exact (find_id_snoc_fresh (subjects t) (mkSubject id b name) Hf).
    + split; [by apply grows_refl|done].
  - intros [= <- <-]. split; [by apply grows_refl|]. intros ? ? [= <-] [= <-].
    assert (Hin : In sid (select_subject b name t)) by (rewrite Hsel; left; done).
    apply in_map_iff in Hin as (x & <- & Hin). apply filter_In in Hin as [Hin Hc].
    apply andb_true_iff in Hc as [Hc _]. apply Z.eqb_eq in Hc.
    exists x. split; [|by rewrite Hc]. destruct Hwf as [(_ & Hs & _) _].
    unfold subject_of. exact (find_id_in (subjects t) x Hs Hin).
Qed.

Lemma resolve_chapter_spec t boardId sid name st' r :
  wf t -> subject_ok t boardId sid ->
  resolve_chapter sid name (Live t) = (st', r) ->
  grows t st' /\
  (forall cid t', r = inl cid -> st' = Live t' -> chapter_ok t' sid cid).
Proof.
  intros Hwf Hs. unfold resolve_chapter.
  destruct (Js.num_or_null sid) as [s|] eqn:Hn; cbv [bind get ret runQuery].
  2: { intros [= <- <-]. split; [by apply grows_refl|]. by intros ? ? [= <-]. }
  assert (sid = Some s) as ->.
  { destruct sid as [z|]; [|done]. simpl in Hn. by destruct (Z.eqb z 0); inversion Hn. }
  destruct Hs as (x & Hx & _).
  destruct (select_chapter s name t) as [|cid rest] eqn:Hsel.
  - unfold insert_chapter.
    destruct (insert_into_cases chapters set_chapters (fun id => mkChapter id s name) t)
      as [(id & Hid & Hins)|[_ Hins]]; rewrite Hins; intros [= <- <-].
    + split.
      * eexists. split; [reflexivity|]. split; [|prefix_tac].
        eapply wf_insert_chapter; [done| |done]. by eapply has_id_of_find.
      * intros ? ? [= <-] [= <-]. exists (mkChapter id s name). split; [|done].
        unfold chapter_of. simpl. apply new_rowid_fresh in Hid as [Hf _].
        exact (find_id_snoc_fresh (chapters t) (mkChapter id s name) Hf).
    + split; [by apply grows_refl|done].
  - intros [= <- <-]. split; [by apply grows_refl|]. intros ? ? [= <-] [= <-].
    assert (Hin : In cid (select_chapter s name t)) by (rewrite Hsel; left; done).
    apply in_map_iff in Hin as (y & <- & Hin). apply filter_In in Hin as [Hin Hc].
    apply andb_true_iff in Hc as [Hc _]. apply Z.eqb_eq in Hc.
    exists y. split; [|by rewrite Hc]. destruct Hwf as [(_ & _ & Hch & _) _].
    unfold chapter_of. exact (find_id_in (chapters t) y Hch Hin).
Qed.

Lemma question_args_of_resolved t b s c :
  board_ok t b -> subject_ok t b s -> chapter_ok t s c -> question_args_ok t b s c = true.
Proof.
  intros Hb Hs Hc. unfold question_args_ok. repeat (apply andb_true_intro; split).
  - by destruct b.
  - destruct s as [s|]; [|done]. destruct Hs as (x & -> & ->). by apply bool_decide_eq_true.
  - destruct c as [c|]; [|done]. destruct Hc as (y & -> & ->). by apply bool_decide_eq_true.
Qed.

(** One iteration of the loop, whatever its outcome, leaves a
    well-formed store that extends the old one. *)
Lemma add_line_grows t boardId line st' r :
  wf t -> board_ok t boardId -> add_line boardId line (Live t) = (st', r) -> grows t st'.
Proof.
  intros Hwf Hb. unfold add_line. cbv [bind ret].
  destruct (resolve_subject boardId _ (Live t)) as [st1 r1] eqn:E1.
  destruct (resolve_subject_spec _ _ _ _ _ Hwf Hb E1) as [(t1 & -> & Hwf1 & Hp1) Hs1].
  destruct r1 as [sid|e]; [|intros [= <- _]; by exists t1].
  pose proof (Hs1 sid t1 eq_refl eq_refl) as Hsub.
  destruct (resolve_chapter sid _ (Live t1)) as [st2 r2] eqn:E2.
  destruct (resolve_chapter_spec _ _ _ _ _ _ Hwf1 Hsub E2) as [(t2 & -> & Hwf2 & Hp2) Hc2].
  destruct r2 as [cid|e]; [|intros [= <- _]; exists t2; eauto using tables_prefix_trans].
  pose proof (Hc2 cid t2 eq_refl eq_refl) as Hch.
  assert (Hargs : question_args_ok t2 boardId sid cid = true).
  { apply question_args_of_resolved; [| |done].
    - eapply board_ok_mono; [|exact Hb]. eauto using tables_prefix_trans.
    - by eapply subject_ok_mono. }
  unfold insert_question.
  destruct (insert_into_cases questions set_questions
              (fun id => mkQuestion id boardId sid cid (f_marks (parse_line line))
                           (f_year (parse_line line)) (f_text (parse_line line)) None) t2)
    as [(id & Hid & Hins)|[_ Hins]]; rewrite Hins; intros [= <- _].
  - eexists. split; [reflexivity|]. split.
    + eapply wf_insert_question; [done|exact Hargs|]. unfold insert_question. exact Hins.
    + apply (tables_prefix_trans _ t2); [exact (tables_prefix_trans _ _ _ Hp1 Hp2)|prefix_tac].
  - exists t2. split; [done|]. split; [done|]. exact (tables_prefix_trans _ _ _ Hp1 Hp2).
Qed.

(** The whole loop, whatever its outcome, leaves a well-formed store
    that extends the old one. *)
Lemma add_quick_questions_grows t cur text st' r :
  wf t -> board_ok t (Js.num_or_null cur) ->
  add_quick_questions cur text (Live t) = (st', r) -> grows t st'.
Proof.
  intros Hwf Hb. unfold add_quick_questions. apply forM_preserves; [|by apply grows_refl].
  intros line s s1 r1 (t1 & -> & Hwf1 & Hp1) Hrun.
  destruct (add_line_grows t1 _ line s1 r1 Hwf1 (board_ok_mono _ _ _ Hp1 Hb) Hrun)
    as (t2 & -> & Hwf2 & Hp2).
  exists t2. split; [done|]. split; [done|]. exact (tables_prefix_trans _ _ _ Hp1 Hp2).
Qed.

(** C2: from a well-formed store in which the selected board exists
    (or none is selected), [addQuickQuestions] keeps the store
    well-formed (rowids sorted and within 64 bits, every reference
    present, every question's subject in its board and chapter in its
    subject) and only extends it, whatever the outcome: also when an
    INSERT throws half-way, the rows of the lines before it stay, and
    they are consistent.  The condition on the board is needed: after an
    import the selected board may be missing ([App.import_stale_board]). *)
Theorem add_quick_questions_wf t cur text st' r :
  wf t -> board_ok t (Js.num_or_null cur) ->
  add_quick_questions cur text (Live t) = (st', r) ->
  exists t', st' = Live t' /\ wf t' /\ tables_prefix t t'.
Proof. apply add_quick_questions_grows. Qed.

(** ** With no board selected *)

(** What a quick-add does to the store when no board is selected: only
    questions are appended, each without board, subject or chapter. *)
Definition only_bare_questions (t : tables) (st : store) : Prop :=
  exists t' new, st = Live t' /\ t' = set_questions (questions t ++ new) t /\
    Forall (fun q => q_board q = None /\ q_subject q = None /\ q_chapter q = None) new.

Lemma set_questions_twice q1 q2 t : set_questions q1 (set_questions q2 t) = set_questions q1 t.
Proof. reflexivity. Qed.

(** C14: with no board selected (currentBoardId null, or the
    falsy 0), [addQuickQuestions] creates no subject and no chapter, and
    every question it inserts has no subject and no chapter: the subject
    and chapter fields of the lines are discarded, whatever the outcome. *)
Theorem add_quick_questions_no_board t cur text st' r :
  Js.num_or_null cur = None ->
  add_quick_questions cur text (Live t) = (st', r) -> only_bare_questions t st'.
Proof.
  intros Hcur. unfold add_quick_questions. rewrite Hcur.
  apply forM_preserves.
  2: { exists t, []. rewrite app_nil_r. by destruct t. }
  intros line s s1 r1 (t1 & new & -> & -> & Hnew).
  cbv [add_line resolve_subject resolve_chapter Js.num_or_null bind ret].
  unfold insert_question.
  destruct (insert_into_cases questions set_questions
              (fun id => mkQuestion id None None None (f_marks (parse_line line))
                  (f_year (parse_line line)) (f_text (parse_line line)) None)
              (set_questions (questions t ++ new) t))
    as [(id & _ & ->)|[_ ->]]; intros [= <- _].
  - eexists _, (new ++ [_]). split; [reflexivity|]. split.
    + simpl. by rewrite app_assoc.
    + apply Forall_app. split; [done|]. repeat constructor.
  - by exists (set_questions (questions t ++ new) t), new.
Qed.

(** ** The type of the rows a quick-add writes *)

(** A question row as the quick-add writes it: marks a non-zero integer
    ([parseInt(...) || 3]), year null or a non-zero integer
    ([parseInt(...) || null]), and a non-empty text (the [||] chain ends in
    the line, which is not empty). *)
Definition typed_question (q : question) : Prop :=
  q_marks q <> 0%Z /\ q_year q <> Some 0%Z /\ Js.str_truthy (q_text q) = true.

Lemma parse_line_typed line :
  Js.str_truthy line = true ->
  f_marks (parse_line line) <> 0%Z /\ f_year (parse_line line) <> Some 0%Z /\
  Js.str_truthy (f_text (parse_line line)) = true.
Proof.
  intros Hl. unfold parse_line; cbn [f_marks f_year f_text]. split_and!.
  - unfold Js.num_or. destruct (Js.parseInt _) as [z|]; [|lia]. destruct (Z.eqb_spec z 0); lia.
  - unfold Js.num_or_null. destruct (Js.parseInt _) as [z|]; [|done].
    destruct (Z.eqb_spec z 0) as [|Hz]; [done|]. by intros [= ->].
  - unfold Js.str_or. destruct (Js.str_truthy (Js.join _ _)) eqn:E; [done|].
    destruct (last _) as [x|]; [|done]. by destruct (Js.str_truthy x) eqn:?.
Qed.

Lemma resolve_subject_questions b name t st' r :
  resolve_subject b name (Live t) = (st', r) -> exists t', st' = Live t' /\ questions t' = questions t.
Proof.
  destruct b as [b|]; cbv [resolve_subject bind get ret]; [|intros [= <- _]; by exists t].
  destruct (runQuery _ _); [|intros [= <- _]; by exists t].
  unfold insert_subject, insert_into. destruct (new_rowid _); intros [= <- _]; by eexists.
Qed.

Lemma resolve_chapter_questions sid name t st' r :
  resolve_chapter sid name (Live t) = (st', r) -> exists t', st' = Live t' /\ questions t' = questions t.
Proof.
  unfold resolve_chapter. destruct (Js.num_or_null sid) as [s|]; cbv [bind get ret];
    [|intros [= <- _]; by exists t].
  destruct (runQuery _ _); [|intros [= <- _]; by exists t].
  unfold insert_chapter, insert_into. destruct (new_rowid _); intros [= <- _]; by eexists.
Qed.

(** The rows a computation on a live store appends to the questions. *)
Definition appends_typed (t : tables) (st : store) : Prop :=
  exists t' new, st = Live t' /\ questions t' = questions t ++ new /\ Forall typed_question new.

Lemma appends_typed_refl t t' : questions t' = questions t -> appends_typed t (Live t').
Proof. intros Hq. exists t', []. by rewrite app_nil_r. Qed.

Lemma add_line_typed b line t st' r :
  Js.str_truthy line = true -> add_line b line (Live t) = (st', r) -> appends_typed t st'.
Proof.
  intros Hl. unfold add_line. cbv [bind ret].
  destruct (resolve_subject _ _ _) as [st1 r1] eqn:E1.
  destruct (resolve_subject_questions _ _ _ _ _ E1) as (t1 & -> & Q1).
  destruct r1 as [sid|e]; [|intros [= <- _]; by apply appends_typed_refl].
  destruct (resolve_chapter _ _ _) as [st2 r2] eqn:E2.
  destruct (resolve_chapter_questions _ _ _ _ _ E2) as (t2 & -> & Q2).
  destruct r2 as [cid|e]; [|intros [= <- _]; apply appends_typed_refl; congruence].
  destruct (parse_line_typed line Hl) as (Hm & Hy & Ht).
  unfold insert_question.
  destruct (insert_into_cases questions set_questions
              (fun id => mkQuestion id b sid cid (f_marks (parse_line line))
                           (f_year (parse_line line)) (f_text (parse_line line)) None) t2)
    as [(id & _ & ->)|[_ ->]]; intros [= <- _]; [|apply appends_typed_refl; congruence].
  eexists _, [_]. split_and!; [reflexivity|cbn [questions set_questions]; by rewrite Q2, Q1|].
  repeat constructor; done.
Qed.

(** C19: the type of the rows a quick-add writes.  Whatever its
    outcome, [addQuickQuestions] only appends question rows, and every
    one has non-zero integer marks, a year that is null or a non-zero
    integer, and a non-empty text: the [||] fallbacks never store 0 or an
    empty text. *)
Theorem add_quick_questions_typed cur text t st' r :
  add_quick_questions cur text (Live t) = (st', r) -> appends_typed t st'.
Proof.
  unfold add_quick_questions. apply forM_preserves_in; [|by apply appends_typed_refl].
  intros line s s1 r1 Hin (t1 & new & -> & Q1 & F1) E.
  apply filter_In in Hin as [_ Hl].
  destruct (add_line_typed _ _ _ _ _ Hl E) as (t2 & new2 & -> & Q2 & F2).
  exists t2, (new ++ new2). split_and!; [done|by rewrite Q2, Q1, app_assoc|by apply Forall_app].
Qed.

(** ** One question per line *)

Definition n_questions (st : store) : nat :=
  match st with Live t => length (questions t) | Broken => 0%nat end.

Lemma resolve_subject_count b name st st' sid :
  resolve_subject b name st = (st', inl sid) -> n_questions st' = n_questions st.
Proof.
  destruct b as [b|]; cbv [resolve_subject bind get ret]; [|congruence].
  destruct (runQuery _ st); [|congruence].
  unfold insert_subject, insert_into. destruct st as [t|]; [|discriminate].
  destruct (new_rowid _); intros H; inversion H; reflexivity.
Qed.

Lemma resolve_chapter_count sid name st st' cid :
  resolve_chapter sid name st = (st', inl cid) -> n_questions st' = n_questions st.
Proof.
  unfold resolve_chapter. destruct (Js.num_or_null sid) as [s|]; cbv [bind get ret];
    [|congruence].
  destruct (runQuery _ st); [|congruence].
  unfold insert_chapter, insert_into. destruct st as [t|]; [|discriminate].
  destruct (new_rowid _); intros H; inversion H; reflexivity.
Qed.

Lemma add_line_count b line st st' :
  add_line b line st = (st', inl tt) -> n_questions st' = S (n_questions st).
Proof.
  unfold add_line. cbv [bind ret].
  destruct (resolve_subject _ _ st) as [st1 [sid|e]] eqn:E1; [|discriminate].
  destruct (resolve_chapter _ _ st1) as [st2 [cid|e]] eqn:E2; [|discriminate].
  rewrite <- (resolve_subject_count _ _ _ _ _ E1), <- (resolve_chapter_count _ _ _ _ _ E2).
  unfold insert_question, insert_into. destruct st2 as [t2|]; [|discriminate].
  destruct (new_rowid _); intros H; inversion H. simpl. rewrite length_app. simpl. lia.
Qed.

(** C17: a quick-add that completes inserts exactly one
    question per non-empty line of the text. *)
Theorem add_quick_questions_count cur text t t' :
  add_quick_questions cur text (Live t) = (Live t', inl tt) ->
  length (questions t') = (length (questions t) + length (quick_lines text))%nat.
Proof.
  intros H. pose proof (forM_ok_count n_questions _ _ (fun x => add_line_count _ x) _ _ H)
    as Hc. simpl in Hc. lia.
Qed.

(** ** No duplicate subject or chapter *)

Definition subject_key (x : subject) : Z * string := (subject_board x, subject_name x).
Definition chapter_key (y : chapter) : Z * string := (chapter_subject y, chapter_name y).

(** At most one subject per (board, name) and one chapter per
    (subject, name): the uniqueness the spec (section 3) expects. *)
Definition names_unique (t : tables) : Prop :=
  NoDup (map subject_key (subjects t)) /\ NoDup (map chapter_key (chapters t)).

Definition unique_store (st : store) : Prop := exists t, st = Live t /\ names_unique t.

Lemma select_subject_nil_key b name t :
  select_subject b name t = [] -> ~ In (b, name) (map subject_key (subjects t)).
Proof.
  unfold select_subject. intros Hnil Hin. apply map_eq_nil in Hnil.
  apply in_map_iff in Hin as (x & Hk & Hx). injection Hk as Hb Hn.
  assert (In x (List.filter (fun s => Z.eqb (subject_board s) b
                                    && String.eqb (subject_name s) name) (subjects t))).
  { apply filter_In. split; [done|]. rewrite Hb, Hn, Z.eqb_refl, String.eqb_refl. done. }
  by rewrite Hnil in H.
Qed.

Lemma select_chapter_nil_key s name t :
  select_chapter s name t = [] -> ~ In (s, name) (map chapter_key (chapters t)).
Proof.
  unfold select_chapter. intros Hnil Hin. apply map_eq_nil in Hnil.
  apply in_map_iff in Hin as (x & Hk & Hx). injection Hk as Hs Hn.
  assert (In x (List.filter (fun c => Z.eqb (chapter_subject c) s
                                    && String.eqb (chapter_name c) name) (chapters t))).
  { apply filter_In. split; [done|]. rewrite Hs, Hn, Z.eqb_refl, String.eqb_refl. done. }
  by rewrite Hnil in H.
Qed.

Lemma resolve_subject_unique b name st st' r :
  unique_store st -> resolve_subject b name st = (st', r) -> unique_store st'.
Proof.
  intros (t & -> & Hs & Hc). destruct b as [b|]; cbv [resolve_subject bind get ret runQuery].
  2: { intros [= <- _]. by exists t. }
  destruct (select_subject b name t) eqn:Hsel; [|intros [= <- _]; by exists t].
  unfold insert_subject.
  destruct (insert_into_cases subjects set_subjects (fun id => mkSubject id b name) t)
    as [(id & _ & ->)|[_ ->]]; intros [= <- _]; [|by exists t].
  eexists. split; [reflexivity|]. split; [|done]. simpl. rewrite map_app.
  apply NoDup_snoc; [done|]. by apply select_subject_nil_key.
Qed.

Lemma resolve_chapter_unique sid name st st' r :
  unique_store st -> resolve_chapter sid name st = (st', r) -> unique_store st'.
Proof.
  intros (t & -> & Hs & Hc). unfold resolve_chapter.
  destruct (Js.num_or_null sid) as [s|]; cbv [bind get ret runQuery].
  2: { intros [= <- _]. by exists t. }
  destruct (select_chapter s name t) eqn:Hsel; [|intros [= <- _]; by exists t].
  unfold insert_chapter.
  destruct (insert_into_cases chapters set_chapters (fun id => mkChapter id s name) t)
    as [(id & _ & ->)|[_ ->]]; intros [= <- _]; [|by exists t].
  eexists. split; [reflexivity|]. split; [done|]. simpl. rewrite map_app.
  apply NoDup_snoc; [done|]. by apply select_chapter_nil_key.
Qed.

(** C13: resolve-or-create never makes a second subject with
    the same board and name, nor a second chapter with the same subject
    and name: [addQuickQuestions] keeps names unique, whatever the
    outcome. *)
Theorem add_quick_questions_unique cur text t st' r :
  names_unique t -> add_quick_questions cur text (Live t) = (st', r) -> unique_store st'.
Proof.
  intros Hu. unfold add_quick_questions. apply forM_preserves; [|by exists t].
  intros line s s1 r1 Hs. unfold add_line. cbv [bind ret].
  destruct (resolve_subject _ _ s) as [sa [sid|e]] eqn:E1;
    pose proof (resolve_subject_unique _ _ _ _ _ Hs E1) as Ha; [|by intros [= <- _]].
  destruct (resolve_chapter _ _ sa) as [sb [cid|e]] eqn:E2;
    pose proof (resolve_chapter_unique _ _ _ _ _ Ha E2) as Hb; [|by intros [= <- _]].
  destruct Hb as (tb & -> & Hub). unfold insert_question, insert_into.
  destruct (new_rowid _); intros [= <- _]; eexists; split; try reflexivity; exact Hub.
Qed.

(** ** Witnesses *)

Definition demo_tables : tables := mkTables [mkBoard 1 "Physics board"] [] [] [] [] [].

(** The two lines of the spec's quick-add tests (section 8). *)
Definition demo_text : string :=
  String.append "5|Physics|Motion|2021|What is velocity?" (String newline "abc|  |  | |Just text").

Definition demo_after : tables :=
  Eval vm_compute in
  match fst (add_quick_questions (Some 1%Z) demo_text (Live demo_tables)) with
  | Live t => t | Broken => demo_tables end.

Lemma add_quick_questions_wf_witness :
  grows demo_tables (fst (add_quick_questions (Some 1%Z) demo_text (Live demo_tables))).
Proof.
  apply (add_quick_questions_wf demo_tables (Some 1%Z) demo_text _
           (snd (add_quick_questions (Some 1%Z) demo_text (Live demo_tables)))).
  - apply wfb_sound. vm_compute. reflexivity.
  - vm_compute. reflexivity.
  - vm_compute. reflexivity.
Defined.

Lemma parse_line_fields_witness :
  parse_line "5|Physics|Motion|2021|What is velocity?" =
  mkFields 5 "Physics" "Motion" (Some 2021%Z) "What is velocity?".
Proof.
  change "5|Physics|Motion|2021|What is velocity?"%string
    with (Js.join (String pipe EmptyString) ["5"; "Physics"; "Motion"; "2021"; "What is velocity?"])%string.
  rewrite (parse_line_fields "5" "Physics" "Motion" "2021" ["What is velocity?"]%string).
  - vm_compute. reflexivity.
  - discriminate.
  - repeat constructor.
  - vm_compute. reflexivity.
Defined.

Lemma add_quick_questions_unique_witness :
  unique_store (fst (add_quick_questions (Some 1%Z) demo_text (Live demo_tables))).
Proof.
  apply (add_quick_questions_unique (Some 1%Z) demo_text demo_tables _
           (snd (add_quick_questions (Some 1%Z) demo_text (Live demo_tables)))).
  - split; constructor.
  - vm_compute. reflexivity.
Defined.

Lemma add_quick_questions_no_board_witness :
  only_bare_questions demo_tables (fst (add_quick_questions None demo_text (Live demo_tables))).
Proof.
  apply (add_quick_questions_no_board demo_tables None demo_text _
           (snd (add_quick_questions None demo_text (Live demo_tables)))).
  - reflexivity.
  - vm_compute. reflexivity.
Defined.

Lemma add_quick_questions_count_witness :
  length (questions demo_after) = (length (questions demo_tables) + length (quick_lines demo_text))%nat.
Proof.
  apply (add_quick_questions_count (Some 1%Z) demo_text demo_tables demo_after).
  vm_compute. reflexivity.
Defined.

Definition negative_text : string := "-5|Physics|Motion|0|Define velocity.".

Lemma add_quick_questions_typed_witness :
  appends_typed demo_tables (fst (add_quick_questions (Some 1%Z) negative_text (Live demo_tables))).
Proof.
  apply (add_quick_questions_typed (Some 1%Z) negative_text demo_tables _
           (snd (add_quick_questions (Some 1%Z) negative_text (Live demo_tables)))).
  vm_compute. reflexivity.
Defined.

(** Marks "-5" are stored as -5, and year "0" as null. *)
Example negative_marks_stored :
  exists t', add_quick_questions (Some 1%Z) negative_text (Live demo_tables) = (Live t', inl tt) /\
    map (fun q => (q_marks q, q_year q)) (questions t') = [(-5, None)]%Z.
Proof. eexists. split; [vm_compute; reflexivity|reflexivity]. Qed.

End QuickAdd.
