(* ===== verification/Sampler.v ===== *)
(** * The mock-test-paper sampler: [generateMTP] (src/app/index.js:353-385)

    The pool query (lines 354-359), the preference boost that puts every
    question whose marks are preferred three times into the pool
    (360-368), and the random-pick loop (370-376): draw an index with
    [Math.floor(Math.random() * available.length)], remove that entry
    with [splice], keep it unless a question with the same id was already
    picked, until [count] questions are picked or the pool is exhausted.

    A call of [Math.random()] is the [i]-th value of a stream [draws] of
    integers, the draw [k] standing for the double [k / 2^53] (the values
    [Math.random] returns are multiples of 2^-53 in [0, 1)).  The index
    is the exact [floor (k * len / 2^53)]; the rounding of the double
    product is not modelled.  The loop is a [Fixpoint] on fuel; the
    fuel [length pool] is enough because every iteration removes one
    entry (theorem [pick_loop_fuel]). *)

From Stdlib Require Import String ZArith List Lia Bool Permutation.
From stdpp Require Import base list.
From S2P Require Import Prelude JsString Db.

Module Sampler.
Import Db.

(** [{id, text, marks}] (line 359). *)
Record pq := mkPq { pq_id : Z; pq_text : string; pq_marks : Z }.

(** [SELECT id, text, marks FROM questions [WHERE board_id=?]] (354-359),
    with [boardId = currentBoardId] when truthy (356). *)
Definition pool_query (boardId : option Z) (t : tables) : list pq :=
  map (fun q => mkPq (q_id q) (q_text q) (q_marks q))
    (List.filter (fun q => match boardId with
                           | Some b => bool_decide (q_board q = Some b)
                           | None => true end) (questions t)).

(** [marksPref.includes(String(q.marks))] (365). *)
Definition preferred (marksPref : list string) (q : pq) : bool :=
  existsb (String.eqb (Js.number_to_string (pq_marks q))) marksPref.

(** Lines 362-367: each question once, and twice more when preferred. *)
Definition boost (marksPref : list string) (pool : list pq) : list pq :=
  flat_map (fun q => if preferred marksPref q then [q; q; q] else [q]) pool.

Definition random_scale : Z := (2 ^ 53)%Z.

(** [Math.floor(Math.random() * available.length)] (373). *)
Definition draw_index (k : Z) (len : nat) : nat :=
  Z.to_nat ((k * Z.of_nat len) / random_scale).

(** [available.splice(idx, 1)] (374): the array without entry [idx]. *)
Definition remove_nth {A} (idx : nat) (l : list A) : list A := take idx l ++ drop (S idx) l.

(** [picked.find(p => p.id === item.id)] (375). *)
Definition picked_has (picked : list pq) (item : pq) : bool :=
  existsb (fun p => Z.eqb (pq_id p) (pq_id item)) picked.

(** Lines 370-376.  [i] counts the calls of [Math.random]. *)
Fixpoint pick_loop (fuel : nat) (count : Z) (draws : nat -> Z) (i : nat)
    (available picked : list pq) : list pq :=
  match fuel with
  | O => picked
  | S f =>
      if (Z.of_nat (length picked) <? count)%Z && negb (bool_decide (available = [])) then
        let idx := draw_index (draws i) (length available) in
        match available !! idx with
        | Some item =>
            pick_loop f count draws (S i) (remove_nth idx available)
              (if picked_has picked item then picked else picked ++ [item])
        | None => picked
        end
      else picked
  end.

(** [generateMTP(count, marksPref)] (353-376): [None] when the query
    returns no row and the function returns at line 358 before touching
    the output; otherwise the picked questions, which lines 377-384 render
    in order. *)
Definition generateMTP (st : store) (currentBoardId : option Z) (count : Z)
    (marksPref : list string) (draws : nat -> Z) : option (list pq) :=
  match runQuery (pool_query (Js.num_or_null currentBoardId)) st with
  | [] => None
  | pool =>
      let pool' := if bool_decide (marksPref = []) then pool else boost marksPref pool in
      Some (pick_loop (length pool') count draws 0 pool' [])
  end.

(** ** The pick loop *)

(** The ids of the distinct questions of a pool. *)
Definition distinct_ids (pool : list pq) : list Z := nodup Z.eq_dec (map pq_id pool).

(** [Math.random]'s contract: every draw is in [0, 2^53). *)
Definition valid_draws (draws : nat -> Z) : Prop :=
  forall i, (0 <= draws i < random_scale)%Z.

Lemma draw_index_lt k len :
  (0 <= k < random_scale)%Z -> (0 < len)%nat -> (draw_index k len < len)%nat.
Proof.
  intros Hk Hlen. unfold draw_index, random_scale in *.
  assert ((k * Z.of_nat len) / 2 ^ 53 < Z.of_nat len)%Z.
  { apply Z.div_lt_upper_bound; [lia|]. nia. }
  assert (0 <= (k * Z.of_nat len) / 2 ^ 53)%Z by (apply Z.div_pos; lia).
  lia.
Qed.

Lemma remove_nth_delete {A} (idx : nat) (l : list A) : remove_nth idx l = delete idx l.
Proof. by rewrite delete_take_drop. Qed.

Lemma picked_has_spec picked item :
  picked_has picked item = true <-> In (pq_id item) (map pq_id picked).
Proof.
  unfold picked_has. rewrite existsb_exists, in_map_iff. split.
  - intros (p & Hp & Heq). apply Z.eqb_eq in Heq. eauto.
  - intros (p & Heq & Hp). exists p. split; [done|]. by apply Z.eqb_eq.
Qed.

Section Loop.
Variable pool : list pq.
Variable count : Z.
Variable draws : nat -> Z.

(** The invariant of lines 370-376: the picked ids are distinct, picked
    and available entries come from the pool, every question of the pool
    is picked (by id) or still available, and no more than [count] are
    picked. *)
Definition loop_inv (available picked : list pq) : Prop :=
  NoDup (map pq_id picked) /\
  (forall x, In x picked -> In x pool) /\
  (forall x, In x available -> In x pool) /\
  (forall x, In x pool -> In (pq_id x) (map pq_id picked) \/ In x available) /\
  (Z.of_nat (length picked) <= Z.max 0 count)%Z.

Lemma loop_inv_init : loop_inv pool [].
Proof.
  split; [constructor|]. split; [intros x []|]. split; [done|].
  split; [intros; by right|]. simpl. lia.
Qed.

Lemma loop_inv_step available picked idx item :
  loop_inv available picked -> (Z.of_nat (length picked) < count)%Z ->
  available !! idx = Some item ->
  loop_inv (remove_nth idx available)
           (if picked_has picked item then picked else picked ++ [item]).
Proof.
  intros (Hnd & Hp & Ha & Hcov & Hlen) Hlt Hidx.
  rewrite remove_nth_delete.
  pose proof (delete_Permutation _ _ _ Hidx) as Hperm.
  assert (Hin_av : forall x, In x available <-> x = item \/ In x (delete idx available)).
  { intros x. split; intros H.
    - eapply Permutation_in in H; [|exact Hperm]. destruct H as [<-|H]; auto.
    - eapply Permutation_in; [symmetry; exact Hperm|]. destruct H as [->|H]; [left|right]; auto. }
  assert (Hitem : In item pool) by (apply Ha, Hin_av; by left).
  destruct (picked_has picked item) eqn:Hh.
  - apply picked_has_spec in Hh. repeat split; auto.
    + intros x Hx. apply Ha, Hin_av. by right.
    + intros x Hx. destruct (Hcov x Hx) as [?|[->|?]%Hin_av]; auto.
  - assert (Hnot : ~ In (pq_id item) (map pq_id picked))
      by (intros H; apply picked_has_spec in H; congruence).
    repeat split.
    + rewrite map_app. by apply NoDup_snoc.
    + intros x [Hx|[<-|[]]]%in_app_iff; auto.
    + intros x Hx. apply Ha, Hin_av. by right.
    + intros x Hx. rewrite map_app, in_app_iff.
      destruct (Hcov x Hx) as [?|[->|?]%Hin_av]; [left; left|left; right; left|right]; auto.
    + rewrite length_app. simpl. lia.
Qed.

(** What the loop ends with, from any state within its fuel: the
    invariant, and either [count] questions picked or the pool used up. *)
Lemma pick_loop_spec fuel i available picked :
  valid_draws draws -> (length available <= fuel)%nat -> loop_inv available picked ->
  exists available', loop_inv available' (pick_loop fuel count draws i available picked) /\
    ((count <= Z.of_nat (length (pick_loop fuel count draws i available picked)))%Z
     \/ available' = []).
Proof.
  intros Hd. revert i available picked.
  induction fuel as [|f IH]; intros i available picked Hf Hinv; simpl.
  - exists available. split; [done|]. right. destruct available; [done|simpl in Hf; lia].
  - destruct (Z.ltb_spec (Z.of_nat (length picked)) count) as [Hlt|Hge]; simpl.
    2: { exists available. split; [done|]. left. lia. }
    destruct (bool_decide_reflect (available = [])) as [->|Hne]; simpl.
    { exists []. split; [done|]. by right. }
    assert (Hidx : (draw_index (draws i) (length available) < length available)%nat).
    { apply draw_index_lt; [apply Hd|]. destruct available; [done|simpl; lia]. }
    destruct (lookup_lt_is_Some_2 _ _ Hidx) as [item Hitem]. rewrite Hitem.
    apply IH; [|by apply loop_inv_step].
    rewrite remove_nth_delete, length_delete by eauto. lia.
Qed.

(** The invariant alone needs no assumption on the draws. *)
Lemma pick_loop_inv fuel i available picked :
  loop_inv available picked ->
  exists available', loop_inv available' (pick_loop fuel count draws i available picked).
Proof.
  revert i available picked.
  induction fuel as [|f IH]; intros i available picked Hinv; simpl; [eauto|].
  destruct (Z.ltb_spec (Z.of_nat (length picked)) count) as [Hlt|Hge]; simpl; [|eauto].
  destruct (bool_decide (available = [])); simpl; [eauto|].
  destruct (available !! _) as [item|] eqn:Hitem; [|eauto].
  apply IH. by apply loop_inv_step.
Qed.

(** Picked ids are ids of the pool, without repetition. *)
Lemma picked_ids_bound available picked :
  loop_inv available picked -> incl (map pq_id picked) (distinct_ids pool).
Proof.
  intros (_ & Hp & _). intros z Hz. apply in_map_iff in Hz as (x & <- & Hx).
  unfold distinct_ids. apply nodup_In. apply in_map. auto.
Qed.

Lemma picked_ids_all available picked :
  loop_inv available picked -> available = [] ->
  incl (distinct_ids pool) (map pq_id picked).
Proof.
  intros (_ & _ & _ & Hcov & _) ->. intros z Hz. unfold distinct_ids in Hz.
  apply nodup_In, in_map_iff in Hz as (x & <- & Hx). by destruct (Hcov x Hx).
Qed.

Lemma loop_end_length available picked :
  loop_inv available picked ->
  ((count <= Z.of_nat (length picked))%Z \/ available = []) ->
  length picked = Nat.min (Z.to_nat count) (length (distinct_ids pool)).
Proof.
  intros Hinv Hend. pose proof (picked_ids_bound _ _ Hinv) as Hb.
  pose proof Hinv as (Hnd & _ & _ & _ & Hlen).
  apply NoDup_ListNoDup in Hnd.
  pose proof (NoDup_incl_length Hnd Hb) as Hle. rewrite length_map in Hle.
  destruct Hend as [Hc| ->].
  - lia.
  - pose proof (NoDup_incl_length (NoDup_nodup _ _) (picked_ids_all _ _ Hinv eq_refl)).
    rewrite length_map in *. unfold distinct_ids in *. lia.
Qed.

End Loop.

(** The loop as [generateMTP] runs it, on a pool [pool]. *)
Definition pick_all (pool : list pq) (count : Z) (draws : nat -> Z) : list pq :=
  pick_loop (length pool) count draws 0 pool [].

(** whatever the random draws, the paper holds no
    question twice (by id) and only questions of the pool. *)
Theorem pick_all_distinct pool count draws :
  NoDup (map pq_id (pick_all pool count draws)) /\ incl (pick_all pool count draws) pool.
Proof.
  destruct (pick_loop_inv pool count draws (length pool) 0 pool [] (loop_inv_init pool count))
    as (av & Hnd & Hp & _). split; [done|]. intros x. apply Hp.
Qed.

(** with draws in Math.random's range, the paper has
    exactly [min(count, number of distinct questions)] questions: it is
    never short while distinct questions remain. *)
Theorem pick_all_length pool count draws :
  valid_draws draws ->
  length (pick_all pool count draws) = Nat.min (Z.to_nat count) (length (distinct_ids pool)).
Proof.
  intros Hd. destruct (pick_loop_spec pool count draws (length pool) 0 pool [] Hd
                        (le_n _) (loop_inv_init pool count)) as (av & Hinv & Hend).
  exact (loop_end_length _ _ _ _ Hinv Hend).
Qed.

(** C12: when [count] is at least the number of distinct
    questions, the paper is the whole distinct pool, each question once
    (spec, section 8). *)
Theorem pick_all_full pool count draws :
  valid_draws draws -> (Z.of_nat (length (distinct_ids pool)) <= count)%Z ->
  Permutation (map pq_id (pick_all pool count draws)) (distinct_ids pool).
Proof.
  intros Hd Hc. destruct (pick_loop_spec pool count draws (length pool) 0 pool [] Hd
                            (le_n _) (loop_inv_init pool count)) as (av & Hinv & Hend).
  pose proof (loop_end_length _ _ _ _ Hinv Hend) as Hlen.
  pose proof (picked_ids_bound _ _ _ _ Hinv) as Hb. pose proof Hinv as (Hnd & _).
  apply NoDup_Permutation; [exact Hnd|apply NoDup_ListNoDup, NoDup_nodup|].
  apply NoDup_ListNoDup in Hnd. intros z. rewrite !list_elem_of_In. split; [apply Hb|].
  apply (NoDup_length_incl Hnd); [|done]. rewrite length_map, Hlen. lia.
Qed.

(** A count of zero or less gives an empty paper. *)
Theorem pick_all_nonpositive pool count draws :
  (count <= 0)%Z -> pick_all pool count draws = [].
Proof.
  intros Hc. destruct (pick_loop_inv pool count draws (length pool) 0 pool []
                        (loop_inv_init pool count)) as (av & _ & _ & _ & _ & Hlen).
  unfold pick_all. destruct (pick_loop _ _ _ _ _ _); [done|simpl in Hlen; lia].
Qed.

Lemma pick_loop_succ fuel count draws i available picked :
  (length available <= fuel)%nat ->
  pick_loop (S fuel) count draws i available picked =
  pick_loop fuel count draws i available picked.
Proof.
  revert i available picked. induction fuel as [|f IH]; intros i available picked Hf.
  - destruct available; [|simpl in Hf; lia]. simpl. by rewrite andb_false_r.
  - cbn [pick_loop]. destruct (_ && _); [|done].
    destruct (available !! _) as [item|] eqn:Hi; [|done].
    apply IH. rewrite remove_nth_delete, length_delete by eauto. lia.
Qed.

(** C22: the fuel [length pool] is enough: any larger fuel gives
    the same paper, since every iteration removes one entry. *)
Theorem pick_loop_fuel fuel count draws i available picked :
  (length available <= fuel)%nat ->
  pick_loop fuel count draws i available picked =
  pick_loop (length available) count draws i available picked.
Proof.
  induction fuel as [|f IH]; intros Hf.
  - by replace (length available) with 0%nat by lia.
  - destruct (Nat.eq_dec (length available) (S f)) as [->|Hne]; [done|].
    rewrite pick_loop_succ by lia. apply IH. lia.
Qed.

(** ** The preference boost *)

Definition n_preferred (marksPref : list string) (pool : list pq) : nat :=
  length (List.filter (preferred marksPref) pool).

Lemma boost_counts marksPref pool :
  length (boost marksPref pool) = (length pool + 2 * n_preferred marksPref pool)%nat /\
  n_preferred marksPref (boost marksPref pool) = (3 * n_preferred marksPref pool)%nat.
Proof.
  unfold n_preferred, boost. induction pool as [|q pool [IH1 IH2]]; [done|]. simpl.
  destruct (preferred marksPref q) eqn:Hq; simpl; rewrite ?Hq; simpl; lia.
Qed.

Definition pq_eq_dec (x y : pq) : {x = y} + {x <> y}.
Proof. decide equality; first [apply Z.eq_dec | apply string_dec]. Defined.

(** Each question of the pool, as often as it occurs there: three
    times when preferred, once otherwise. *)
Lemma boost_occ marksPref pool q :
  count_occ pq_eq_dec (boost marksPref pool) q =
    ((if preferred marksPref q then 3 else 1) * count_occ pq_eq_dec pool q)%nat.
Proof.
  unfold boost. induction pool as [|x pool IH]; [simpl; lia|]. cbn [flat_map].
  rewrite count_occ_app, IH.
  assert (Hx : count_occ pq_eq_dec (if preferred marksPref x then [x; x; x] else [x]) q =
               if pq_eq_dec x q then (if preferred marksPref q then 3 else 1)%nat else 0%nat).
  { destruct (pq_eq_dec x q) as [<-|Hne]; destruct (preferred marksPref x); simpl;
      repeat destruct (pq_eq_dec _ _); first [done|congruence]. }
  rewrite Hx. cbn [count_occ]. destruct (pq_eq_dec x q); destruct (preferred marksPref q); lia.
Qed.

(** C21: boosting (360-368) puts each preferred question of the pool
    in it three times and each other one once; so when some but not all
    questions are preferred, the share of preferred entries, which is
    the chance that a uniformly drawn index hits a preferred question, is
    strictly larger than in the plain pool (3k/(n+2k) against k/n). *)
Theorem boost_bias marksPref pool :
  (forall q, count_occ pq_eq_dec (boost marksPref pool) q =
             ((if preferred marksPref q then 3 else 1) * count_occ pq_eq_dec pool q)%nat) /\
  ((0 < n_preferred marksPref pool < length pool)%nat ->
   (n_preferred marksPref pool * length (boost marksPref pool) <
    length pool * n_preferred marksPref (boost marksPref pool))%nat).
Proof.
  split; [apply boost_occ|]. intros Hk. destruct (boost_counts marksPref pool) as [-> ->]. nia.
Qed.

Lemma boost_In marksPref pool x : In x (boost marksPref pool) <-> In x pool.
Proof.
  unfold boost. rewrite in_flat_map. split.
  - intros (q & Hq & Hx). destruct (preferred marksPref q); simpl in Hx;
      intuition (subst; auto).
  - intros Hx. exists x. split; [done|]. destruct (preferred marksPref x); simpl; auto.
Qed.

Lemma distinct_ids_boost marksPref pool :
  length (distinct_ids (boost marksPref pool)) = length (distinct_ids pool).
Proof.
  assert (Hs : forall z, In z (distinct_ids (boost marksPref pool)) <-> In z (distinct_ids pool)).
  { intros z. unfold distinct_ids. rewrite !nodup_In, !in_map_iff.
    setoid_rewrite boost_In. done. }
  apply Nat.le_antisymm; apply NoDup_incl_length; try apply NoDup_nodup; intros z; apply Hs.
Qed.

(** ** [generateMTP] *)

(** C5: [generateMTP] returns before rendering exactly when the
    pool query has no row (the previous paper then stays on screen);
    otherwise the paper has distinct questions of the pool, as many as
    [min(count, distinct questions)], with or without preferences. *)
Theorem generateMTP_spec st cur count marksPref draws :
  valid_draws draws ->
  (generateMTP st cur count marksPref draws = None <->
   runQuery (pool_query (Js.num_or_null cur)) st = []) /\
  match generateMTP st cur count marksPref draws with
  | None => True
  | Some paper =>
      let pool := runQuery (pool_query (Js.num_or_null cur)) st in
      NoDup (map pq_id paper) /\ incl paper pool /\
      length paper = Nat.min (Z.to_nat count) (length (distinct_ids pool))
  end.
Proof.
  intros Hd. unfold generateMTP.
  destruct (runQuery _ st) as [|q0 pool0] eqn:Hq; [done|]. cbv zeta.
  split; [split; discriminate|].
  set (pool := q0 :: pool0). fold pool.
  destruct (bool_decide (marksPref = [])).
  - destruct (pick_all_distinct pool count draws) as [Hnd Hin].
    split; [done|]. split; [done|]. by apply pick_all_length.
  - destruct (pick_all_distinct (boost marksPref pool) count draws) as [Hnd Hin].
    split; [done|]. split.
    + intros x Hx. apply (boost_In marksPref). by apply Hin.
    + unfold pick_all in *. rewrite <- (distinct_ids_boost marksPref).
      by apply pick_all_length.
Qed.

(** ** Witnesses *)

Definition demo_questions : tables :=
  mkTables [] [] []
    [mkQuestion 1 None None None 5 None "Define velocity." None;
     mkQuestion 2 None None None 3 None "State Newton's first law." None;
     mkQuestion 3 None None None 5 None "Define velocity." None] [] [].

Definition demo_pool : list pq := pool_query None demo_questions.

(** Every call of [Math.random] returning 0.5. *)
Definition half_draws : nat -> Z := fun _ => (2 ^ 52)%Z.

Lemma generateMTP_spec_witness :
  (generateMTP (Live demo_questions) None 2 ["5"]%string half_draws = None <->
   runQuery (pool_query (Js.num_or_null None)) (Live demo_questions) = []) /\
  match generateMTP (Live demo_questions) None 2 ["5"]%string half_draws with
  | None => True
  | Some paper =>
      let pool := runQuery (pool_query (Js.num_or_null None)) (Live demo_questions) in
      NoDup (map pq_id paper) /\ incl paper pool /\
      length paper = Nat.min (Z.to_nat 2) (length (distinct_ids pool))
  end.
Proof.
  apply generateMTP_spec. intros i. unfold half_draws, random_scale. lia.
Defined.

Lemma pick_all_full_witness :
  Permutation (map pq_id (pick_all demo_pool 10 half_draws)) (distinct_ids demo_pool).
Proof.
  apply pick_all_full.
  - intros i. unfold half_draws, random_scale. lia.
  - vm_compute. discriminate.
Defined.

Lemma boost_bias_witness :
  (n_preferred ["5"]%string [mkPq 1 "a" 5; mkPq 2 "b" 3] *
   length (boost ["5"]%string [mkPq 1 "a" 5; mkPq 2 "b" 3]) <
   length [mkPq 1 "a" 5; mkPq 2 "b" 3] *
   n_preferred ["5"]%string (boost ["5"]%string [mkPq 1 "a" 5; mkPq 2 "b" 3]))%nat.
Proof. apply (boost_bias ["5"]%string [mkPq 1 "a" 5; mkPq 2 "b" 3]). vm_compute. lia. Defined.

Lemma pick_loop_fuel_witness :
  pick_loop 7 2 half_draws 0 demo_pool [] = pick_loop (length demo_pool) 2 half_draws 0 demo_pool [].
Proof. apply pick_loop_fuel. vm_compute. lia. Defined.

Lemma pick_all_nonpositive_witness : pick_all demo_pool 0 half_draws = [].
Proof. apply pick_all_nonpositive. lia. Defined.

End Sampler.
