(* ===== verification/Playlists.v ===== *)
(** * Playlists (src/app/index.js:188-211, 264-351)

    The statements of the playlist handlers: adding a question from the
    picker (line 199), the "Delete" button's cascade after [confirm]
    (315-321), the "Remove" button of a listed question (345), the item
    count shown by [renderPlaylists] (278-279) and the contents query of
    [showPlaylistContents] (329).  The save and re-render after each
    mutation are composed in the application model. *)

From Stdlib Require Import String ZArith List Lia Bool.
From stdpp Require Import base list.
From S2P Require Import Prelude JsString Db DbSpec.

Local Open Scope exec_scope.

Module Playlists.
Import Db DbSpec.

(** [b.onclick] of the picker (199): one more item, duplicates allowed. *)
Definition add_to_playlist (pid qid : Z) : Exec store unit :=
  insert_item pid qid ;;; ret tt.

(** [delBtn.onclick] (315-319): nothing unless the user confirms; then the
    items of the playlist, then the playlist row. *)
Definition delete_playlist (confirmed : bool) (pid : Z) : Exec store unit :=
  if confirmed then delete_items_of pid ;;; delete_playlist_row pid else ret tt.

(** [removeBtn.onclick] (345): every item of that question in that
    playlist. *)
Definition remove_from_playlist (pid qid : Z) : Exec store unit :=
  delete_item_pair pid qid.

(** [(cntRes.length && cntRes[0].values[0][0]) || 0] (278-279). *)
Definition shown_count (st : store) (pid : Z) : Z :=
  match runQuery (fun t => [count_items pid t]) st with
  | c :: _ => Js.num_or (Some c) 0
  | [] => 0%Z
  end.

(** [SELECT q.id, q.text, q.marks FROM questions q JOIN playlist_items pi
    ON pi.question_id=q.id WHERE pi.playlist_id=? ORDER BY pi.id DESC]
    (329): the items of the playlist, latest first, each joined with its
    question. *)
Definition playlist_contents (pid : Z) (t : tables) : list (Z * string * Z) :=
  flat_map (fun it => map (fun q => (q_id q, q_text q, q_marks q))
                          (List.filter (fun q => Z.eqb (q_id q) (item_question it)) (questions t)))
           (rev (List.filter (fun it => Z.eqb (item_playlist it) pid) (items t))).

(** ** Lemmas *)

Lemma filter_filter_neg {A} (f : A -> bool) (l : list A) :
  List.filter f (List.filter (fun x => negb (f x)) l) = [].
Proof. induction l as [|x l IH]; [done|]. simpl. destruct (f x) eqn:E; simpl; rewrite ?E; done. Qed.

(** Removing the rows a sub-condition [g] of [f] selects lowers the number
    of rows [f] selects by the number [g] selects. *)
Lemma length_filter_remove {A} (f g : A -> bool) (l : list A) :
  (forall x, g x = true -> f x = true) ->
  (length (List.filter f (List.filter (fun x => negb (g x)) l)) + length (List.filter g l)
   = length (List.filter f l))%nat.
Proof.
  intros Hgf. induction l as [|x l IH]; [done|]. simpl.
  destruct (g x) eqn:Eg; simpl.
  - rewrite (Hgf x Eg). simpl. lia.
  - destruct (f x); simpl; lia.
Qed.

Lemma has_id_filter_self {R} `{HasRowid R} (l : list R) i :
  has_id (List.filter (fun r => negb (Z.eqb (row_id r) i)) l) i = false.
Proof.
  induction l as [|x l IH]; [done|]. simpl.
  destruct (Z.eqb_spec (row_id x) i); simpl; [done|].
  rewrite IH, orb_false_r. by apply Z.eqb_neq.
Qed.

(** After its items are deleted, a playlist has none left. *)
Lemma count_items_deleted pid t :
  count_items pid (set_items (List.filter (fun it => negb (Z.eqb (item_playlist it) pid))
                                          (items t)) t) = 0%Z.
Proof. unfold count_items. cbn [items set_items]. by rewrite filter_filter_neg. Qed.

(** C6: deleting a confirmed playlist removes its items and
    then its row: the store stays well-formed, the count shown for that
    id is 0, no playlist has that id, and the items of every other
    playlist are kept (spec, section 8). *)
Theorem delete_playlist_cascade t pid :
  wf t ->
  exists t', delete_playlist true pid (Live t) = (Live t', inl tt) /\ wf t' /\
    shown_count (Live t') pid = 0%Z /\ has_id (playlists t') pid = false /\
    items t' = List.filter (fun it => negb (Z.eqb (item_playlist it) pid)) (items t).
Proof.
  intros Hwf. eexists. split; [reflexivity|].
  set (t1 := set_items (List.filter (fun it => negb (Z.eqb (item_playlist it) pid)) (items t)) t).
  assert (Hwf1 : wf t1) by (apply wf_delete_items, Hwf).
  assert (Hc : count_items pid t1 = 0%Z) by apply count_items_deleted.
  split; [by apply wf_delete_playlist|]. split; [|split].
  - transitivity (Js.num_or (Some (count_items pid t1)) 0); [reflexivity|].
    by rewrite Hc.
  - apply (has_id_filter_self (playlists t1)).
  - reflexivity.
Qed.

(** C15: "Remove" on a listed question deletes every item of
    that question in that playlist, not only the entry clicked: after
    it no such item is left, and the playlist's count drops by the
    number of copies. *)
Theorem remove_from_playlist_all_copies t pid qid :
  let is_pair := fun it => Z.eqb (item_playlist it) pid && Z.eqb (item_question it) qid in
  exists t', remove_from_playlist pid qid (Live t) = (Live t', inl tt) /\
    List.filter is_pair (items t') = [] /\
    count_items pid t' = (count_items pid t - Z.of_nat (length (List.filter is_pair (items t))))%Z.
Proof.
  intros is_pair. eexists. split; [reflexivity|]. split; [apply filter_filter_neg|].
  assert (E := length_filter_remove (fun it => Z.eqb (item_playlist it) pid) is_pair (items t)).
  unfold is_pair in *. unfold count_items. cbn [items set_items].
  rewrite <- E; [lia|]. intros x [H _]%andb_true_iff. exact H.
Qed.

(** The count shown is the number of items (the [|| 0] changes nothing). *)
Lemma shown_count_live t pid : shown_count (Live t) pid = count_items pid t.
Proof.
  unfold shown_count, runQuery, Js.num_or. by destruct (Z.eqb_spec (count_items pid t) 0) as [->|].
Qed.

(** An added item is one more row of its playlist, in a store that is
    still live, with the same playlists. *)
Lemma add_to_playlist_count t pid qid st' :
  add_to_playlist pid qid (Live t) = (st', inl tt) ->
  exists t', st' = Live t' /\ playlists t' = playlists t /\
    count_items pid t' = (count_items pid t + 1)%Z.
Proof.
  unfold add_to_playlist, insert_item. cbv [bind ret].
  destruct (insert_into_cases items set_items (fun id => mkItem id pid qid) t)
    as [(id & _ & ->)|[_ ->]]; [intros [= <-]|discriminate].
  eexists. split_and!; [reflexivity|reflexivity|]. unfold count_items. cbn [items set_items].
  rewrite List.filter_app. cbn [List.filter]. rewrite Z.eqb_refl, length_app. simpl. lia.
Qed.

(** C18: adding a question to a playlist records one more item even
    when the question is already there (duplicates are kept, spec
    section 3), raises the playlist's count by one, and lists the
    question first: the contents are shown latest first. *)
Theorem add_to_playlist_first t pid qid t' :
  add_to_playlist pid qid (Live t) = (Live t', inl tt) ->
  count_items pid t' = (count_items pid t + 1)%Z /\
  playlist_contents pid t' =
    map (fun q => (q_id q, q_text q, q_marks q))
        (List.filter (fun q => Z.eqb (q_id q) qid) (questions t)) ++ playlist_contents pid t.
Proof.
  unfold add_to_playlist, insert_item. cbv [bind ret].
  destruct (insert_into_cases items set_items (fun id => mkItem id pid qid) t)
    as [(id & _ & ->)|[_ ->]]; [intros [= <-]|discriminate].
  unfold count_items, playlist_contents. cbn [items questions set_items].
  rewrite !List.filter_app. cbn [List.filter]. rewrite Z.eqb_refl. split.
  - rewrite length_app. simpl. lia.
  - rewrite rev_app_distr. reflexivity.
Qed.

(** C34: against the abstract tables of [DbSpec], the confirmed
    delete is the cascade the spec describes: the playlist's key is
    removed from the playlists map, every item of the playlist is removed
    from the items map, and no other table changes. *)
Theorem delete_playlist_refines t pid :
  all_ids_ok t ->
  exists t', delete_playlist true pid (Live t) = (Live t', inl tt) /\
    abs t' = aset_items (adel (a_items (abs t)) (fun it => Z.eqb (item_playlist it) pid))
                        (aset_playlists (delete pid (a_playlists (abs t))) (abs t)).
Proof.
  intros (_ & _ & _ & _ & Hp & Hi). eexists. split; [reflexivity|]. abs_simpl.
  rewrite !delete_from_refines by done. f_equal.
  apply (adel_by_id (playlists t) pid).
Qed.

(** ** Witnesses *)

(** A playlist 1 holding question 1 twice and a playlist 2 holding it once. *)
Definition demo_playlists : tables :=
  mkTables [mkBoard 1 "Board"] [] []
    [mkQuestion 1 (Some 1%Z) None None 3 None "Define velocity." None]
    [mkPlaylist 1 "Revision"; mkPlaylist 2 "Exam"]
    [mkItem 1 1 1; mkItem 2 1 1; mkItem 3 2 1].

Definition demo_playlists_after : tables :=
  Eval vm_compute in
  match fst (add_to_playlist 2 1 (Live demo_playlists)) with
  | Live t => t | Broken => demo_playlists end.

Lemma delete_playlist_cascade_witness :
  exists t', delete_playlist true 1 (Live demo_playlists) = (Live t', inl tt) /\ wf t' /\
    shown_count (Live t') 1 = 0%Z /\ has_id (playlists t') 1 = false /\
    items t' = List.filter (fun it => negb (Z.eqb (item_playlist it) 1)) (items demo_playlists).
Proof. apply delete_playlist_cascade. apply wfb_sound. vm_compute. reflexivity. Defined.

Lemma add_to_playlist_first_witness :
  count_items 2 demo_playlists_after = (count_items 2 demo_playlists + 1)%Z /\
  playlist_contents 2 demo_playlists_after =
    map (fun q => (q_id q, q_text q, q_marks q))
        (List.filter (fun q => Z.eqb (q_id q) 1) (questions demo_playlists))
    ++ playlist_contents 2 demo_playlists.
Proof. apply add_to_playlist_first. vm_compute. reflexivity. Defined.

Lemma delete_playlist_refines_witness :
  exists t', delete_playlist true 1 (Live demo_playlists) = (Live t', inl tt) /\
    abs t' = aset_items (adel (a_items (abs demo_playlists)) (fun it => Z.eqb (item_playlist it) 1%Z))
                        (aset_playlists (delete 1%Z (a_playlists (abs demo_playlists))) (abs demo_playlists)).
Proof. apply delete_playlist_refines. exact (proj1 (wfb_sound demo_playlists eq_refl)). Defined.

End Playlists.
