(* ===== verification/Render.v ===== *)
(** * What [renderQuestions] shows (src/app/index.js:148-186)

    [escapeHtml] (line 186), the occurrence count of a question's text
    (166-167) and the HTML of a question card's header and text (168).
    The card's HTML is a sequence of UTF-16 code units ([list Z]): the
    template holds an em dash (U+2014), which no Latin-1 string holds. *)

From Stdlib Require Import String Ascii ZArith List Lia Bool.
From stdpp Require Import base list.
From S2P Require Import Prelude JsString Db.

Module Render.
Import Db.

(** [s.replace(/c/g, r)]: every occurrence of [c] replaced by [r]. *)
Fixpoint replace_all (c : ascii) (r : string) (s : string) : string :=
  match s with
  | EmptyString => EmptyString
  | String c' s' =>
      if Ascii.eqb c' c then String.append r (replace_all c r s')
      else String c' (replace_all c r s')
  end.

(** [escapeHtml(s)] (line 186): [&] first, then [<], then [>]. *)
Definition escapeHtml (s : string) : string :=
  replace_all ">"%char "&gt;" (replace_all "<"%char "&lt;" (replace_all "&"%char "&amp;" s)).

(** The reference escaping: each character on its own, by its entity.
    [escapeHtml] is three passes over the whole string. *)
Definition escape_char (c : ascii) : string :=
  if Ascii.eqb c "&"%char then "&amp;"
  else if Ascii.eqb c "<"%char then "&lt;"
  else if Ascii.eqb c ">"%char then "&gt;"
  else String c EmptyString.

Fixpoint escape_ref (s : string) : string :=
  match s with
  | EmptyString => EmptyString
  | String c s' => String.append (escape_char c) (escape_ref s')
  end.

(** [(occRes.length && occRes[0].values[0][0]) || 1] (166-167) over the
    result of [SELECT COUNT( * ) FROM questions WHERE text = ?]. *)
Definition occurrences (st : store) (text : string) : Z :=
  match runQuery (fun t => [count_text text t]) st with
  | c :: _ => Js.num_or (Some c) 1
  | [] => 1%Z
  end.

(** The UTF-16 code units of a Latin-1 string. *)
Definition units (s : string) : list Z :=
  map (fun c => Z.of_nat (nat_of_ascii c)) (list_ascii_of_string s).

Definition em_dash : Z := 8212%Z.

(** The double quote (U+0022) of the template's attributes. *)
Definition dq : string := String (ascii_of_nat 34) EmptyString.

Definition attr (v : string) : string := String.append dq (String.append v dq).

(** The template of line 168 with [board || ''], [marks], [year || ''] and
    [escapeHtml(text)] substituted. *)
Definition card_html (board : option string) (marks : Z) (year : option Z)
    (text : string) : list Z :=
  units ("<div class=" ++ attr "flex justify-between" ++ "><div class=" ++
         attr "text-sm font-medium" ++ ">")%string ++
  units (match board with Some b => b | None => EmptyString end) ++
  units " " ++ [em_dash] ++ units " " ++
  units (Js.number_to_string marks ++ " marks</div><div class=" ++
         attr "text-xs text-slate-500" ++ ">")%string ++
  units (match Js.num_or_null year with Some y => Js.number_to_string y | None => EmptyString end) ++
  units ("</div></div><div class=" ++ attr "mt-2 text-sm" ++ ">")%string ++
  units (escapeHtml text) ++ units "</div>".

(** ** Escaping *)

Lemma replace_all_has_char d c r s :
  Js.has_char d r = false -> (Js.has_char d s = false \/ d = c) ->
  Js.has_char d (replace_all c r s) = false.
Proof.
  intros Hr Hs. induction s as [|c' s IH]; [done|].
  assert (Hs' : Js.has_char d s = false \/ d = c).
  { destruct Hs as [Hs|Hs]; [|by right]. left. simpl in Hs. apply orb_false_iff in Hs. tauto. }
  simpl. destruct (Ascii.eqb_spec c' c) as [->|Hne].
  - rewrite Js.has_char_app, Hr. simpl. by apply IH.
  - simpl. rewrite (IH Hs'), orb_false_r.
    destruct Hs as [Hs| ->].
    + simpl in Hs. by apply orb_false_iff in Hs as [-> _].
    + by apply Ascii.eqb_neq.
Qed.

Lemma escapeHtml_no_lt (s : string) : Js.has_char "<"%char (escapeHtml s) = false.
Proof.
  unfold escapeHtml. apply replace_all_has_char; [reflexivity|left].
  apply replace_all_has_char; [reflexivity|by right].
Qed.

Lemma replace_all_app c r a b :
  replace_all c r (String.append a b) = String.append (replace_all c r a) (replace_all c r b).
Proof.
  induction a as [|x a IH]; [done|]. simpl. rewrite IH.
  by destruct (Ascii.eqb x c); [rewrite Js.append_assoc|].
Qed.

Lemma escapeHtml_app a b :
  escapeHtml (String.append a b) = String.append (escapeHtml a) (escapeHtml b).
Proof. unfold escapeHtml. by rewrite !replace_all_app. Qed.

Lemma escapeHtml_char c : escapeHtml (String c EmptyString) = escape_char c.
Proof.
  unfold escapeHtml, escape_char.
  destruct (Ascii.eqb_spec c "&"%char) as [->|H1]; [reflexivity|].
  destruct (Ascii.eqb_spec c "<"%char) as [->|H2]; [reflexivity|].
  destruct (Ascii.eqb_spec c ">"%char) as [->|H3]; [reflexivity|].
  apply Ascii.eqb_neq in H1, H2, H3. simpl. rewrite H1. simpl. rewrite H2. simpl. by rewrite H3.
Qed.

(** C36: the chained [replace] calls of [escapeHtml] equal escaping
    each character on its own: '&' is replaced first, so the '&' of the
    entities written by the later passes is never escaped again. *)
Theorem escapeHtml_single_pass s : escapeHtml s = escape_ref s.
Proof.
  induction s as [|c s IH]; [reflexivity|].
  change (String c s) with (String.append (String c EmptyString) s).
  by rewrite escapeHtml_app, escapeHtml_char, IH.
Qed.

(** The escaped text holds no '<' and no '>': a question's
    text cannot open or close a tag in the card. *)
Theorem escapeHtml_no_angle (s : string) :
  Js.has_char "<"%char (escapeHtml s) = false /\ Js.has_char ">"%char (escapeHtml s) = false.
Proof.
  split; [apply escapeHtml_no_lt|].
  unfold escapeHtml. apply replace_all_has_char; [reflexivity|by right].
Qed.

Lemma units_no_lt s : Js.has_char "<"%char s = false -> count_occ Z.eq_dec (units s) 60%Z = 0%nat.
Proof.
  intros H. apply count_occ_not_In. unfold units. intros Hin.
  apply in_map_iff in Hin as (c & Hc & Hin). induction s as [|c' s IH]; [done|].
  simpl in H, Hin. apply orb_false_iff in H as [H1 H2]. destruct Hin as [->|Hin]; [|auto].
  apply Ascii.eqb_neq in H1. apply H1. apply (f_equal Z.to_nat) in Hc.
  rewrite Nat2Z.id in Hc. rewrite <- (ascii_nat_embedding c), Hc. reflexivity.
Qed.

Lemma units_app a b : units (String.append a b) = units a ++ units b.
Proof. unfold units. induction a as [|c a IH]; [done|]. simpl. by rewrite IH. Qed.

Lemma digits_no_lt ds :
  Forall (fun d => 0 <= d <= 9)%Z ds -> Js.has_char "<"%char (Js.string_of_digits ds) = false.
Proof.
  induction 1 as [|d ds Hd _ IH]; [done|]. simpl. rewrite IH, orb_false_r.
  assert (d = 0 \/ d = 1 \/ d = 2 \/ d = 3 \/ d = 4 \/ d = 5 \/ d = 6 \/ d = 7
          \/ d = 8 \/ d = 9)%Z as Hc by lia.
  repeat destruct Hc as [->|Hc]; [..|subst]; reflexivity.
Qed.

Lemma number_no_lt z : Js.has_char "<"%char (Js.number_to_string z) = false.
Proof.
  unfold Js.number_to_string. destruct (Z.ltb_spec z 0).
  - simpl. apply digits_no_lt, Js.dec_digits_spec. lia.
  - apply digits_no_lt, Js.dec_digits_spec. lia.
Qed.

(** C10: the card's HTML (line 168) holds the template's eight '<'
    and, besides, exactly the '<' of the board name, whatever the question
    text: the text is escaped, the board name is written into
    [innerHTML] as it is, so a board name can open tags. *)
Theorem card_html_lt_count (b : string) marks year text :
  count_occ Z.eq_dec (card_html (Some b) marks year text) 60%Z =
  (8 + count_occ Z.eq_dec (units b) 60%Z)%nat.
Proof.
  unfold card_html. rewrite !count_occ_app.
  rewrite (units_no_lt (escapeHtml text)) by apply escapeHtml_no_lt.
  rewrite !units_app, !count_occ_app, (units_no_lt (Js.number_to_string marks))
    by apply number_no_lt.
  destruct (Js.num_or_null year) as [y|].
  - rewrite (units_no_lt (Js.number_to_string y)) by apply number_no_lt. simpl. lia.
  - simpl. lia.
Qed.

(** ** Occurrence counts *)

(** Inserting a question adds one to the count of its text and leaves the
    count of every other text. *)
Lemma count_text_insert b sj c marks year x t t' id y :
  insert_question b sj c marks year x (Live t) = (Live t', inl id) ->
  count_text y t' = (count_text y t + if String.eqb x y then 1 else 0)%Z.
Proof.
  unfold insert_question.
  destruct (insert_into_cases questions set_questions
              (fun id => mkQuestion id b sj c marks year x None) t)
    as [(id' & _ & ->)|[_ ->]]; [intros [= <- _]|discriminate].
  unfold count_text. cbn [questions set_questions]. rewrite List.filter_app, length_app.
  cbn [List.filter q_text]. destruct (String.eqb x y); simpl; lia.
Qed.

(** The count shown beside a stored question is the number
    of questions with exactly its text, at least 1, so the [|| 1]
    fallback never applies to a stored question. *)
Theorem occurrences_stored t q :
  In q (questions t) ->
  occurrences (Live t) (q_text q) = count_text (q_text q) t /\ (1 <= count_text (q_text q) t)%Z.
Proof.
  intros Hq. unfold occurrences, runQuery.
  assert (Hpos : (1 <= count_text (q_text q) t)%Z).
  { unfold count_text.
    assert (In q (List.filter (fun q' => String.eqb (q_text q') (q_text q)) (questions t)))
      by (apply filter_In; split; [done|apply String.eqb_refl]).
    destruct (List.filter _ _); [done|simpl; lia]. }
  split; [|done]. unfold Js.num_or. destruct (Z.eqb_spec (count_text (q_text q) t) 0); [lia|done].
Qed.

(** ** Witnesses *)

Definition demo_render : tables :=
  mkTables [] [] []
    [mkQuestion 1 None None None 3 None "Define velocity." None;
     mkQuestion 2 None None None 3 None "Define velocity." None] [] [].

Lemma occurrences_stored_witness :
  occurrences (Live demo_render) "Define velocity." = count_text "Define velocity." demo_render /\
  (1 <= count_text "Define velocity." demo_render)%Z.
Proof.
  apply (occurrences_stored demo_render (mkQuestion 1 None None None 3 None "Define velocity." None)).
  simpl. left. reflexivity.
Defined.

End Render.
