(* ===== verification/Pdf.v ===== *)
(** * PDF import: [handlePdfUpload] (src/app/index.js:243-262)

    The text of each page, as pdf.js gives it (the [str] of the page's
    text items), is joined with ' ' and followed by "\n\n" (248-253); the
    whole text is split on the regular expression [/\n\s*\n/], each piece
    trimmed and the empty ones dropped (255); one question is inserted per
    block, with the current board, marks 3 and no subject, chapter or year
    (257-259).  pdf.js itself is not modelled: a document is the list of
    its pages' item strings.

    [String.prototype.split] with a regular expression takes, at each
    position, the leftmost match; [\n\s*\n] matches from a '\n' to the
    last '\n' of the whitespace run that follows it (the greedy [\s*]
    gives back characters until a '\n' comes next), and does not match
    at a '\n' whose following run holds no other '\n'.  [blank_split] is
    that scan, one code unit at a time: [cur] is the current piece
    (reversed), [pend] the run after a candidate '\n' (reversed). *)

From Stdlib Require Import String Ascii ZArith List Lia Bool.
From stdpp Require Import base list.
From S2P Require Import Prelude JsString Db.

Local Open Scope exec_scope.

Module Pdf.
Import Db.

Definition nl : ascii := ascii_of_nat 10.
Definition blank_line : string := String nl (String nl EmptyString).

(** [fullText] after the page loop (248-253). *)
Fixpoint concat_pages (texts : list string) : string :=
  match texts with
  | [] => EmptyString
  | x :: r => (x ++ blank_line ++ concat_pages r)%string
  end.

Definition full_text (pages : list (list string)) : string :=
  concat_pages (map (Js.join " ") pages).

Definition piece (cur : list ascii) : string := string_of_list_ascii (rev cur).

(** In a run kept in reverse: the code units after its last '\n'. *)
Fixpoint after_last_nl (run : list ascii) : option (list ascii) :=
  match run with
  | [] => None
  | c :: r => if Ascii.eqb c nl then Some [] else option_map (cons c) (after_last_nl r)
  end.

Fixpoint blank_split (s : string) (cur : list ascii) (pend : option (list ascii)) : list string :=
  match s with
  | EmptyString =>
      match pend with
      | None => [piece cur]
      | Some run =>
          match after_last_nl run with
          | Some aft => [piece cur; piece aft]
          | None => [piece (run ++ nl :: cur)]
          end
      end
  | String c s' =>
      match pend with
      | None =>
          if Ascii.eqb c nl then blank_split s' cur (Some []) else blank_split s' (c :: cur) None
      | Some run =>
          if Js.is_ws c then blank_split s' cur (Some (c :: run))
          else match after_last_nl run with
               | Some aft => piece cur :: blank_split s' (c :: aft) None
               | None => blank_split s' (c :: run ++ nl :: cur) None
               end
      end
  end.

(** [fullText.split(/\n\s*\n/)]. *)
Definition split_blank (s : string) : list string := blank_split s [] None.

(** [.map(b=>b.trim()).filter(Boolean)] (255). *)
Definition pdf_blocks (pages : list (list string)) : list string :=
  List.filter Js.str_truthy (map Js.trim (split_blank (full_text pages))).

(** The insert loop (257-259): [board_id] is [currentBoardId] as it is. *)
Definition insert_blocks (board : option Z) (blocks : list string) : Exec store unit :=
  forM_ blocks (fun b => insert_question board None None 3 None b ;;; ret tt).

(** ** The splitter on pages without line breaks *)

Lemma sola_app l1 l2 :
  string_of_list_ascii (l1 ++ l2) = (string_of_list_ascii l1 ++ string_of_list_ascii l2)%string.
Proof. induction l1 as [|c l1 IH]; [done|]. simpl. by rewrite IH. Qed.

Lemma is_ws_nl : Js.is_ws nl = true.
Proof. reflexivity. Qed.

(** Code units other than '\n' go to the current piece. *)
Lemma blank_split_no_nl x s cur :
  Js.has_char nl x = false ->
  blank_split (x ++ s) cur None = blank_split s (rev (list_ascii_of_string x) ++ cur) None.
Proof.
  revert cur. induction x as [|c x IH]; intros cur; [done|]. simpl.
  intros [Hc Hx]%orb_false_iff. rewrite Hc, IH by done. by rewrite <- app_assoc.
Qed.

(** Whitespace extends the pending run. *)
Lemma blank_split_blank x s cur run :
  Js.all_ws x = true ->
  blank_split (x ++ s) cur (Some run) = blank_split s cur (Some (rev (list_ascii_of_string x) ++ run)).
Proof.
  revert run. induction x as [|c x IH]; intros run; [done|]. simpl.
  intros [Hc Hx]%andb_prop. rewrite Hc, IH by done. by rewrite <- app_assoc.
Qed.

Lemma after_last_nl_app l run :
  Forall (fun c => c <> nl) l -> after_last_nl (l ++ run) = option_map (app l) (after_last_nl run).
Proof.
  induction 1 as [|c l Hc _ IH]; [cbn [app]; destruct (after_last_nl run); reflexivity|]. cbn [app after_last_nl].
  rewrite (proj2 (Ascii.eqb_neq c nl) Hc), IH. by destruct (after_last_nl run).
Qed.

Lemma no_nl_Forall x : Js.has_char nl x = false -> Forall (fun c => c <> nl) (rev (list_ascii_of_string x)).
Proof.
  intros Hx. apply Forall_rev. induction x as [|c x IH]; simpl in *; [constructor|].
  apply orb_false_iff in Hx as [Hc Hx]. constructor; [by apply Ascii.eqb_neq|auto].
Qed.

Lemma piece_rev x : piece (rev (list_ascii_of_string x)) = x.
Proof. unfold piece. by rewrite rev_involutive, string_of_list_ascii_of_string. Qed.

Lemma filter_trim_blank a w :
  Js.all_ws w = true ->
  List.filter Js.str_truthy (map Js.trim [a; w]) = List.filter Js.str_truthy (map Js.trim [a]).
Proof. intros Hw. simpl. by rewrite (Js.trim_blank w Hw). Qed.

Lemma str_app_assoc a b c : ((a ++ b) ++ c)%string = (a ++ (b ++ c))%string.
Proof. induction a as [|x a IH]; [done|]. simpl. by rewrite IH. Qed.

Lemma piece_app_rev aft w c y :
  piece (rev (list_ascii_of_string y) ++ c :: rev (list_ascii_of_string w) ++ aft) =
  (piece aft ++ w ++ String c y)%string.
Proof.
  unfold piece. rewrite rev_app_distr, rev_involutive. cbn [rev].
  rewrite rev_app_distr, rev_involutive, <- !app_assoc, !sola_app, !string_of_list_ascii_of_string.
  reflexivity.
Qed.

(** A page that holds a non-whitespace code unit ends the pending run at
    its first such unit: the current piece is emitted and the page starts
    the next one, after the units of the run that follow its last '\n'. *)
Lemma blank_split_page w c y s cur run aft :
  Js.all_ws w = true -> Js.is_ws c = false -> Js.has_char nl (w ++ String c y) = false ->
  after_last_nl run = Some aft ->
  blank_split ((w ++ String c y) ++ s) cur (Some run) =
  piece cur :: blank_split s (rev (list_ascii_of_string y) ++ c :: rev (list_ascii_of_string w) ++ aft) None.
Proof.
  intros Hw Hc Hx Hrun. rewrite Js.has_char_app in Hx. apply orb_false_iff in Hx as [Hxw Hxy].
  cbn [Js.has_char] in Hxy. apply orb_false_iff in Hxy as [_ Hy].
  rewrite str_app_assoc, blank_split_blank by done. cbn [String.append blank_split]. rewrite Hc.
  rewrite after_last_nl_app by (by apply no_nl_Forall). rewrite Hrun. cbn [option_map].
  f_equal. by rewrite blank_split_no_nl.
Qed.

(** After a blank line, the pages that follow: a blank page joins the
    pending run, any other page closes the current piece. *)
Lemma blank_split_pages xs cur run aft :
  Forall (fun x => Js.has_char nl x = false) xs ->
  after_last_nl run = Some aft -> Js.all_ws (piece aft) = true ->
  List.filter Js.str_truthy (map Js.trim (blank_split (concat_pages xs) cur (Some run))) =
  List.filter Js.str_truthy (map Js.trim (piece cur :: xs)).
Proof.
  intros Hxs. revert cur run aft. induction Hxs as [|x xs Hx _ IH]; intros cur run aft Hrun Haft.
  { cbn [concat_pages blank_split]. rewrite Hrun. by apply filter_trim_blank. }
  cbn [concat_pages]. destruct (Js.all_ws x) eqn:Hb.
  - rewrite blank_split_blank by done. cbn [blank_line String.append blank_split]. rewrite is_ws_nl.
    rewrite (IH cur (nl :: nl :: _) [] eq_refl eq_refl). cbn [map List.filter]. by rewrite (Js.trim_blank x Hb).
  - destruct (Js.not_blank_split x Hb) as (w & c & y & -> & Hw & Hc).
    rewrite (blank_split_page w c y _ cur run aft Hw Hc Hx Hrun). cbn [blank_line String.append blank_split].
    rewrite Ascii.eqb_refl. cbn [blank_split]. rewrite is_ws_nl. cbn [map List.filter].
    rewrite (IH _ [nl] [] eq_refl eq_refl), piece_app_rev.
    cbn [map List.filter]. by rewrite Js.trim_blank_app.
Qed.

Lemma has_char_join c sep xs :
  Js.has_char c sep = false -> Forall (fun x => Js.has_char c x = false) xs ->
  Js.has_char c (Js.join sep xs) = false.
Proof.
  intros Hs. induction 1 as [|x xs Hx _ IH]; [done|].
  destruct xs as [|x' xs]; [done|].
  change (Js.join sep (x :: x' :: xs)) with (x ++ sep ++ Js.join sep (x' :: xs))%string.
  by rewrite !Js.has_char_app, Hx, Hs, IH.
Qed.

(** C27: when no text item of the document holds a line break
    (pdf.js gives the items of a line without '\n'), the only blank lines
    of [fullText] are the "\n\n" after each page: the blocks are the pages
    that are not blank, each page's items joined with ' ' and trimmed.
    One question is made per page, never per paragraph of a page. *)
Theorem pdf_blocks_pages pages :
  Forall (Forall (fun s => Js.has_char nl s = false)) pages ->
  pdf_blocks pages = List.filter Js.str_truthy (map (fun p => Js.trim (Js.join " " p)) pages).
Proof.
  intros Hp. unfold pdf_blocks, full_text, split_blank.
  assert (Hx : Forall (fun x => Js.has_char nl x = false) (map (Js.join " ") pages)).
  { apply Forall_map. eapply Forall_impl; [exact Hp|]. intros p Hp'. by apply has_char_join. }
  rewrite <- (map_map (Js.join " ") Js.trim).
  destruct (map (Js.join " ") pages) as [|x xs]; [reflexivity|].
  inversion Hx as [|? ? Hx0 Hxs]; subst. cbn [concat_pages].
  rewrite blank_split_no_nl, app_nil_r by done. cbn [blank_line String.append blank_split].
  rewrite Ascii.eqb_refl. cbn [blank_split]. rewrite is_ws_nl.
  by rewrite (blank_split_pages xs _ [nl] [] Hxs eq_refl eq_refl), piece_rev.
Qed.

(** ** The inserts *)

(** The question a block becomes (line 258). *)
Definition block_question (board : option Z) (q : question) : Prop :=
  q_board q = board /\ q_subject q = None /\ q_chapter q = None /\
  q_marks q = 3%Z /\ q_year q = None /\ q_tags q = None.

(** C28: an upload that completes appends one question per block,
    in the order of the blocks, each with the board, marks 3 and no
    subject, chapter, year or tags, and changes no other table. *)
Theorem insert_blocks_questions board bs t t' :
  insert_blocks board bs (Live t) = (Live t', inl tt) ->
  exists qs, questions t' = questions t ++ qs /\ map q_text qs = bs /\
    Forall (block_question board) qs /\ t' = set_questions (questions t') t.
Proof.
  revert t. induction bs as [|b bs IH]; intros t.
  { intros [= <-]. exists []. rewrite app_nil_r. by destruct t. }
  cbn [insert_blocks forM_]. unfold insert_question. cbv [bind ret].
  destruct (insert_into_cases questions set_questions
              (fun id => mkQuestion id board None None 3 None b None) t)
    as [(id & _ & ->)|[_ ->]]; [|discriminate].
  intros Hrest. destruct (IH _ Hrest) as (qs & Hq & Ht & Hall & Heq).
  exists (mkQuestion id board None None 3 None b None :: qs). cbn [questions set_questions] in Hq.
  rewrite Hq, <- app_assoc. split; [done|]. split; [by cbn; rewrite Ht|]. split.
  - constructor; [by repeat split|exact Hall].
  - etransitivity; [exact Heq|]. rewrite Hq, <- app_assoc. by destruct t.
Qed.

(** ** Witnesses *)

Definition demo_pages : list (list string) :=
  [["1."; "Define velocity."]; ["  "]; ["2. State"; "Newton's first law."]]%string.

Lemma pdf_blocks_pages_witness :
  pdf_blocks demo_pages =
  List.filter Js.str_truthy (map (fun p => Js.trim (Js.join " " p)) demo_pages).
Proof. apply pdf_blocks_pages. repeat constructor. Defined.

Definition demo_after_upload : tables :=
  Eval vm_compute in
  match fst (insert_blocks (Some 1%Z) (pdf_blocks demo_pages) (Live empty_tables)) with
  | Live t => t | Broken => empty_tables end.

Lemma insert_blocks_questions_witness :
  exists qs, questions demo_after_upload = questions empty_tables ++ qs /\
    map q_text qs = pdf_blocks demo_pages /\ Forall (block_question (Some 1%Z)) qs /\
    demo_after_upload = set_questions (questions demo_after_upload) empty_tables.
Proof. apply insert_blocks_questions. vm_compute. reflexivity. Defined.

End Pdf.
