(* ===== verification/Views.v ===== *)
(** * The other views: listings and their HTML (src/app/index.js:53-146,
    178, 188-199, 270-351, 377-384)

    The rows the listing queries return ([ORDER BY id DESC], with the
    dashboard's [LIMIT 8]), the board page's title ([bname], 135-136), and
    the HTML templates the views write into [innerHTML]: the dashboard's
    board card (92) and playlist caption (114), the board page header
    (137), the "Add to playlist" button (178), the playlists panel header
    (286-289), an item of a playlist's contents (339) and an item of a
    generated paper (382).  Each template is a sequence of UTF-16 code
    units, as in [Render]; the elements built with [textContent] hold no
    markup and are not modelled. *)

From Stdlib Require Import String Ascii ZArith List Lia Bool Sorting.Sorted.
From stdpp Require Import base list.
From S2P Require Import Prelude JsString Db Render.

Module Views.
Import Db Render.

(** ** Listings *)

(** [ORDER BY id DESC]: the rows sorted by decreasing rowid. *)
Fixpoint insert_desc {R} `{HasRowid R} (x : R) (l : list R) : list R :=
  match l with
  | [] => [x]
  | y :: l' => if (row_id y <? row_id x)%Z then x :: l else y :: insert_desc x l'
  end.

Definition order_by_id_desc {R} `{HasRowid R} (l : list R) : list R :=
  fold_right insert_desc [] l.

(** [SELECT id, name FROM boards ORDER BY id DESC] (56, 86): the board
    buttons of [renderBoards] and the cards of [renderDashboard]. *)
Definition board_rows (st : store) : list (Z * string) :=
  runQuery (fun t => map (fun b => (board_id b, board_name b)) (order_by_id_desc (boards t))) st.

(** [SELECT id,name FROM playlists ORDER BY id DESC] (192, 273): the
    picker's buttons and the playlists panel. *)
Definition playlist_rows (st : store) : list (Z * string) :=
  runQuery (fun t => map (fun p => (pl_id p, pl_name p)) (order_by_id_desc (playlists t))) st.

(** [... ORDER BY id DESC LIMIT 8] (103): the dashboard's playlists. *)
Definition featured_playlists (st : store) : list (Z * string) :=
  runQuery (fun t => take 8 (map (fun p => (pl_id p, pl_name p)) (order_by_id_desc (playlists t)))) st.

(** [(bres.length && bres[0].values[0][0]) || 'Board'] (135-136). *)
Definition board_title (st : store) (boardId : Z) : string :=
  match runQuery (fun t => map board_name (List.filter (fun b => Z.eqb (board_id b) boardId)
                                                       (boards t))) st with
  | n :: _ => Js.str_or (Some n) "Board"
  | [] => "Board"
  end.

(** ** Templates *)

Definition lt_count (html : list Z) : nat := count_occ Z.eq_dec html 60%Z.

Fixpoint tabs (k : nat) : string :=
  match k with O => EmptyString | S k => String (ascii_of_nat 9) (tabs k) end.

(** A line break and [k] tabs of the template literal's source layout. *)
Definition nl_tabs (k : nat) : string := String (ascii_of_nat 10) (tabs k).

(** The dashboard's board card (92). *)
Definition dashboard_card_html (id : Z) (name : string) : list Z :=
  units ("<div class=" ++ attr "channel-cover" ++ " style=" ++ dq ++
         "background-image:linear-gradient(180deg, rgba(99,102,241,0.08), rgba(99,102,241,0.02)), url('https://picsum.photos/seed/board" ++
         Js.number_to_string id ++ "/800/400')" ++ dq ++ "></div><div class=" ++ attr "mt-3" ++
         "><div class=" ++ attr "channel-title" ++ ">" ++ escapeHtml name ++
         "</div><div class=" ++ attr "text-sm text-slate-500" ++ ">Channel for " ++
         escapeHtml name ++ " board</div></div>")%string.

(** The caption of a featured playlist (114). *)
Definition featured_meta_html (pname : string) : list Z :=
  units ("<div class=" ++ attr "font-medium" ++ ">" ++ escapeHtml pname ++
         "</div><div class=" ++ attr "text-sm text-slate-500" ++ ">Playlist</div>")%string.

(** The background of a featured playlist's thumbnail (111), assigned to
    [thumb.style.backgroundImage]. *)
Definition thumb_background (pid : Z) : list Z :=
  units ("linear-gradient(180deg, rgba(0,0,0,0.04), rgba(0,0,0,0.02)), url(https://picsum.photos/seed/playlist" ++
         Js.number_to_string pid ++ "/400/240)")%string.

(** The board page's header (137). *)
Definition board_header_html (bname : string) : list Z :=
  units ("<div class=" ++ attr "mb-4" ++ "><div class=" ++ attr "text-2xl font-semibold" ++ ">" ++
         escapeHtml bname ++ "</div><div class=" ++ attr "text-sm text-slate-500" ++
         ">Channel page ")%string ++ [em_dash] ++
  units (" playlists and questions for " ++ escapeHtml bname ++ "</div></div>")%string.

(** The "Add to playlist" button of a question card (178). *)
Definition add_button_html (id : Z) : list Z :=
  units ("<button class=" ++ attr "px-2 py-1 bg-indigo-600 text-white rounded" ++ " data-id=" ++
         attr (Js.number_to_string id) ++ ">Add to playlist</button>")%string.

(** The header of a playlist in the panel (286-289), with
    [${count} question${count!==1? 's':''}]. *)
Definition playlist_header_html (name : string) (count : Z) : list Z :=
  units ("<div>" ++ nl_tabs 3 ++ "<div class=" ++ attr "text-lg font-semibold" ++ ">" ++
         escapeHtml name ++ "</div>" ++ nl_tabs 3 ++ "<div class=" ++ attr "playlist-meta" ++ ">" ++
         Js.number_to_string count ++ " question" ++
         (if Z.eqb count 1 then EmptyString else "s") ++ "</div>" ++ nl_tabs 2 ++ "</div>")%string.

(** An item of a playlist's contents (339): the escaped text, then its
    first 200 code units. *)
Definition contents_item_html (marks : Z) (text : string) : list Z :=
  units ("<div class=" ++ attr "text-sm font-medium" ++ ">" ++ Js.number_to_string marks ++
         " marks</div><div class=" ++ attr "text-sm mt-1 text-slate-700" ++ ">" ++
         Js.slice_to 200 (escapeHtml text) ++ "</div>")%string.

(** An item of a generated paper (382). *)
Definition mtp_item_html (marks : Z) (text : string) : list Z :=
  units ("<div class=" ++ attr "text-sm font-medium" ++ ">" ++ Js.number_to_string marks ++
         " marks</div><div class=" ++ attr "text-sm" ++ ">" ++ escapeHtml text ++ "</div>")%string.

(** ** Listings are newest first *)

Lemma insert_desc_last {R} `{HasRowid R} (x : R) l :
  Forall (fun y => row_id x < row_id y)%Z l -> insert_desc x l = l ++ [x].
Proof.
  induction 1 as [|y l Hy _ IH]; [done|]. simpl.
  destruct (Z.ltb_spec (row_id y) (row_id x)); [lia|]. by rewrite IH.
Qed.

(** On rows in increasing rowid order, [ORDER BY id DESC] is the reverse
    order. *)
Lemma order_by_id_desc_rev {R} `{HasRowid R} (l : list R) :
  StronglySorted Z.lt (map row_id l) -> order_by_id_desc l = rev l.
Proof.
  induction l as [|x l IH]; [done|]. cbn [map]. intros [Hs Hall]%StronglySorted_inv.
  cbn [order_by_id_desc fold_right]. fold (order_by_id_desc l). rewrite IH by done.
  apply insert_desc_last, Forall_rev. rewrite List.Forall_forall in Hall |- *.
  intros y Hy. by apply Hall, in_map.
Qed.

(** C29: on a well-formed store the listings show the latest
    created first: the board buttons and cards, the picker's and the
    panel's playlists in reverse creation order, and the dashboard the
    eight playlists created last, latest first. *)
Theorem listings_newest_first t :
  wf t ->
  board_rows (Live t) = map (fun b => (board_id b, board_name b)) (rev (boards t)) /\
  playlist_rows (Live t) = map (fun p => (pl_id p, pl_name p)) (rev (playlists t)) /\
  featured_playlists (Live t) = take 8 (map (fun p => (pl_id p, pl_name p)) (rev (playlists t))).
Proof.
  intros [((Hb & _) & _ & _ & _ & (Hp & _) & _) _].
  unfold board_rows, playlist_rows, featured_playlists, runQuery.
  by rewrite !order_by_id_desc_rev.
Qed.

(** ** Markup *)

Lemma lt_escaped s : count_occ Z.eq_dec (units (escapeHtml s)) 60%Z = 0%nat.
Proof. apply units_no_lt, escapeHtml_no_lt. Qed.

Lemma lt_number z : count_occ Z.eq_dec (units (Js.number_to_string z)) 60%Z = 0%nat.
Proof. apply units_no_lt, number_no_lt. Qed.

Lemma lt_slice n s : count_occ Z.eq_dec (units (Js.slice_to n (escapeHtml s))) 60%Z = 0%nat.
Proof. apply units_no_lt, Js.has_char_slice_to, escapeHtml_no_lt. Qed.

(** Split a template into its pieces, drop the pieces of user data, and
    count the '<' of the constant ones. *)
Ltac markup_tac :=
  unfold lt_count, attr; rewrite ?count_occ_app, ?units_app, ?count_occ_app;
  rewrite ?lt_escaped, ?lt_number, ?lt_slice; reflexivity.

(** C30: every other template the views write into [innerHTML]
    holds exactly the '<' of the template, whatever the names, texts and
    numbers substituted: names and texts are escaped (the contents' cut
    applies to escaped text, which holds no '<'), numbers hold none.
    The question card's board name (C10) is the one unescaped value. *)
Theorem templates_markup_fixed id name pname bname count marks text :
  lt_count (dashboard_card_html id name) = 8%nat /\
  lt_count (featured_meta_html pname) = 4%nat /\
  lt_count (board_header_html bname) = 6%nat /\
  lt_count (add_button_html id) = 2%nat /\
  lt_count (playlist_header_html name count) = 6%nat /\
  lt_count (contents_item_html marks text) = 4%nat /\
  lt_count (mtp_item_html marks text) = 4%nat.
Proof.
  unfold dashboard_card_html, featured_meta_html, board_header_html, add_button_html,
    playlist_header_html, contents_item_html, mtp_item_html.
  repeat split; try markup_tac. destruct (Z.eqb count 1); markup_tac.
Qed.

(** ** The contents' cut *)

Lemma replace_all_absent c r s : Js.has_char c s = false -> replace_all c r s = s.
Proof.
  induction s as [|x s IH]; [done|]. simpl. intros [Hx Hs]%orb_false_iff.
  rewrite Hx. by rewrite IH.
Qed.

(** Text without '&', '<' and '>' is its own escape. *)
Lemma escapeHtml_plain s :
  Js.has_char "&"%char s = false -> Js.has_char "<"%char s = false ->
  Js.has_char ">"%char s = false -> escapeHtml s = s.
Proof.
  intros. unfold escapeHtml.
  by rewrite (replace_all_absent "&"%char), (replace_all_absent "<"%char), (replace_all_absent ">"%char).
Qed.

(** C31: the contents item cuts the ESCAPED text at 200 code
    units, so the cut can fall inside an entity: a text of 197 plain
    characters followed by '&' is shown as those characters and the broken
    entity "&am" (the browser shows the letters "&am"), where cutting the
    text would have shown the '&'. *)
Theorem contents_cut_splits_entity marks p :
  String.length p = 197%nat ->
  Js.has_char "&"%char p = false -> Js.has_char "<"%char p = false ->
  Js.has_char ">"%char p = false ->
  contents_item_html marks (p ++ "&") =
  units ("<div class=" ++ attr "text-sm font-medium" ++ ">" ++ Js.number_to_string marks ++
         " marks</div><div class=" ++ attr "text-sm mt-1 text-slate-700" ++ ">" ++
         p ++ "&am" ++ "</div>")%string.
Proof.
  intros Hl Ha Hlt Hgt. unfold contents_item_html. do 2 f_equal.
  rewrite escapeHtml_app, escapeHtml_plain by done.
  replace 200%nat with (String.length p + 3)%nat by lia.
  by rewrite Js.slice_to_app, Js.append_assoc.
Qed.

(** ** The playlist header shows its count *)

(** The code units of a Latin-1 string determine it. *)
Lemma units_inj s1 s2 : units s1 = units s2 -> s1 = s2.
Proof.
  intros H. rewrite <- (string_of_list_ascii_of_string s1), <- (string_of_list_ascii_of_string s2).
  f_equal. unfold units in H. revert H.
  generalize (list_ascii_of_string s1) (list_ascii_of_string s2).
  intros l; induction l as [|c l IH]; intros [|c' l'] H; try discriminate; [done|].
  injection H as Hc Hl. apply Nat2Z.inj in Hc. f_equal; [|by apply IH].
  by rewrite <- (ascii_nat_embedding c), <- (ascii_nat_embedding c'), Hc.
Qed.

Lemma append_cancel_l p x y : (p ++ x = p ++ y)%string -> x = y.
Proof. induction p as [|c p IH]; [done|]. intros [= H]. by apply IH. Qed.

(** Two strings without [c], each followed by [c]: the first [c] ends them. *)
Lemma append_sep_inj c x y r1 r2 :
  Js.has_char c x = false -> Js.has_char c y = false ->
  (x ++ String c r1 = y ++ String c r2)%string -> x = y.
Proof.
  revert y. induction x as [|a x IH]; intros [|b y] Hx Hy E; cbn [String.append Js.has_char] in *.
  - done.
  - injection E as -> _. by rewrite Ascii.eqb_refl in Hy.
  - injection E as <- _. by rewrite Ascii.eqb_refl in Hx.
  - apply orb_false_iff in Hx as [_ Hx], Hy as [_ Hy]. injection E as -> E. f_equal. by apply (IH y).
Qed.

Lemma digits_no_space ds :
  Forall (fun d => 0 <= d <= 9)%Z ds -> Js.has_char " "%char (Js.string_of_digits ds) = false.
Proof.
  induction 1 as [|d ds Hd _ IH]; [done|]. cbn [Js.string_of_digits Js.has_char]. rewrite IH, orb_false_r.
  destruct (Js.digit_char_facts d Hd) as (_ & Hws & _).
  destruct (Ascii.eqb_spec (Js.digit_char d) " "%char) as [E|]; [|done]. rewrite E in Hws. discriminate.
Qed.

Lemma number_no_space z : Js.has_char " "%char (Js.number_to_string z) = false.
Proof.
  unfold Js.number_to_string. destruct (Z.ltb_spec z 0).
  - cbn [Js.has_char]. rewrite digits_no_space; [reflexivity|]. apply Js.dec_digits_spec. lia.
  - apply digits_no_space, Js.dec_digits_spec. lia.
Qed.

(** Different counts give different playlist headers (286-289). *)
Lemma playlist_header_html_inj name c1 c2 :
  playlist_header_html name c1 = playlist_header_html name c2 -> c1 = c2.
Proof.
  unfold playlist_header_html. intros H%units_inj. repeat apply append_cancel_l in H.
  cbn [String.append] in H. apply append_sep_inj in H; [|apply number_no_space..].
  apply (f_equal Js.parseInt) in H. rewrite !Js.parseInt_number_to_string in H. by injection H.
Qed.

(** ** Instances *)

Definition demo_tables : tables :=
  mkTables [mkBoard 1 "Physics"; mkBoard 2 "Chemistry"] [] [] []
           [mkPlaylist 1 "Mechanics"; mkPlaylist 4 "Optics"; mkPlaylist 9 "Revision"] [].

Lemma listings_newest_first_witness :
  board_rows (Live demo_tables) = [(2%Z, "Chemistry"%string); (1%Z, "Physics"%string)] /\
  featured_playlists (Live demo_tables) =
    [(9%Z, "Revision"%string); (4%Z, "Optics"%string); (1%Z, "Mechanics"%string)].
Proof.
  destruct (listings_newest_first demo_tables) as (Hb & _ & Hf);
    [apply wfb_sound; vm_compute; reflexivity|].
  split; [rewrite Hb | rewrite Hf]; reflexivity.
Defined.

Definition demo_plain : string := string_of_list_ascii (repeat "a"%char 197).

Lemma contents_cut_splits_entity_witness :
  contents_item_html 3 (demo_plain ++ "&") =
  units ("<div class=" ++ attr "text-sm font-medium" ++ ">" ++ Js.number_to_string 3 ++
         " marks</div><div class=" ++ attr "text-sm mt-1 text-slate-700" ++ ">" ++
         demo_plain ++ "&am" ++ "</div>")%string.
Proof. apply contents_cut_splits_entity; vm_compute; reflexivity. Defined.

End Views.
