(* ===== verification/Pages.v ===== *)
(** * The pages: what each render function puts in the DOM

    The render functions of src/app/index.js build elements with
    [document.createElement], set their [className], their [textContent]
    or their [innerHTML], and append them to a container.  [node] is that
    tree: an element with its tag, its class and its children in append
    order, the HTML written by [innerHTML] (UTF-16 code units), or the
    text written by [textContent] (code units, never parsed).  Each render
    function is a function from the store (and the globals it reads) to
    the children it leaves in its container:

    - [boards_panel] is [renderBoards] (53-70);
    - [dashboard_boards] and [dashboard_playlists] are [renderDashboard]
      (79-126);
    - [board_header] is the header of [renderBoardPage] (133-143);
    - [question_rows] and [questions_panel] are [renderQuestions]
      (148-184), with the [LEFT JOIN]s of its query;
    - [picker_popup] is the popup of [showPlaylistPicker] (188-205);
    - [playlists_panel] is [renderPlaylists] (270-325);
    - [contents_panel] is [showPlaylistContents] (327-351);
    - [paper_view] is the output of [generateMTP] (377-384).

    Inline styles set through [el.style] are [Styled] nodes (the
    thumbnail's background, the popup's width; its position is added by
    [Picker]).  The [hidden] toggles and the event wiring ([onclick]) are
    not part of the tree: they are the [Ui] screen and the events of [App]. *)

From Stdlib Require Import String Ascii ZArith List Lia Bool Sorting.Sorted.
From stdpp Require Import base list.
From S2P Require Import Prelude JsString Db Sampler Playlists Render Views.

Module Pages.
Import Db Render Views.

#[local] Set Warnings "-register-all".

Inductive node :=
| El (tag cls : string) (body : list node)   (** [createElement], [className], [appendChild] *)
| Markup (html : list Z)                     (** [innerHTML = ...] *)
| TextN (text : list Z)                      (** [textContent = ...] *)
| Styled (css : list (string * list Z)) (n : node).
    (** the element [n] with inline style properties, in assignment order
        ([el.style.prop = value]) *)

(** The grey one-line messages of the empty states. *)
Definition note_html (msg : list Z) : list Z :=
  units ("<div class=" ++ attr "text-sm text-slate-500" ++ ">")%string ++ msg ++ units "</div>".

(** ** [renderBoards] (53-70) *)

Definition boards_panel (st : store) : list node :=
  match board_rows st with
  | [] => [Markup (note_html (units "No boards yet"))]
  | rows => map (fun '(id, name) =>
                   El "button" "w-full text-left p-2 rounded hover:bg-slate-50" [TextN (units name)]) rows
  end.

(** ** [renderDashboard] (79-126) *)

Definition dashboard_boards (st : store) : list node :=
  match board_rows st with
  | [] => [Markup (note_html (units "No boards yet " ++ [em_dash] ++ units " create one."))]
  | rows => map (fun '(id, name) => El "div" "channel-card p-3" [Markup (dashboard_card_html id name)]) rows
  end.

Definition dashboard_playlists (st : store) : list node :=
  match featured_playlists st with
  | [] => [Markup (note_html (units "No playlists yet"))]
  | rows => [El "div" "horizontal-scroll mt-2"
               (map (fun '(pid, pname) =>
                       El "div" "w-56" [Styled [("background-image"%string, thumb_background pid)]
                                                   (El "div" "playlist-thumb" []);
                                        El "div" "mt-2" [Markup (featured_meta_html pname)]]) rows)]
  end.

(** ** [renderBoardPage] (133-143): the header prepended to the content. *)

Definition board_header (st : store) (boardId : Z) : node :=
  El "div" "" [Markup (board_header_html (board_title st boardId))].

(** ** [renderQuestions] (148-184) *)

(** A row of [SELECT q.id, q.text, q.marks, q.year, b.name as board,
    s.name as subject, c.name as chapter FROM questions q LEFT JOIN boards b
    ... LEFT JOIN subjects s ... LEFT JOIN chapters c ...]. *)
Record qrow := mkQrow {
  r_id : Z; r_text : string; r_marks : Z; r_year : option Z;
  r_board : option string; r_subject : option string; r_chapter : option string }.

(** [LEFT JOIN t ON q.ref = t.id]: the name of the row with that id, or
    NULL. *)
Definition join_name {R} `{HasRowid R} (name : R -> string) (rows : list R) (ref : option Z)
    : option string :=
  match ref with
  | Some i => option_map name (List.find (fun r => Z.eqb (row_id r) i) rows)
  | None => None
  end.

(** [WHERE q.board_id=?] when [currentBoardId] is truthy (153-156). *)
Definition on_board (currentBoardId : option Z) (q : question) : bool :=
  match Js.num_or_null currentBoardId with
  | Some b => bool_decide (q_board q = Some b)
  | None => true
  end.

(** The rows, [ORDER BY q.id DESC] (157). *)
Definition question_rows (currentBoardId : option Z) (st : store) : list qrow :=
  runQuery (fun t =>
    map (fun q => mkQrow (q_id q) (q_text q) (q_marks q) (q_year q)
                         (join_name board_name (boards t) (q_board q))
                         (join_name subject_name (subjects t) (q_subject q))
                         (join_name chapter_name (chapters t) (q_chapter q)))
      (order_by_id_desc
         (List.filter (on_board currentBoardId) (questions t)))) st.

(** [if (x) { ... b.textContent = x ... }]: a badge for a truthy name. *)
Definition name_badge (cls : string) (x : option string) : list node :=
  match x with
  | Some s => if Js.str_truthy s then [El "div" cls [TextN (units s)]] else []
  | None => []
  end.

Definition times_sign : ascii := ascii_of_nat 215.

(** The card of one row (163-182): the header and text HTML, the badges
    (board, subject, chapter, year, then the occurrence count with '×'),
    and the "Add to playlist" button. *)
Definition question_card (st : store) (r : qrow) : node :=
  El "div" "p-3 bg-slate-50 rounded question-card"
    [Markup (card_html (r_board r) (r_marks r) (r_year r) (r_text r));
     El "div" "meta-badges"
       (name_badge "badge" (r_board r) ++ name_badge "badge alt" (r_subject r) ++
        name_badge "badge gray" (r_chapter r) ++
        match Js.num_or_null (r_year r) with
        | Some y => [El "div" "badge" [TextN (units (Js.number_to_string y))]]
        | None => []
        end ++
        [El "div" "badge warn"
           [TextN (units (Js.number_to_string (occurrences st (r_text r)) ++
                          String times_sign EmptyString))]]);
     El "div" "mt-2 flex gap-2" [Markup (add_button_html (r_id r))]].

(** [if (!res.length) return;] then one card per row. *)
Definition questions_panel (currentBoardId : option Z) (st : store) : list node :=
  map (question_card st) (question_rows currentBoardId st).

(** ** [showPlaylistPicker] (188-205) *)

Definition picker_popup (st : store) : node :=
  Styled [("min-width"%string, units "200px")] (El "div" "absolute bg-white border rounded shadow p-2 z-50"
    match playlist_rows st with
    | [] => [TextN (units "No playlists " ++ [em_dash] ++ units " create one first")]
    | rows => map (fun '(pid, name) =>
                     El "button" "w-full text-left p-1 hover:bg-slate-100" [TextN (units name)]) rows
    end).

(** ** [renderPlaylists] (270-325) *)

Definition playlist_card (st : store) (id : Z) (name : string) : node :=
  El "div" "playlist-card p-3 rounded mb-3"
    [El "div" "playlist-header"
       [Markup (playlist_header_html name (Playlists.shown_count st id));
        El "div" "flex gap-2 items-center"
          [El "button" "px-3 py-1 bg-indigo-600 text-white rounded text-sm" [TextN (units "View")];
           El "button" "px-3 py-1 bg-red-500 text-white rounded text-sm" [TextN (units "Delete")]]];
     El "div" "playlist-items mt-3 hidden" []].

Definition playlists_panel (st : store) : list node :=
  map (fun '(id, name) => playlist_card st id name) (playlist_rows st).

(** ** [showPlaylistContents] (327-351) *)

Definition contents_panel (st : store) (pid : Z) : list node :=
  match runQuery (Playlists.playlist_contents pid) st with
  | [] => [Markup (note_html (units "No questions in this playlist"))]
  | rows => map (fun '(qid, text, marks) =>
                   El "div" "playlist-item p-3 rounded mb-2 flex justify-between items-start gap-3"
                     [El "div" "" [Markup (contents_item_html marks text)];
                      El "div" "flex flex-col gap-2"
                        [El "button" "px-2 py-1 bg-red-400 text-white rounded text-sm"
                           [TextN (units "Remove")]]]) rows
  end.

(** ** The paper of [generateMTP] (377-384) *)

Definition paper_view (picked : list Sampler.pq) : list node :=
  Markup (units ("<h4 class=" ++ attr "font-medium" ++ ">Generated MTP</h4>")%string) ::
  map (fun p => El "div" "p-2 bg-slate-50 rounded" [Markup (mtp_item_html (Sampler.pq_marks p) (Sampler.pq_text p))])
      picked.

(** ** A playlist's count and its contents agree *)

Lemma filter_none {A} (f : A -> bool) (l : list A) :
  (forall x, In x l -> f x = false) -> List.filter f l = [].
Proof. induction l as [|x l IH]; intros Hf; [done|]. simpl. rewrite Hf by (by left). auto with datatypes. Qed.

(** A rowid present in a table with unique rowids selects one row. *)
Lemma filter_id_single {R} `{HasRowid R} (l : list R) i :
  ids_ok l -> has_id l i = true -> length (List.filter (fun r => Z.eqb (row_id r) i) l) = 1%nat.
Proof.
  intros [Hs _]. induction l as [|x l IH]; [done|]. cbn [map] in Hs.
  apply StronglySorted_inv in Hs as [Hs Hall]. rewrite List.Forall_forall in Hall. simpl.
  destruct (Z.eqb_spec (row_id x) i) as [<-|Hne]; simpl; intros Hx.
  - rewrite filter_none; [done|]. intros y Hy. apply Z.eqb_neq.
    specialize (Hall (row_id y) (in_map _ _ _ Hy)). lia.
  - by apply IH.
Qed.

Lemma length_flat_map_single {A B} (f : A -> list B) (l : list A) :
  (forall x, In x l -> length (f x) = 1%nat) -> length (flat_map f l) = length l.
Proof.
  induction l as [|x l IH]; intros Hf; [done|]. simpl. rewrite length_app, Hf by (by left).
  rewrite IH; [done|]. intros y Hy. apply Hf. by right.
Qed.

(** C39: on a consistent store, the count a playlist's header shows
    is the number of entries its contents list (each item joins exactly
    one question), and the contents show "No questions in this playlist"
    exactly when the header shows 0. *)
Theorem contents_match_count t pid :
  wf t ->
  length (Playlists.playlist_contents pid t) = Z.to_nat (count_items pid t) /\
  (contents_panel (Live t) pid = [Markup (note_html (units "No questions in this playlist"))] <->
   Playlists.shown_count (Live t) pid = 0%Z).
Proof.
  intros [(_ & _ & _ & Hq & _ & _) Hr].
  assert (Hlen : length (Playlists.playlist_contents pid t) = Z.to_nat (count_items pid t)).
  { unfold Playlists.playlist_contents, count_items. rewrite Nat2Z.id, length_flat_map_single, length_rev;
      [done|]. intros it Hin%in_rev. apply filter_In in Hin as [Hin _]. rewrite length_map.
    apply (filter_id_single (questions t)); [done|].
    unfold refs_ok in Hr. rewrite !andb_true_iff in Hr.
    destruct Hr as [_ Hi]. rewrite forallb_forall in Hi. apply Hi in Hin. apply andb_true_iff in Hin. tauto. }
  split; [done|]. assert (0 <= count_items pid t)%Z by (unfold count_items; lia).
  unfold contents_panel, Playlists.shown_count, runQuery, Js.num_or.
  destruct (Playlists.playlist_contents pid t) as [|[[qid text] marks] rows];
    destruct (Z.eqb_spec (count_items pid t) 0) as [Hc|Hc]; simpl in Hlen.
  - done.
  - exfalso. lia.
  - exfalso. lia.
  - split; [intros [=]|intros; exfalso; lia].
Qed.

(** ** The question list *)

Lemma join_name_found {R} `{HasRowid R} (name : R -> string) (rows : list R) i :
  has_id rows i = true -> exists x, In x rows /\ row_id x = i /\ join_name name rows (Some i) = Some (name x).
Proof.
  intros Hi. unfold join_name. destruct (List.find _ rows) as [x|] eqn:F.
  - apply find_some in F as [Hin Hx]. apply Z.eqb_eq in Hx. by exists x.
  - unfold has_id in Hi. apply existsb_exists in Hi as (x & Hin & Hx).
    by rewrite (find_none _ _ F x Hin) in Hx.
Qed.

(** C40: on a consistent store, [renderQuestions] lists the
    questions of the selected board (all of them when none is selected),
    latest first; each row is a stored question with its text, and the
    [LEFT JOIN] finds the name of its board, so the board badge is
    never missing for a question filed under a board. *)
Theorem question_rows_spec cb t :
  wf t ->
  map r_id (question_rows cb (Live t)) = rev (map q_id (List.filter (on_board cb) (questions t))) /\
  Forall (fun r => exists q, In q (questions t) /\ q_id q = r_id r /\ q_text q = r_text r /\
            (forall b, q_board q = Some b ->
               exists x, In x (boards t) /\ board_id x = b /\ r_board r = Some (board_name x)))
         (question_rows cb (Live t)).
Proof.
  intros [(_ & _ & _ & [Hs _] & _ & _) Hr]. unfold question_rows, runQuery.
  rewrite order_by_id_desc_rev by (by apply StronglySorted_map_filter). split.
  - by rewrite map_map, map_rev.
  - apply Forall_map, List.Forall_forall. intros q Hq%in_rev. apply filter_In in Hq as [Hq _].
    exists q. split_and!; [done..|]. intros b Hb. cbn [r_board]. rewrite Hb.
    unfold refs_ok in Hr. rewrite !andb_true_iff in Hr. destruct Hr as [[[_ _] Hqs] _].
    rewrite forallb_forall in Hqs. specialize (Hqs q Hq).
    unfold question_refs_ok, question_args_ok in Hqs. rewrite Hb, !andb_true_iff in Hqs.
    apply (join_name_found board_name), Hqs.
Qed.

(** ** Instances *)

Lemma contents_match_count_witness :
  length (Playlists.playlist_contents 1 Playlists.demo_playlists) =
    Z.to_nat (count_items 1 Playlists.demo_playlists) /\
  (contents_panel (Live Playlists.demo_playlists) 1 =
     [Markup (note_html (units "No questions in this playlist"))] <->
   Playlists.shown_count (Live Playlists.demo_playlists) 1 = 0%Z).
Proof. apply contents_match_count. apply wfb_sound. vm_compute. reflexivity. Defined.

Lemma question_rows_spec_witness :
  map r_id (question_rows (Some 1%Z) (Live Playlists.demo_playlists)) =
    rev (map q_id (List.filter (on_board (Some 1%Z)) (questions Playlists.demo_playlists))) /\
  Forall (fun r => exists q, In q (questions Playlists.demo_playlists) /\ q_id q = r_id r /\
            q_text q = r_text r /\
            (forall b, q_board q = Some b ->
               exists x, In x (boards Playlists.demo_playlists) /\ board_id x = b /\
                         r_board r = Some (board_name x)))
         (question_rows (Some 1%Z) (Live Playlists.demo_playlists)).
Proof. apply question_rows_spec. apply wfb_sound. vm_compute. reflexivity. Defined.

End Pages.
