(* ===== verification/App.v ===== *)
(** * The application: event handlers and their composition
    (src/app/index.js:47-51, 74-77, 128-129, 199, 213-241, 243-262,
    264-268, 315-321, 345, 396-405, 408-417)

    Every handler the page wires is a computation of [Exec app]: the
    statements it runs on the database ([on_db]), then
    [saveDBToLocalStorage], as the script runs them; an exception ends the
    handler and keeps what ran before it.  [handle] maps each user event
    to its handler; [enabled] says which events the page offers (a board
    button exists only for a listed board, a playlist button only for a
    listed playlist, an "Add to playlist" button only for a listed
    question); [reach] is the set of states a user reaches from a fresh
    browser through handlers that return.  [enabled] reads the store:
    after a handler that returned, the lists on the page are the ones the
    store gives ([Ui.screen_fresh]); a handler that throws skips its
    renders, and the page then offers buttons of the store before it
    ([Ui.import_error_stale_screen]), so runs with a throwing handler are
    not steps of [reach].  The renders themselves are in [Ui]. *)

From Stdlib Require Import String Ascii ZArith List Lia Bool.
From stdpp Require Import base list.
From S2P Require Import Prelude JsString Db Base64 Persist QuickAdd Sampler Playlists Pdf.

Local Open Scope exec_scope.

Module App.
Import Db Persist.

(** The events of the page that change state.  [Generate] and the
    renders only write the DOM; [exportDb] only offers a download. *)
Inductive event :=
| CreateBoardClick (input : string)        (** [#createBoard] (410) *)
| OpenBoard (id : Z)                       (** a board button or card (64, 93) *)
| AddQuickClick (text : string)            (** [#addQuick] (411) *)
| CreatePlaylistClick (input : string)     (** [#createPlaylist] (413) *)
| PickPlaylist (pid qid : Z)               (** a playlist of the picker (199) *)
| DeletePlaylistClick (confirmed : bool) (pid : Z)  (** "Delete" (315) *)
| RemoveClick (pid qid : Z)                (** "Remove" (345) *)
| ImportFile (u8 : list Byte.byte)         (** [#importDb] (416) *)
| PdfUpload (pages : list (list string))   (** [#pdfUpload] (412) *)
| PageLoad.                                (** [DOMContentLoaded] (408-409) *)

Section Handlers.
Context `{Serializer} `{Browser}.

(** [createBoard(name)] (47-51). *)
Definition createBoard (name : string) : Exec app unit :=
  on_db (insert_board name) ;;; saveDBToLocalStorage.

(** [createPlaylist(name)] (264-268). *)
Definition createPlaylist (name : string) : Exec app unit :=
  on_db (insert_playlist name) ;;; saveDBToLocalStorage.

(** [renderBoardPage(boardId)] (128-129): the board becomes the
    current one; [selectBoard] (74-77) does the same and is never called. *)
Definition renderBoardPage (id : Z) : Exec app unit := modify (set_board (Some id)).

(** [addQuickQuestions(text)] (213-241): the loop on the database with
    the [currentBoardId] of the moment, then the save. *)
Definition addQuickQuestions (text : string) : Exec app unit :=
  a <- get ;;
  on_db (QuickAdd.add_quick_questions (currentBoardId a) text) ;;;
  saveDBToLocalStorage.

(** [#createBoard.onclick] (410): the trimmed name, when non-empty. *)
Definition createBoard_click (input : string) : Exec app unit :=
  let v := Js.trim input in if Js.str_truthy v then createBoard v else ret tt.

(** [#createPlaylist.onclick] (413). *)
Definition createPlaylist_click (input : string) : Exec app unit :=
  let v := Js.trim input in if Js.str_truthy v then createPlaylist v else ret tt.

(** The picker's button (199). *)
Definition pick_click (pid qid : Z) : Exec app unit :=
  on_db (Playlists.add_to_playlist pid qid) ;;; saveDBToLocalStorage.

(** [delBtn.onclick] (315-321): nothing, no save, unless confirmed. *)
Definition delete_click (confirmed : bool) (pid : Z) : Exec app unit :=
  if confirmed then on_db (Playlists.delete_playlist true pid) ;;; saveDBToLocalStorage
  else ret tt.

(** [removeBtn.onclick] (345). *)
Definition remove_click (pid qid : Z) : Exec app unit :=
  on_db (Playlists.remove_from_playlist pid qid) ;;; saveDBToLocalStorage.

(** [handlePdfUpload(file)] (243-262): the blocks of the document
    inserted with the [currentBoardId] of the moment, then the save. *)
Definition handlePdfUpload (pages : list (list string)) : Exec app unit :=
  a <- get ;;
  on_db (Pdf.insert_blocks (currentBoardId a) (Pdf.pdf_blocks pages)) ;;;
  saveDBToLocalStorage.

(** A page load: the globals start again and [initDB] runs. *)
Definition page_load : Exec app unit := modify reload ;;; initDB.

Definition handle (e : event) : Exec app unit :=
  match e with
  | CreateBoardClick v => createBoard_click v
  | OpenBoard id => renderBoardPage id
  | AddQuickClick text => addQuickQuestions text
  | CreatePlaylistClick v => createPlaylist_click v
  | PickPlaylist pid qid => pick_click pid qid
  | DeletePlaylistClick c pid => delete_click c pid
  | RemoveClick pid qid => remove_click pid qid
  | ImportFile u8 => importDbFile u8
  | PdfUpload pages => handlePdfUpload pages
  | PageLoad => page_load
  end.

(** [#generate.onclick] (414): the count is [parseInt(...) || 10], the
    preferred marks the trimmed non-empty pieces of the field split on
    ','; the paper is what [generateMTP] renders ([None]: it returns
    before rendering).  It changes no state. *)
Definition generate_click (countStr marksStr : string) (draws : nat -> Z) (a : app)
    : option (list Sampler.pq) :=
  Sampler.generateMTP (db a) (currentBoardId a)
    (Js.num_or (Js.parseInt countStr) 10)
    (List.filter Js.str_truthy (map Js.trim (Js.split ","%char marksStr))) draws.

(** The ids [renderQuestions] lists (151-158): every question, or those
    of the board when [currentBoardId] is truthy; the "Add to playlist"
    buttons on the page when the last handler returned. *)
Definition shown_questions (a : app) : list Z :=
  runQuery (fun t => map q_id (List.filter (fun q =>
    match Js.num_or_null (currentBoardId a) with
    | Some b => bool_decide (q_board q = Some b)
    | None => true
    end) (questions t))) (db a).

(** The board buttons [renderBoards] draws (56-64), and the playlists
    the picker lists when it opens (192). *)
Definition listed_boards (a : app) : list Z := runQuery (fun t => map board_id (boards t)) (db a).
Definition listed_playlists (a : app) : list Z :=
  runQuery (fun t => map pl_id (playlists t)) (db a).

(** The events the page offers in a state.  "Remove" is allowed for any
    pair: a playlist's contents shown on the dashboard stay on screen
    after the playlist changes, and the DELETE is harmless anyway. *)
Definition enabled (a : app) (e : event) : bool :=
  match e with
  | OpenBoard id => existsb (Z.eqb id) (listed_boards a)
  | PickPlaylist pid qid =>
      existsb (Z.eqb pid) (listed_playlists a) && existsb (Z.eqb qid) (shown_questions a)
  | DeletePlaylistClick _ pid => existsb (Z.eqb pid) (listed_playlists a)
  | _ => true
  end.

(** ** The invariant *)

(** A live, well-formed store in which the selected board exists. *)
Definition db_ok (b : option Z) (st : store) : Prop :=
  exists t, st = Live t /\ wf t /\ QuickAdd.board_ok t b.

(** The database is consistent, and so is the store a reload would open. *)
Definition inv (a : app) : Prop :=
  db_ok (currentBoardId a) (db a) /\ exists t, load (slot a) = Some (Live t) /\ wf t.

(** An import keeps the invariant only when the file is a consistent
    database that holds the selected board: the handler does not reset
    [currentBoardId]. *)
Definition import_safe (a : app) (e : event) : Prop :=
  match e with
  | ImportFile u8 => db_ok (currentBoardId a) (db_open u8)
  | _ => True
  end.


End Handlers.

(** ** The statements keep the store consistent *)

Section Statements.

Lemma board_ok_num_or_null t b :
  QuickAdd.board_ok t b -> QuickAdd.board_ok t (Js.num_or_null b).
Proof. destruct b as [b|]; [|done]. simpl. by destruct (Z.eqb b 0). Qed.

(** An INSERT whose new row keeps the store well-formed and the boards
    it had keeps [db_ok]; when it throws the store is unchanged. *)
Lemma insert_into_ok {R} `{HasRowid R} get set (mk : Z -> R) b t st' r :
  wf t -> QuickAdd.board_ok t b ->
  (forall id, new_rowid (get t) = Some id ->
     wf (set (get t ++ [mk id]) t) /\ boards t `prefix_of` boards (set (get t ++ [mk id]) t)) ->
  insert_into get set mk (Live t) = (st', r) -> db_ok b st'.
Proof.
  intros Hwf Hb Hnew.
  destruct (insert_into_cases get set mk t) as [(id & Hid & ->)|[_ ->]]; intros [= <- _].
  - destruct (Hnew id Hid) as [Hwf' Hp]. eexists. split; [reflexivity|]. split; [done|].
    destruct b; simpl in *; [by eapply has_id_prefix|done].
  - by exists t.
Qed.

Ltac insert_ok_tac lem H :=
  unfold insert_board, insert_playlist, insert_item, insert_question in H;
  revert H; apply insert_into_ok; [assumption|assumption|];
  intros ? Hid; split;
  [ eapply lem; [eassumption..|];
    unfold insert_board, insert_playlist, insert_item, insert_question, insert_into;
    by rewrite Hid
  | cbn [boards set_boards set_playlists set_items set_questions];
    first [reflexivity | apply prefix_snoc] ].

Lemma insert_board_ok b name t st' r :
  wf t -> QuickAdd.board_ok t b -> insert_board name (Live t) = (st', r) -> db_ok b st'.
Proof. intros ? ? Hrun. insert_ok_tac wf_insert_board Hrun. Qed.

Lemma insert_playlist_ok b name t st' r :
  wf t -> QuickAdd.board_ok t b -> insert_playlist name (Live t) = (st', r) -> db_ok b st'.
Proof. intros ? ? Hrun. insert_ok_tac wf_insert_playlist Hrun. Qed.

Lemma insert_item_ok b pid qid t st' r :
  wf t -> QuickAdd.board_ok t b -> has_id (playlists t) pid = true ->
  has_id (questions t) qid = true -> insert_item pid qid (Live t) = (st', r) -> db_ok b st'.
Proof. intros ? ? ? ? Hrun. insert_ok_tac wf_insert_item Hrun. Qed.

Lemma insert_block_ok b text t st' r :
  wf t -> QuickAdd.board_ok t b -> insert_question b None None 3 None text (Live t) = (st', r) ->
  db_ok b st'.
Proof.
  intros ? Hb Hrun. assert (question_args_ok t b None None = true)
    by (unfold question_args_ok; destruct b; by rewrite ?Hb).
  insert_ok_tac wf_insert_question Hrun.
Qed.

Lemma insert_blocks_ok b bs t st' r :
  wf t -> QuickAdd.board_ok t b -> Pdf.insert_blocks b bs (Live t) = (st', r) -> db_ok b st'.
Proof.
  intros Hwf Hb. unfold Pdf.insert_blocks. apply forM_preserves; [|by exists t].
  intros x s s1 r1 (t1 & -> & Hwf1 & Hb1). cbv [bind ret].
  destruct (insert_question b None None 3 None x (Live t1)) as [s2 [id|e]] eqn:E;
    intros [= <- _]; by eapply insert_block_ok.
Qed.

Lemma add_quick_ok b text t st' r :
  wf t -> QuickAdd.board_ok t b ->
  QuickAdd.add_quick_questions b text (Live t) = (st', r) -> db_ok b st'.
Proof.
  intros Hwf Hb Hrun.
  destruct (QuickAdd.add_quick_questions_grows t b text st' r Hwf
              (board_ok_num_or_null t b Hb) Hrun) as (t' & -> & Hwf' & Hp).
  exists t'. split; [done|]. split; [done|]. by apply (QuickAdd.board_ok_mono t).
Qed.

Lemma delete_playlist_ok b pid t :
  wf t -> QuickAdd.board_ok t b -> db_ok b (fst (Playlists.delete_playlist true pid (Live t))).
Proof.
  intros Hwf Hb. eexists. split; [reflexivity|]. split; [|exact Hb].
  apply wf_delete_playlist; [by apply wf_delete_items|apply Playlists.count_items_deleted].
Qed.

Lemma remove_ok b pid qid t :
  wf t -> QuickAdd.board_ok t b -> db_ok b (fst (Playlists.remove_from_playlist pid qid (Live t))).
Proof.
  intros Hwf Hb. eexists. split; [reflexivity|]. split; [by apply wf_delete_items|exact Hb].
Qed.

End Statements.

(** ** Every handler keeps the invariant *)

Section Invariant.
Context `{Serializer} `{Browser}.

Lemma existsb_map_eqb {R} `{HasRowid R} (l : list R) id :
  existsb (Z.eqb id) (map row_id l) = has_id l id.
Proof.
  unfold has_id. induction l as [|x l IH]; [done|]. simpl. by rewrite IH, Z.eqb_sym.
Qed.

Lemma shown_questions_has_id a t qid :
  db a = Live t -> existsb (Z.eqb qid) (shown_questions a) = true -> has_id (questions t) qid = true.
Proof.
  intros Hdb. unfold shown_questions, runQuery, has_id. rewrite Hdb.
  rewrite !existsb_exists. intros (x & Hx & Hq). apply in_map_iff in Hx as (q & <- & Hq').
  apply filter_In in Hq' as [Hin _]. exists q. split; [done|]. by rewrite Z.eqb_sym.
Qed.



Lemma add_to_playlist_ok b pid qid t st' r :
  wf t -> QuickAdd.board_ok t b -> has_id (playlists t) pid = true ->
  has_id (questions t) qid = true -> Playlists.add_to_playlist pid qid (Live t) = (st', r) ->
  db_ok b st'.
Proof.
  intros Hwf Hb Hp Hq. unfold Playlists.add_to_playlist. cbv [bind ret].
  destruct (insert_item pid qid (Live t)) as [st1 [id|e]] eqn:E; intros [= <- _];
    eapply insert_item_ok; eauto.
Qed.



(** ** The slot after a handler *)

Lemma save_keeps a : db (fst (saveDBToLocalStorage a)) = db a /\
  currentBoardId (fst (saveDBToLocalStorage a)) = currentBoardId a.
Proof. by destruct (save_cases a) as [[e ->]| ->]. Qed.

(** A handler that throws leaves the slot as it was: the statement that
    threw ended it before the save, or the save threw. *)
Lemma handle_error_slot e a a' x :
  handle e a = (a', inr x) -> slot a' = slot a.
Proof.
  assert (Hsave : forall b y, saveDBToLocalStorage b = (a', inr y) -> slot a' = slot b).
  { intros b y. destruct (save_cases b) as [[z ->]| ->]; [by intros [= <-]|discriminate]. }
  assert (Hstmt : forall A (c : Exec store A),
    (on_db c ;;; saveDBToLocalStorage) a = (a', inr x) -> slot a' = slot a).
  { intros A c. cbv [bind on_db]. destruct (c (db a)) as [st [v|y]].
    - intros Hs. by apply Hsave in Hs.
    - by intros [= <- _]. }
  destruct e as [v|id|text|v|pid qid|[] pid|pid qid|u8|pages|]; cbn [handle].
  - unfold createBoard_click. destruct (Js.str_truthy _); [apply Hstmt|discriminate].
  - discriminate.
  - apply Hstmt.
  - unfold createPlaylist_click. destruct (Js.str_truthy _); [apply Hstmt|discriminate].
  - apply Hstmt.
  - apply Hstmt.
  - discriminate.
  - apply Hstmt.
  - unfold importDbFile. cbv [bind modify]. intros Hs. by apply Hsave in Hs.
  - apply Hstmt.
  - change (initDB (reload a) = (a', inr x) -> slot a' = slot a). unfold initDB.
    destruct (load _); [discriminate|by intros [= <- _]].
Qed.

(** C11: when a handler throws (SQLITE_FULL from an INSERT, or
    the save's RangeError or QuotaExceededError), the statements that ran
    before stay in the page's database, but the slot still holds the
    store before the handler: the next page load brings that store back,
    and the changes the user saw are lost. *)
Theorem handler_error_lost_on_reload e a a' x t :
  synced a -> db a = Live t -> handle e a = (a', inr x) ->
  initDB (reload a') = (mkApp (Live t) None (slot a'), inl tt).
Proof.
  intros Hsync Hdb Hh. unfold initDB, reload. cbn [slot].
  rewrite (handle_error_slot e a a' x Hh). unfold synced in Hsync. by rewrite Hsync, Hdb.
Qed.

Lemma stmt_save_synced {A} (c : Exec store A) a a' :
  (forall st' r, c (db a) = (st', r) -> exists t', st' = Live t') ->
  (on_db c ;;; saveDBToLocalStorage) a = (a', inl tt) -> synced a'.
Proof.
  intros Hc. cbv [bind on_db]. destruct (c (db a)) as [st' r] eqn:E.
  destruct (Hc st' r eq_refl) as [t' ->]. destruct r as [v|y]; [intros Hs|discriminate]. exact (proj1 (save_ok_synced (set_db (Live t') a) _ t' eq_refl Hs)).
Qed.

Lemma db_ok_live b st : db_ok b st -> exists t, st = Live t.
Proof. intros (t & -> & _). by exists t. Qed.

(** C7: a handler that returns normally leaves the slot in sync
    with the database: every handler that changes the database ends with
    a save that succeeded, and the others change neither. *)
Theorem handle_ok_synced e a a' :
  inv a -> enabled a e = true -> import_safe a e -> synced a ->
  handle e a = (a', inl tt) -> synced a'.
Proof.
  intros Hinv Hen Hsafe Hsync. pose proof Hinv as [(t & Hdb & Hwf & Hb) _].
  assert (Hst : forall A (c : Exec store A),
    (forall st' r, c (Live t) = (st', r) -> db_ok (currentBoardId a) st') ->
    (on_db c ;;; saveDBToLocalStorage) a = (a', inl tt) -> synced a').
  { intros A c Hc. apply stmt_save_synced. rewrite Hdb. intros st' r E.
    exact (db_ok_live _ _ (Hc st' r E)). }
  destruct e as [v|id|text|v|pid qid|[] pid|pid qid|u8|pages|]; cbn [handle enabled] in *.
  - unfold createBoard_click. destruct (Js.str_truthy _); [|by intros [= <-]].
    apply Hst.
    intros. by eapply insert_board_ok.
  - by intros [= <-].
  - change ((on_db (QuickAdd.add_quick_questions (currentBoardId a) text) ;;;
             saveDBToLocalStorage) a = (a', inl tt) -> synced a').
    apply Hst.
    intros. by eapply add_quick_ok.
  - unfold createPlaylist_click. destruct (Js.str_truthy _); [|by intros [= <-]].
    apply Hst.
    intros. by eapply insert_playlist_ok.
  - apply andb_true_iff in Hen as [Hp Hq].
    apply Hst.
    intros st' r E. unfold listed_playlists, runQuery in Hp. rewrite Hdb in Hp.
    eapply add_to_playlist_ok; eauto using shown_questions_has_id.
    rewrite <- existsb_map_eqb. exact Hp.
  - apply Hst.
    intros st' r E. pose proof (delete_playlist_ok _ pid t Hwf Hb) as Hok. by rewrite E in Hok.
  - by intros [= <-].
  - apply Hst.
    intros st' r E. pose proof (remove_ok _ pid qid t Hwf Hb) as Hok. by rewrite E in Hok.
  - destruct Hsafe as (t' & Hopen & _). unfold importDbFile. cbv [bind modify]. intros Hs.
    exact (proj1 (save_ok_synced (set_db (db_open u8) a) _ t' Hopen Hs)).
  - change ((on_db (Pdf.insert_blocks (currentBoardId a) (Pdf.pdf_blocks pages)) ;;;
             saveDBToLocalStorage) a = (a', inl tt) -> synced a').
    apply Hst. intros. by eapply insert_blocks_ok.
  - change (initDB (reload a) = (a', inl tt) -> synced a'). unfold initDB, synced.
    destruct (load (slot (reload a))) as [st|] eqn:E; [|discriminate]. by intros [= <-].
Qed.

(** ** Importing a file *)

Lemma stmt_save_keeps {A} (c : Exec store A) a :
  db (fst ((on_db c ;;; saveDBToLocalStorage) a)) = fst (c (db a)) /\
  currentBoardId (fst ((on_db c ;;; saveDBToLocalStorage) a)) = currentBoardId a.
Proof.
  cbv [bind on_db]. destruct (c (db a)) as [st' [v|y]]; [|done].
  by destruct (save_keeps (set_db st' a)) as [-> ->].
Qed.

Lemma import_keeps_board u8 a :
  db (fst (handle (ImportFile u8) a)) = db_open u8 /\
  currentBoardId (fst (handle (ImportFile u8) a)) = currentBoardId a.
Proof.
  cbn [handle]. unfold importDbFile. cbv [bind modify].
  by destruct (save_keeps (set_db (db_open u8) a)) as [-> ->].
Qed.

Lemma add_quick_keeps text a :
  db (fst (handle (AddQuickClick text) a)) =
    fst (QuickAdd.add_quick_questions (currentBoardId a) text (db a)) /\
  currentBoardId (fst (handle (AddQuickClick text) a)) = currentBoardId a.
Proof. exact (stmt_save_keeps (QuickAdd.add_quick_questions (currentBoardId a) text) a). Qed.

(** C9: importing a file does not reset [currentBoardId] (lines
    398-403): after importing a consistent database that lacks the selected
    board [b] (here the export of an empty one), a quick-add line with a
    subject files that subject under the missing board; the store is no
    longer consistent, whether or not the saves succeed. *)
Theorem import_stale_board a b :
  currentBoardId a = Some b -> b <> 0%Z ->
  let a1 := fst (handle (ImportFile (db_export (Live empty_tables))) a) in
  let a2 := fst (handle (AddQuickClick "5|Physics|Kinematics|2020|Define velocity.") a1) in
  currentBoardId a2 = Some b /\
  exists t, db a2 = Live t /\ boards t = [] /\ In (mkSubject 1 b "Physics") (subjects t) /\ ~ wf t.
Proof.
  intros Hcur Hb a1 a2.
  destruct (import_keeps_board (db_export (Live empty_tables)) a) as [Hdb1 Hcur1].
  rewrite db_open_export in Hdb1. fold a1 in Hdb1, Hcur1.
  destruct (add_quick_keeps "5|Physics|Kinematics|2020|Define velocity." a1) as [Hdb2 Hcur2].
  fold a2 in Hdb2, Hcur2.
  split; [congruence|]. rewrite Hdb2, Hdb1, Hcur1, Hcur. unfold QuickAdd.add_quick_questions.
  replace (Js.num_or_null (Some b)) with (Some b)
    by (simpl; by rewrite (proj2 (Z.eqb_neq b 0) Hb)).
  exists (mkTables [] [mkSubject 1 b "Physics"] [mkChapter 1 1 "Kinematics"]
            [mkQuestion 1 (Some b) (Some 1%Z) (Some 1%Z) 5 (Some 2020%Z) "Define velocity." None]
            [] []).
  split; [vm_compute; reflexivity|]. split; [reflexivity|]. split; [by left|].
  intros [_ Hr]. vm_compute in Hr. discriminate.
Qed.

End Invariant.

(** ** Witnesses

    The model serializer and the small browser of [Persist]: the store
    with one board exports to 1153 bytes, one more board to 2305, beyond
    the browser's 2048 arguments. *)

#[local] Existing Instance demo_browser.




Lemma demo_saved_inv : inv demo_saved.
Proof.
  split.
  - exists demo_tables. split; [reflexivity|]. split; [apply wfb_sound; vm_compute|]; reflexivity.
  - exists demo_tables. split; [vm_compute; reflexivity|apply wfb_sound; vm_compute; reflexivity].
Qed.

Definition playlist_added : app :=
  Eval vm_compute in fst (handle (CreatePlaylistClick "R") demo_saved).

Lemma handle_ok_synced_witness : synced playlist_added.
Proof.
  apply (handle_ok_synced (CreatePlaylistClick "R") demo_saved playlist_added);
    [exact demo_saved_inv|reflexivity|exact I|vm_compute; reflexivity|vm_compute; reflexivity].
Defined.

Definition board_unsaved : app :=
  Eval vm_compute in fst (handle (CreateBoardClick "Q") demo_saved).

Lemma handler_error_lost_on_reload_witness :
  initDB (reload board_unsaved) = (mkApp (Live demo_tables) None (slot board_unsaved), inl tt).
Proof.
  apply (handler_error_lost_on_reload (CreateBoardClick "Q") demo_saved board_unsaved
           ArgRangeError demo_tables); [vm_compute|reflexivity|vm_compute]; reflexivity.
Defined.

Lemma import_stale_board_witness :
  let a1 := fst (handle (ImportFile (db_export (Live empty_tables))) demo_saved) in
  let a2 := fst (handle (AddQuickClick "5|Physics|Kinematics|2020|Define velocity.") a1) in
  currentBoardId a2 = Some 1%Z /\
  exists t, db a2 = Live t /\ boards t = [] /\ In (mkSubject 1 1 "Physics") (subjects t) /\ ~ wf t.
Proof. apply (import_stale_board demo_saved 1); [reflexivity|lia]. Defined.

End App.
