(* ===== verification/Sim.v ===== *)
(** * The handlers simulate the abstract store

    Every handler of [App] other than an import and a page load changes
    the database only by statements of the contract of [DbSpec]: from a
    store whose tables have sorted in-range rowids, the handler's run
    (whether it completes or throws half-way) ends in such a store, and
    the abstract tables of the two are related by [DbSpec.asteps], any
    number of [astep]s.  The import replaces the database with whatever
    the file holds, and a page load reopens the slot; neither is a step
    of the contract.  The relation is coarse: [asteps] accepts any
    sequence of contract steps, so the lemmas say that a handler only
    inserts rows at fresh rowids in range and deletes rows, not which
    rows; the functional theorems of each component say which.

    [by_steps] and [app_by_steps] state the property of a computation on
    the store and of a handler; the lemmas below close them under the
    monad's [ret], [get], [bind] and [forM_], under [on_db] and the save,
    and prove them of every statement of [Db], so that each handler is
    checked by unfolding it ([by_steps_tac]). *)

From Stdlib Require Import String ZArith List Lia.
From stdpp Require Import base list relations.
From S2P Require Import Prelude Db DbSpec Persist QuickAdd Playlists Pdf App.

Module Sim.
Import Db DbSpec Persist App.
Local Open Scope exec_scope.

(** A computation on the store that changes it only by steps of the
    contract, and keeps rowids sorted and in range. *)
Definition by_steps {A} (c : Exec store A) : Prop :=
  forall t, all_ids_ok t ->
  exists t', fst (c (Live t)) = Live t' /\ all_ids_ok t' /\ asteps (abs t) (abs t').

(** The same of a handler, on the database of the application state. *)
Definition app_by_steps {A} (h : Exec app A) : Prop :=
  forall a t, db a = Live t -> all_ids_ok t ->
  exists t', db (fst (h a)) = Live t' /\ all_ids_ok t' /\ asteps (abs t) (abs t').

(** ** Computations on the store *)

Lemma by_steps_ret {A} (x : A) : by_steps (ret x).
Proof. intros t Hok. exists t. split_and!; [done|done|apply rtc_refl]. Qed.

Lemma by_steps_get : by_steps get.
Proof. intros t Hok. exists t. split_and!; [done|done|apply rtc_refl]. Qed.

Lemma by_steps_bind {A B} (c : Exec store A) (k : A -> Exec store B) :
  by_steps c -> (forall x, by_steps (k x)) -> by_steps (bind c k).
Proof.
  intros Hc Hk t Hok. destruct (Hc t Hok) as (t1 & E1 & Hok1 & S1). unfold bind.
  destruct (c (Live t)) as [st1 [x|e]]; simpl in E1; subst st1.
  - destruct (Hk x t1 Hok1) as (t2 & E2 & Hok2 & S2). exists t2. split_and!; [done|done|by etrans].
  - by exists t1.
Qed.

Lemma by_steps_forM {A} (xs : list A) (body : A -> Exec store unit) :
  (forall x, by_steps (body x)) -> by_steps (forM_ xs body).
Proof.
  intros Hb. induction xs as [|x xs IH]; [apply by_steps_ret|]. by apply by_steps_bind.
Qed.

Lemma fst_bind_ret {S A B} (c : Exec S A) (f : A -> B) st :
  fst ((x <- c ;; ret (f x)) st) = fst (c st).
Proof. unfold bind, ret. by destruct (c st) as [? []]. Qed.

(** A computation with the effect of a statement. *)
Lemma by_steps_run {A} s (c : Exec store A) :
  (forall st, fst (run_stmt s st) = fst (c st)) -> by_steps c.
Proof.
  intros Hc t Hok. rewrite <- Hc. destruct (run_stmt s (Live t)) as [st' r] eqn:E.
  apply (run_stmt_steps _ _ _ _ Hok E).
Qed.

Ltac by_stmt s := apply (by_steps_run s); intros ?; apply fst_bind_ret.

Ltac by_steps_tac :=
  repeat match goal with
  | |- by_steps (bind _ _) => apply by_steps_bind; [|intros ?]
  | |- by_steps (ret _) => apply by_steps_ret
  | |- by_steps get => apply by_steps_get
  | |- by_steps (forM_ _ _) => apply by_steps_forM; intros ?
  | |- by_steps (match ?x with _ => _ end) => destruct x
  | |- by_steps (insert_board ?n) => by_stmt (InsBoard n)
  | |- by_steps (insert_subject ?b ?n) => by_stmt (InsSubject b n)
  | |- by_steps (insert_chapter ?s ?n) => by_stmt (InsChapter s n)
  | |- by_steps (insert_question ?b ?s ?c ?m ?y ?x) => by_stmt (InsQuestion b s c m y x)
  | |- by_steps (insert_playlist ?n) => by_stmt (InsPlaylist n)
  | |- by_steps (insert_item ?p ?q) => by_stmt (InsItem p q)
  | |- by_steps (delete_items_of ?p) => by_stmt (DelItemsOf p)
  | |- by_steps (delete_playlist_row ?p) => by_stmt (DelPlaylistRow p)
  | |- by_steps (delete_item_pair ?p ?q) => by_stmt (DelItemPair p q)
  end.

(** The database work of the handlers. *)
Lemma by_steps_add_quick_questions b text : by_steps (QuickAdd.add_quick_questions b text).
Proof.
  unfold QuickAdd.add_quick_questions, QuickAdd.add_line, QuickAdd.resolve_subject,
    QuickAdd.resolve_chapter.
  by_steps_tac.
Qed.

Lemma by_steps_insert_blocks b blocks : by_steps (Pdf.insert_blocks b blocks).
Proof. unfold Pdf.insert_blocks. by_steps_tac. Qed.

Lemma by_steps_add_to_playlist pid qid : by_steps (Playlists.add_to_playlist pid qid).
Proof. unfold Playlists.add_to_playlist. by_steps_tac. Qed.

Lemma by_steps_delete_playlist c pid : by_steps (Playlists.delete_playlist c pid).
Proof. unfold Playlists.delete_playlist. by_steps_tac. Qed.

Lemma by_steps_remove_from_playlist pid qid : by_steps (Playlists.remove_from_playlist pid qid).
Proof. unfold Playlists.remove_from_playlist. by_steps_tac. Qed.

(** ** Handlers *)

Section Handlers.
Context `{Serializer} `{Browser}.

Lemma app_by_steps_ret {A} (x : A) : app_by_steps (ret x).
Proof. intros a t Ha Hok. exists t. split_and!; [exact Ha|done|apply rtc_refl]. Qed.

Lemma app_by_steps_get : app_by_steps get.
Proof. intros a t Ha Hok. exists t. split_and!; [exact Ha|done|apply rtc_refl]. Qed.

Lemma app_by_steps_board b : app_by_steps (modify (set_board b)).
Proof. intros a t Ha Hok. exists t. split_and!; [exact Ha|done|apply rtc_refl]. Qed.

Lemma app_by_steps_save : app_by_steps saveDBToLocalStorage.
Proof.
  intros a t Ha Hok. exists t. split_and!; [|done|apply rtc_refl].
  unfold saveDBToLocalStorage. by repeat case_match.
Qed.

Lemma app_by_steps_on_db {A} (c : Exec store A) : by_steps c -> app_by_steps (on_db c).
Proof.
  intros Hc a t Ha Hok. destruct (Hc t Hok) as (t' & E & Hok' & S). exists t'. split_and!; [|done|done].
  unfold on_db. rewrite Ha. destruct (c (Live t)) as [st' r]. by simpl in *.
Qed.

Lemma app_by_steps_bind {A B} (h : Exec app A) (k : A -> Exec app B) :
  app_by_steps h -> (forall x, app_by_steps (k x)) -> app_by_steps (bind h k).
Proof.
  intros Hh Hk a t Ha Hok. destruct (Hh a t Ha Hok) as (t1 & E1 & Hok1 & S1). unfold bind.
  destruct (h a) as [a1 [x|e]]; simpl in E1.
  - destruct (Hk x a1 t1 E1 Hok1) as (t2 & E2 & Hok2 & S2). exists t2. split_and!; [done|done|by etrans].
  - by exists t1.
Qed.

Ltac app_by_steps_tac :=
  repeat match goal with
  | |- app_by_steps (bind _ _) => apply app_by_steps_bind; [|intros ?]
  | |- app_by_steps (ret _) => apply app_by_steps_ret
  | |- app_by_steps get => apply app_by_steps_get
  | |- app_by_steps (modify (set_board _)) => apply app_by_steps_board
  | |- app_by_steps saveDBToLocalStorage => apply app_by_steps_save
  | |- app_by_steps (if ?x then _ else _) => destruct x
  | |- app_by_steps (on_db _) =>
      apply app_by_steps_on_db;
      first [apply by_steps_add_quick_questions | apply by_steps_insert_blocks
            | apply by_steps_add_to_playlist | apply by_steps_delete_playlist
            | apply by_steps_remove_from_playlist | by_steps_tac]
  end.

(** Every handler other than an import and a page load
    simulates the abstract store: from a database with sorted in-range
    rowids, whether the handler completes or throws part-way, the
    database it leaves has them too and its abstract tables are reached
    from the old ones by steps of the contract [DbSpec.astep]. *)
Theorem handle_simulates e :
  match e with ImportFile _ | PageLoad => False | _ => True end -> app_by_steps (handle e).
Proof.
  intros He. destruct e; try done; cbn [handle];
    unfold createBoard_click, createBoard, renderBoardPage, addQuickQuestions, createPlaylist_click,
      createPlaylist, pick_click, delete_click, remove_click, handlePdfUpload;
    app_by_steps_tac.
Qed.

End Handlers.

(** ** Instances *)

Lemma handle_simulates_witness :
  app_by_steps (@handle bytes_serializer demo_browser
                  (AddQuickClick "5|Physics|Motion|2021|What is velocity?")).
Proof. apply (@handle_simulates bytes_serializer demo_browser). exact I. Defined.

End Sim.
