(* ===== verification/Ui.v ===== *)
(** * The screen: the containers the renders fill, and what each event does to them

    The page keeps its state in two places: the database and globals of
    [App], and the DOM.  [screen] is the DOM part the script writes: the
    children of [#boards], [#questionList], [#playlists] (one [card] per
    playlist, with the open/closed state of its items and the items shown
    in it), [#generated], the [#boardHeader] of [#contentArea], the
    dashboard's two containers, the [hidden] class of the two roots, and
    the values of the text fields the buttons read ([form]).

    Each render function of src/app/index.js is a function on screens
    ([render_boards], [render_questions], [render_playlists],
    [render_dashboard], [render_board_page], [show_contents]), and the
    click handlers that only touch the DOM are too ([view_click] for
    "View"/"Hide", [featured_click], [show_paper]).  [ui_handle] runs an
    event: the handler of [App] on the application state, then, when it
    returned normally, the renders it calls ([renders]) and the fields
    it empties ([clears]); a handler that threw does neither.  [Pressed]
    is a button that reads its field, [Typed] the user editing one.  A page load rebuilds the page from index.html,
    which is not under src/: [html_screen] stands for it.

    The theorems: every completed event but the picker's keeps the three
    lists in step with the store ([screen_fresh]); the picker's button
    adds the item and renders nothing, so the playlist's card keeps the
    old count and the screen no longer shows the store
    ([pick_leaves_screen]); "Remove" inside an open card writes
    the new contents into that card and then rebuilds every card closed
    ([remove_collapses_cards]); "Add" leaves the quick-add text in its
    field when the save throws, although the questions are in the
    database ([add_quick_press]); an import whose save throws keeps the
    old screen while the database is the imported one, so the board
    buttons can name boards it lacks ([import_error_stale_screen]).
    [selectBoard], which nothing calls, is
    the click of a board's button ([selectBoard_open]). *)

From Stdlib Require Import String ZArith List Lia Bool Sorting.Sorted.
From stdpp Require Import base list.
From S2P Require Import Prelude JsString Db Persist QuickAdd Sampler Playlists Pdf Render Views Pages App.

Module Ui.
Import Db Persist App Views Pages.
Local Open Scope exec_scope.

(** ** Screens *)

(** A card of [#playlists] (281-307): the card, whether its items are
    shown (no [hidden] class on [itemsWrap]) and the items in it. *)
Record card := mkCard { card_id : Z; card_node : node; card_open : bool; card_items : list node }.

(** The text fields the buttons read (410-414): [#newBoardName],
    [#quickQuestions], [#playlistName], [#genCount], [#genMarks]. *)
Record form := mkForm {
  newBoardName : string; quickQuestions : string; playlistName : string;
  genCount : string; genMarks : string }.

Inductive field := NewBoardName | QuickQuestions | PlaylistName | GenCount | GenMarks.

Record screen := mkScreen {
  boards_list : list node;       (** [#boards] *)
  question_list : list node;     (** [#questionList] *)
  playlist_cards : list card;    (** [#playlists] *)
  generated_area : list node;    (** [#generated] *)
  board_hdr : option node;       (** [#boardHeader] *)
  dash_boards : list node;       (** [#dashboardBoards] *)
  dash_playlists : list node;    (** [#dashboardPlaylists] *)
  dash_hidden : bool;            (** [#dashboardRoot] has [hidden] *)
  questions_hidden : bool;      (** [#questionsRoot] has [hidden] *)
  inputs : form }.               (** the values of the text fields *)

Definition set_cards (cs : list card) (s : screen) : screen :=
  mkScreen (boards_list s) (question_list s) cs (generated_area s) (board_hdr s)
           (dash_boards s) (dash_playlists s) (dash_hidden s) (questions_hidden s) (inputs s).

Definition set_generated (g : list node) (s : screen) : screen :=
  mkScreen (boards_list s) (question_list s) (playlist_cards s) g (board_hdr s)
           (dash_boards s) (dash_playlists s) (dash_hidden s) (questions_hidden s) (inputs s).

(** [dashboardRoot.classList.add/remove('hidden')] and the same for
    [questionsRoot]. *)
Definition set_roots (dash_h questions_h : bool) (s : screen) : screen :=
  mkScreen (boards_list s) (question_list s) (playlist_cards s) (generated_area s) (board_hdr s)
           (dash_boards s) (dash_playlists s) dash_h questions_h (inputs s).

(** The fields' values changed: typing, or [.value = ''] (410, 239, 413). *)
Definition set_inputs (f : form) (s : screen) : screen :=
  mkScreen (boards_list s) (question_list s) (playlist_cards s) (generated_area s) (board_hdr s)
           (dash_boards s) (dash_playlists s) (dash_hidden s) (questions_hidden s) f.

Definition set_field (fl : field) (v : string) (f : form) : form :=
  match fl with
  | NewBoardName => mkForm v (quickQuestions f) (playlistName f) (genCount f) (genMarks f)
  | QuickQuestions => mkForm (newBoardName f) v (playlistName f) (genCount f) (genMarks f)
  | PlaylistName => mkForm (newBoardName f) (quickQuestions f) v (genCount f) (genMarks f)
  | GenCount => mkForm (newBoardName f) (quickQuestions f) (playlistName f) v (genMarks f)
  | GenMarks => mkForm (newBoardName f) (quickQuestions f) (playlistName f) (genCount f) v
  end.

(** ** Renders *)

(** [renderBoards] (53-70): [el.innerHTML = ''], then the buttons. *)
Definition render_boards (st : store) (s : screen) : screen :=
  mkScreen (boards_panel st) (question_list s) (playlist_cards s) (generated_area s) (board_hdr s)
           (dash_boards s) (dash_playlists s) (dash_hidden s) (questions_hidden s) (inputs s).

(** [renderQuestions] (148-184) with the [currentBoardId] of the moment. *)
Definition render_questions (currentBoardId : option Z) (st : store) (s : screen) : screen :=
  mkScreen (boards_list s) (questions_panel currentBoardId st) (playlist_cards s) (generated_area s)
           (board_hdr s) (dash_boards s) (dash_playlists s) (dash_hidden s) (questions_hidden s) (inputs s).

(** A card as [renderPlaylists] builds it: items hidden and empty. *)
Definition fresh_card (st : store) (row : Z * string) : card :=
  mkCard (fst row) (playlist_card st (fst row) (snd row)) false [].

(** [renderPlaylists] (270-325): [el.innerHTML = ''], then a new card per
    playlist; the cards shown before, open or not, are gone. *)
Definition render_playlists (st : store) (s : screen) : screen :=
  set_cards (map (fresh_card st) (playlist_rows st)) s.

(** [renderDashboard] (79-126). *)
Definition render_dashboard (st : store) (s : screen) : screen :=
  mkScreen (boards_list s) (question_list s) (playlist_cards s) (generated_area s) (board_hdr s)
           (dashboard_boards st) (dashboard_playlists st) false true (inputs s).

(** [renderBoardPage] (128-144): the roots switched, the old header
    removed and the new one prepended, then [renderQuestions] with the
    board just selected. *)
Definition render_board_page (st : store) (boardId : Z) (s : screen) : screen :=
  render_questions (Some boardId) st
    (mkScreen (boards_list s) (question_list s) (playlist_cards s) (generated_area s)
              (Some (board_header st boardId)) (dash_boards s) (dash_playlists s) true false
              (inputs s)).

(** The cards with id [id] changed by [f]. *)
Definition update_card (id : Z) (f : card -> card) (cs : list card) : list card :=
  map (fun c => if Z.eqb (card_id c) id then f c else c) cs.

(** The container [showPlaylistContents] writes into. *)
Inductive target :=
| InCard (id : Z)     (** the [itemsWrap] of a card of [#playlists] (312) *)
| InGenerated.        (** [#generated] (119) *)

(** [showPlaylistContents(pid, container)] (327-351). *)
Definition show_contents (st : store) (pid : Z) (tg : target) (s : screen) : screen :=
  match tg with
  | InGenerated => set_generated (contents_panel st pid) s
  | InCard id =>
      set_cards (update_card id (fun c => mkCard (card_id c) (card_node c) (card_open c)
                                                 (contents_panel st pid)) (playlist_cards s)) s
  end.

(** [viewBtn.onclick] (309-313): an open card is hidden (its items stay in
    it); a closed one is shown with its contents read again. *)
Definition view_click (st : store) (id : Z) (s : screen) : screen :=
  set_cards (update_card id (fun c =>
    if card_open c then mkCard (card_id c) (card_node c) false (card_items c)
    else mkCard (card_id c) (card_node c) true (contents_panel st id)) (playlist_cards s)) s.

(** The text of the card's View button: "Hide" while open (311-312). *)
Definition view_label (c : card) : string := if card_open c then "Hide" else "View".

(** [selectBoard] (74-77): [currentBoardId = id], then [renderBoardPage],
    which sets it again.  Nothing in the script calls it. *)
Definition selectBoard (id : Z) (a : app) (s : screen) : app * screen :=
  let a' := fst (renderBoardPage id (set_board (Some id) a)) in (a', render_board_page (db a') id s).

(** [wrap.onclick] of a featured playlist (119). *)
Definition featured_click (st : store) (pid : Z) (s : screen) : screen :=
  show_contents st pid InGenerated (set_roots true false s).

(** The rendering of [generateMTP] (377-384); nothing when it returns
    early (358). *)
Definition show_paper (p : option (list Sampler.pq)) (s : screen) : screen :=
  match p with Some picked => set_generated (paper_view picked) s | None => s end.

(** ** Events on the screen *)

(** The buttons that read the text fields (410-414); Generate with the
    [Math.random] draws of its run. *)
Inductive button := CreateBoardBtn | AddQuickBtn | CreatePlaylistBtn | GenerateBtn (draws : nat -> Z).

(** The handler event a button raises with the fields' values. *)
Definition read_button (b : button) (f : form) : option event :=
  match b with
  | CreateBoardBtn => Some (CreateBoardClick (newBoardName f))
  | AddQuickBtn => Some (AddQuickClick (quickQuestions f))
  | CreatePlaylistBtn => Some (CreatePlaylistClick (playlistName f))
  | GenerateBtn _ => None
  end.

(** The fields a handler clears once it has returned (410, 239, 413):
    #newBoardName always, #quickQuestions after the save, #playlistName
    only for a non-blank name. *)
Definition clears (e : event) (s : screen) : screen :=
  let f := inputs s in
  match e with
  | CreateBoardClick _ => set_inputs (set_field NewBoardName EmptyString f) s
  | AddQuickClick _ => set_inputs (set_field QuickQuestions EmptyString f) s
  | CreatePlaylistClick v =>
      if Js.str_truthy (Js.trim v) then set_inputs (set_field PlaylistName EmptyString f) s else s
  | _ => s
  end.

Inductive ui_event :=
| AppEv (e : event)                        (** a handler of [App] *)
| RemoveIn (tg : target) (pid qid : Z)     (** "Remove" in a container (345) *)
| ViewClick (id : Z)                       (** "View"/"Hide" of a card (309) *)
| FeaturedClick (pid : Z)                  (** a featured playlist (119) *)
| GenerateClick (countStr marksStr : string) (draws : nat -> Z)  (** [generateMTP] (414) *)
| Typed (fl : field) (v : string)          (** the user edits a text field *)
| Pressed (b : button).                    (** a button that reads the fields *)

Section Screen.
Context `{Serializer} `{Browser}.

(** The page as index.html declares it, before any render. *)
Variable html_screen : screen.

(** The renders a handler calls after its save (50, 240, 261, 267, 320,
    345, 402, 14-16); [OpenBoard] is [renderBoardPage] itself; the
    picker's button calls none (199). *)
Definition renders (e : event) (a' : app) (s : screen) : screen :=
  let st := db a' in
  match e with
  | CreateBoardClick v => if Js.str_truthy (Js.trim v) then render_boards st s else s
  | OpenBoard id => render_board_page st id s
  | AddQuickClick _ | PdfUpload _ => render_questions (currentBoardId a') st s
  | CreatePlaylistClick v => if Js.str_truthy (Js.trim v) then render_playlists st s else s
  | PickPlaylist _ _ => s
  | DeletePlaylistClick c _ => if c then render_playlists st s else s
  | RemoveClick _ _ => render_playlists st s
  | ImportFile _ => render_playlists st (render_questions (currentBoardId a') st (render_boards st s))
  | PageLoad =>
      render_questions (currentBoardId a') st (render_playlists st (render_boards st html_screen))
  end.

(** A handler of [App], then its renders and the fields it clears when
    it returned; when it threw, nothing more runs. *)
Definition app_event (e : event) (a : app) (s : screen) : app * screen * (unit + exn) :=
  let '(a', r) := handle e a in
  (a', match r with
       | inl _ => clears e (renders e a' s)
       | inr _ => match e with PageLoad => html_screen | _ => s end
       end, r).

(** An event: the new application state, the new screen, and the
    handler's outcome. *)
Definition ui_handle (ev : ui_event) (a : app) (s : screen) : app * screen * (unit + exn) :=
  match ev with
  | AppEv e => app_event e a s
  | RemoveIn tg pid qid =>
      let '(a', r) := handle (RemoveClick pid qid) a in
      (a', match r with
           | inl _ => renders (RemoveClick pid qid) a' (show_contents (db a') pid tg s)
           | inr _ => s
           end, r)
  | ViewClick id => (a, view_click (db a) id s, inl tt)
  | FeaturedClick pid => (a, featured_click (db a) pid s, inl tt)
  | GenerateClick c m d => (a, show_paper (generate_click c m d a) s, inl tt)
  | Typed fl v => (a, set_inputs (set_field fl v (inputs s)) s, inl tt)
  | Pressed b =>
      match read_button b (inputs s) with
      | Some e => app_event e a s
      | None =>
          match b with
          | GenerateBtn d =>
              (a, show_paper (generate_click (genCount (inputs s)) (genMarks (inputs s)) d a) s, inl tt)
          | _ => (a, s, inl tt)
          end
      end
  end.

(** The three lists show the store and the selected board. *)
Definition fresh (a : app) (s : screen) : Prop :=
  boards_list s = boards_panel (db a) /\
  question_list s = questions_panel (currentBoardId a) (db a) /\
  map card_node (playlist_cards s) = playlists_panel (db a).

End Screen.

(** ** What the statements of a handler leave alone *)

(** [c] changes neither the boards, the playlists nor the items. *)
Definition keeps_lists {A} (c : Exec store A) : Prop :=
  forall t, exists t', fst (c (Live t)) = Live t' /\
    boards t' = boards t /\ playlists t' = playlists t /\ items t' = items t.

Lemma keeps_ret {A} (x : A) : keeps_lists (ret x).
Proof. intros t. by exists t. Qed.

Lemma keeps_get : keeps_lists get.
Proof. intros t. by exists t. Qed.

Lemma keeps_bind {A B} (c : Exec store A) (k : A -> Exec store B) :
  keeps_lists c -> (forall x, keeps_lists (k x)) -> keeps_lists (bind c k).
Proof.
  intros Hc Hk t. destruct (Hc t) as (t1 & E1 & H1). unfold bind.
  destruct (c (Live t)) as [st1 [x|e]]; simpl in E1; subst st1; [|by exists t1].
  destruct (Hk x t1) as (t2 & E2 & H2). exists t2. split; [done|].
  destruct H1 as (? & ? & ?), H2 as (? & ? & ?). split_and!; congruence.
Qed.

Lemma keeps_forM {A} (xs : list A) (body : A -> Exec store unit) :
  (forall x, keeps_lists (body x)) -> keeps_lists (forM_ xs body).
Proof. intros Hb. induction xs as [|x xs IH]; [apply keeps_ret|]. by apply keeps_bind. Qed.

Ltac keeps_insert :=
  let t0 := fresh "t" in
  intros t0; unfold insert_subject, insert_chapter, insert_question, insert_into;
  destruct (new_rowid _); [eexists; split; [reflexivity|done]|by exists t0].

Ltac keeps_tac :=
  repeat match goal with
  | |- keeps_lists (bind _ _) => apply keeps_bind; [|intros ?]
  | |- keeps_lists (ret _) => apply keeps_ret
  | |- keeps_lists get => apply keeps_get
  | |- keeps_lists (forM_ _ _) => apply keeps_forM; intros ?
  | |- keeps_lists (match ?x with _ => _ end) => destruct x
  | |- keeps_lists (insert_subject _ _) => keeps_insert
  | |- keeps_lists (insert_chapter _ _) => keeps_insert
  | |- keeps_lists (insert_question _ _ _ _ _ _) => keeps_insert
  end.

Lemma keeps_add_quick b text : keeps_lists (QuickAdd.add_quick_questions b text).
Proof.
  unfold QuickAdd.add_quick_questions, QuickAdd.add_line, QuickAdd.resolve_subject,
    QuickAdd.resolve_chapter.
  keeps_tac.
Qed.

Lemma keeps_insert_blocks b blocks : keeps_lists (Pdf.insert_blocks b blocks).
Proof. unfold Pdf.insert_blocks. keeps_tac. Qed.

(** ** What the panels read *)

Lemma boards_panel_eq t t' : boards t' = boards t -> boards_panel (Live t') = boards_panel (Live t).
Proof. intros Hb. unfold boards_panel, board_rows, runQuery. by rewrite Hb. Qed.

Lemma playlists_panel_eq t t' :
  playlists t' = playlists t -> items t' = items t -> playlists_panel (Live t') = playlists_panel (Live t).
Proof.
  intros Hp Hi. unfold playlists_panel, playlist_card, Playlists.shown_count, playlist_rows,
    count_items, runQuery.
  by rewrite Hp, Hi.
Qed.

Lemma questions_panel_eq cb t t' :
  questions t' = questions t -> boards t' = boards t -> subjects t' = subjects t ->
  chapters t' = chapters t -> questions_panel cb (Live t') = questions_panel cb (Live t).
Proof.
  intros Hq Hb Hs Hc. unfold questions_panel, question_card, question_rows, Render.occurrences,
    count_text, runQuery.
  by rewrite Hq, Hb, Hs, Hc.
Qed.

(** A new board does not change the [LEFT JOIN] of a question whose
    board exists. *)
Lemma join_name_app {R} `{HasRowid R} (name : R -> string) (rows more : list R) ref :
  (forall i, ref = Some i -> has_id rows i = true) ->
  join_name name (rows ++ more) ref = join_name name rows ref.
Proof.
  intros Hr. destruct ref as [i|]; [|done]. unfold join_name.
  destruct (List.find _ rows) eqn:F; [by erewrite find_app_l|].
  specialize (Hr i eq_refl). unfold has_id in Hr. apply existsb_exists in Hr as (x & Hin & Hx).
  by rewrite (find_none _ _ F x Hin) in Hx.
Qed.

Lemma questions_panel_new_board cb t x :
  wf t -> questions_panel cb (Live (set_boards (boards t ++ [x]) t)) = questions_panel cb (Live t).
Proof.
  intros [(_ & _ & _ & [Hs _] & _ & _) Hr].
  unfold questions_panel, question_rows, runQuery. cbn [boards subjects chapters questions set_boards].
  rewrite !order_by_id_desc_rev by (by apply StronglySorted_map_filter).
  rewrite !map_map. apply map_ext_in. intros q Hq%in_rev. apply filter_In in Hq as [Hq _].
  rewrite join_name_app; [reflexivity|]. intros b Hb.
  unfold refs_ok in Hr. rewrite !andb_true_iff in Hr. destruct Hr as [[[_ _] Hqs] _].
  rewrite forallb_forall in Hqs. specialize (Hqs q Hq).
  unfold question_refs_ok, question_args_ok in Hqs. rewrite Hb, !andb_true_iff in Hqs. tauto.
Qed.

(** Two stores with the same playlists show the same cards only if
    every listed playlist has the same count in both. *)
Lemma playlists_panel_count t t' pid name :
  playlists t' = playlists t -> In (pid, name) (playlist_rows (Live t)) ->
  playlists_panel (Live t) = playlists_panel (Live t') -> count_items pid t = count_items pid t'.
Proof.
  intros Hp Hin E. unfold playlists_panel in E.
  replace (playlist_rows (Live t')) with (playlist_rows (Live t)) in E
    by (unfold playlist_rows, runQuery; by rewrite Hp).
  apply (ext_in_map E) in Hin. unfold playlist_card in Hin.
  apply (f_equal (fun n => match n with El _ _ (El _ _ (Markup h :: _) :: _) => h | _ => [] end)) in Hin.
  cbv beta iota in Hin. rewrite <- !Playlists.shown_count_live. by apply (playlist_header_html_inj name).
Qed.

(** ** What the renders leave *)

Lemma fresh_cards_nodes st :
  map card_node (map (fresh_card st) (playlist_rows st)) = playlists_panel st.
Proof. rewrite map_map. unfold playlists_panel. apply map_ext. by intros []. Qed.

Lemma update_card_nodes id f cs :
  (forall c, card_node (f c) = card_node c) -> map card_node (update_card id f cs) = map card_node cs.
Proof. intros Hf. unfold update_card. rewrite map_map. apply map_ext. intros c. by case_match. Qed.

(** ** Freshness *)

Section Fresh.
Context `{Serializer} `{Browser}.
Variable html_screen : screen.

Lemma render_all_fresh a s :
  fresh a (render_questions (currentBoardId a) (db a) (render_playlists (db a) (render_boards (db a) s))).
Proof. split_and!; [done|done|apply fresh_cards_nodes]. Qed.

Lemma render_questions_fresh a s :
  boards_list s = boards_panel (db a) -> map card_node (playlist_cards s) = playlists_panel (db a) ->
  fresh a (render_questions (currentBoardId a) (db a) s).
Proof. done. Qed.

Lemma render_boards_fresh a s :
  question_list s = questions_panel (currentBoardId a) (db a) ->
  map card_node (playlist_cards s) = playlists_panel (db a) -> fresh a (render_boards (db a) s).
Proof. done. Qed.

Lemma render_playlists_fresh a s :
  boards_list s = boards_panel (db a) -> question_list s = questions_panel (currentBoardId a) (db a) ->
  fresh a (render_playlists (db a) s).
Proof. intros. split_and!; [done|done|apply fresh_cards_nodes]. Qed.

Lemma show_contents_lists st pid tg s :
  boards_list (show_contents st pid tg s) = boards_list s /\
  question_list (show_contents st pid tg s) = question_list s.
Proof. by destruct tg. Qed.

Lemma view_click_fresh a id s : fresh a s -> fresh a (view_click (db a) id s).
Proof.
  intros (? & ? & Hc). split_and!; [done|done|]. cbn [view_click set_cards playlist_cards].
  rewrite update_card_nodes; [done|]. intros c. by destruct (card_open c).
Qed.

Lemma show_paper_fresh a p s : fresh a s -> fresh a (show_paper p s).
Proof. by destruct p. Qed.

(** A statement then the save, on a consistent store: the application
    state after it, with the store the statement left. *)
Lemma stmt_save_db {A} (c : Exec store A) a t :
  db a = Live t ->
  db (fst ((on_db c ;;; saveDBToLocalStorage) a)) = fst (c (Live t)) /\
  currentBoardId (fst ((on_db c ;;; saveDBToLocalStorage) a)) = currentBoardId a.
Proof. intros Ha. rewrite <- Ha. apply stmt_save_keeps. Qed.

Lemma bind_get_l {S A} (k : S -> Exec S A) s : bind get k s = k s s.
Proof. reflexivity. Qed.

Ltac stmt_case c a t Ha E :=
  let Hdb := fresh "Hdb" in let Hcb := fresh "Hcb" in
  destruct (stmt_save_db c a t Ha) as [Hdb Hcb]; rewrite E in Hdb, Hcb; cbn [fst] in Hdb, Hcb.

(** A statement then the save that completed: the statement completed,
    on the store of the state before, and left the store of the state
    after. *)
Lemma stmt_save_ok {A} (c : Exec store A) a a' :
  (on_db c ;;; saveDBToLocalStorage) a = (a', inl tt) -> exists x, c (db a) = (db a', inl x).
Proof.
  cbv [bind on_db]. destruct (c (db a)) as [st' [v|y]]; [|discriminate]. intros E. exists v.
  destruct (save_keeps (set_db st' a)) as [Hd _].
  destruct (saveDBToLocalStorage (set_db st' a)) as [a1 [[]|e]]; [|discriminate].
  injection E as ->. cbn [fst] in Hd. rewrite Hd. reflexivity.
Qed.

(** Every completed handler but the picker's leaves the screen fresh. *)
Lemma handle_fresh e a s a' :
  inv a -> fresh a s -> (forall p q, e <> PickPlaylist p q) ->
  handle e a = (a', inl tt) -> fresh a' (renders html_screen e a' s).
Proof.
  intros [(t & Ha & Hwf & _) _] (Hfb & Hfq & Hfp) Hnp E. rewrite Ha in Hfb, Hfq, Hfp.
  destruct e as [v|id|text|v|pid qid|[] pid|pid qid|u8|pages|]; cbn [handle renders] in E |- *.
  - unfold createBoard_click, createBoard in E. destruct (Js.str_truthy (Js.trim v)); [|by injection E as <-; rewrite <- Ha in *].
    stmt_case (insert_board (Js.trim v)) a t Ha E. apply render_boards_fresh; rewrite ?Hdb, ?Hcb;
      unfold insert_board;
      destruct (insert_into_cases boards set_boards (fun id => mkBoard id (Js.trim v)) t)
        as [(id & _ & ->)|(_ & ->)]; cbn [fst]; rewrite ?Hfq, ?Hfp; try done.
    symmetry. by apply questions_panel_new_board.
  - unfold renderBoardPage, modify in E. injection E as <-.
    unfold fresh, render_board_page, render_questions, set_board. cbn [boards_list question_list playlist_cards db currentBoardId].
    rewrite Ha. by split_and!.
  - change (addQuickQuestions text a) with (handle (AddQuickClick text) a) in E.
    destruct (add_quick_keeps text a) as [Hdb Hcb]. rewrite E in Hdb, Hcb. cbn [fst] in Hdb, Hcb.
    rewrite Ha in Hdb. destruct (keeps_add_quick (currentBoardId a) text t) as (t' & Et & Hb & Hp & Hi).
    rewrite Et in Hdb. apply render_questions_fresh; rewrite Hdb; [rewrite Hfb|rewrite Hfp];
      [by apply boards_panel_eq|by apply playlists_panel_eq].
  - unfold createPlaylist_click, createPlaylist in E. destruct (Js.str_truthy (Js.trim v)); [|by injection E as <-; rewrite <- Ha in *].
    lazymatch type of E with context [insert_playlist ?x] =>
      stmt_case (insert_playlist x) a t Ha E; apply render_playlists_fresh; rewrite ?Hdb, ?Hcb;
        unfold insert_playlist;
        destruct (insert_into_cases playlists set_playlists (fun id => mkPlaylist id x) t)
          as [(id & _ & ->)|(_ & ->)]; cbn [fst]; rewrite ?Hfb, ?Hfq; try done
    end.
  - by destruct (Hnp pid qid).
  - unfold delete_click in E. stmt_case (Playlists.delete_playlist true pid) a t Ha E.
    apply render_playlists_fresh; rewrite ?Hdb, ?Hcb; [rewrite Hfb|rewrite Hfq]; reflexivity.
  - unfold delete_click in E. injection E as <-. rewrite <- Ha in *. by split_and!.
  - unfold remove_click in E. stmt_case (Playlists.remove_from_playlist pid qid) a t Ha E.
    apply render_playlists_fresh; rewrite ?Hdb, ?Hcb; [rewrite Hfb|rewrite Hfq]; reflexivity.
  - apply render_all_fresh.
  - unfold handlePdfUpload in E. rewrite bind_get_l in E.
    stmt_case (Pdf.insert_blocks (currentBoardId a) (Pdf.pdf_blocks pages)) a t Ha E.
    destruct (keeps_insert_blocks (currentBoardId a) (Pdf.pdf_blocks pages) t) as (t' & Et & Hb & Hp & Hi).
    rewrite Et in Hdb. apply render_questions_fresh; rewrite Hdb; [rewrite Hfb|rewrite Hfp];
      [by apply boards_panel_eq|by apply playlists_panel_eq].
  - apply render_all_fresh.
Qed.

(** The unused [selectBoard] is the click of a board's button. *)
Lemma selectBoard_open id a s : selectBoard id a s = fst (ui_handle html_screen (AppEv (OpenBoard id)) a s).
Proof. reflexivity. Qed.

Lemma clears_fresh e a s : fresh a s -> fresh a (clears e s).
Proof. intros Hf. destruct e; cbn [clears]; try case_match; done. Qed.

Lemma app_event_fresh e a s a' s' :
  inv a -> fresh a s -> (forall p q, e <> PickPlaylist p q) ->
  app_event html_screen e a s = (a', s', inl tt) -> fresh a' s'.
Proof.
  intros Hi Hf Hnp E. unfold app_event in E.
  destruct (handle e a) as [a1 [[]|x]] eqn:He; [|discriminate]. injection E as <- <-.
  apply clears_fresh. exact (handle_fresh e a s a1 Hi Hf Hnp He).
Qed.

Lemma featured_click_fresh a pid s : fresh a s -> fresh a (featured_click (db a) pid s).
Proof. done. Qed.

(** C20: the screen shows the store.  From a consistent state whose
    screen lists the boards, the selected board's questions and the
    playlists as the store has them, every event that completes, other
    than a pick in the playlist picker, leaves a screen that lists them
    as the new store has them: each handler calls the renders of what
    its statements change, and the clicks that only show (View, a
    featured playlist, Generate) change none of the three lists. *)
Theorem screen_fresh ev a s a' s' :
  inv a -> fresh a s -> (forall p q, ev <> AppEv (PickPlaylist p q)) ->
  ui_handle html_screen ev a s = (a', s', inl tt) -> fresh a' s'.
Proof.
  intros Hi Hf Hnp E. destruct ev as [e|tg pid qid|id|pid|c m d|fl v|[| | |d]]; cbn [ui_handle] in E.
  - apply (app_event_fresh e a s a' s' Hi Hf); [intros p q ->; by apply (Hnp p q)|exact E].
  - destruct (handle (RemoveClick pid qid) a) as [a1 [[]|x]] eqn:He; [|discriminate].
    injection E as <- <-.
    destruct (handle_fresh (RemoveClick pid qid) a s a1 Hi Hf ltac:(done) He) as (Hb & Hq & _).
    destruct (show_contents_lists (db a1) pid tg s) as [Eb Eq].
    apply render_playlists_fresh; [rewrite Eb|rewrite Eq]; assumption.
  - injection E as <- <-. by apply view_click_fresh.
  - injection E as <- <-. by apply featured_click_fresh.
  - injection E as <- <-. by apply show_paper_fresh.
  - injection E as <- <-. done.
  - by apply (app_event_fresh _ a s a' s' Hi Hf) in E.
  - by apply (app_event_fresh _ a s a' s' Hi Hf) in E.
  - by apply (app_event_fresh _ a s a' s' Hi Hf) in E.
  - injection E as <- <-. by apply show_paper_fresh.
Qed.

(** C23: a pick in the playlist picker that completes adds one item to
    the playlist in the store but leaves the screen as it was: the
    button's handler (199) saves and removes the popup and calls no
    render.  So a screen that showed the store before shows a stale count
    after: the spec (section 6) lists playlist-item add among the
    mutations after which the playlist list must be refreshed. *)
Theorem pick_leaves_screen pid qid name a s a' s' t :
  db a = Live t -> In (pid, name) (playlist_rows (db a)) ->
  ui_handle html_screen (AppEv (PickPlaylist pid qid)) a s = (a', s', inl tt) ->
  s' = s /\ (fresh a s -> ~ fresh a' s').
Proof.
  intros Ha Hrow E. cbn [ui_handle] in E. unfold app_event in E.
  destruct (handle (PickPlaylist pid qid) a) as [a1 [[]|x]] eqn:He; [|discriminate].
  injection E as <- <-. split; [done|].
  destruct (stmt_save_ok _ _ _ He) as [[] Ec]. rewrite Ha in Ec.
  destruct (Playlists.add_to_playlist_count _ _ _ _ Ec) as (t' & Et' & Hp & Hc).
  intros (_ & _ & Hs) (_ & _ & Hs'). rewrite Hs in Hs'. rewrite Ha, Et' in Hs'. rewrite Ha in Hrow.
  apply (playlists_panel_count t t' pid name) in Hs'; [lia|done|done].
Qed.

(** C33: the text fields are cleared only by a handler that returned.
    "Add" runs the quick-add's statements on the store whatever happens
    next; the textarea is emptied when the save succeeds (239) and keeps
    its text when the save throws, although the database already holds
    the new questions: a second press inserts every line again. *)
Theorem add_quick_press a s a' s' r :
  ui_handle html_screen (Pressed AddQuickBtn) a s = (a', s', r) ->
  db a' = fst (QuickAdd.add_quick_questions (currentBoardId a) (quickQuestions (inputs s)) (db a)) /\
  quickQuestions (inputs s') = match r with inl _ => EmptyString | inr _ => quickQuestions (inputs s) end.
Proof.
  intros E. cbn [ui_handle read_button] in E. unfold app_event in E.
  destruct (add_quick_keeps (quickQuestions (inputs s)) a) as [Hdb _].
  destruct (handle _ a) as [a1 r1]. cbn [fst] in Hdb. injection E as <- <- <-.
  split; [exact Hdb|]. by destruct r1.
Qed.

(** C35: an import whose save throws leaves the page as it was.  The
    handler of [#importDb] (398-403) first replaces the database, then
    saves it; when the save throws, [renderBoards] (402) is not reached,
    so the page keeps the buttons of the old boards while the database is
    the imported one.  If the two differ, the page no longer shows the
    database, and a click on a stale button selects a board that the
    database lacks. *)
Theorem import_error_stale_screen u8 a s a' s' x :
  ui_handle html_screen (AppEv (ImportFile u8)) a s = (a', s', inr x) ->
  s' = s /\ db a' = db_open u8 /\
  (fresh a s -> boards_panel (db_open u8) <> boards_panel (db a) -> ~ fresh a' s').
Proof.
  intros E. cbn [ui_handle] in E. unfold app_event in E.
  destruct (import_keeps_board u8 a) as [Hdb _].
  destruct (handle (ImportFile u8) a) as [a1 [[]|y]]; [discriminate|]. cbn [fst] in Hdb.
  injection E as <- <- _. split; [done|]. split; [done|].
  intros (Hb & _) Hne (Hb' & _). apply Hne. by rewrite <- Hdb, <- Hb', Hb.
Qed.

(** C26: a Remove that completes collapses every playlist card: the
    button's handler (345) first writes the playlist's new contents into
    its container, then [renderPlaylists] replaces all the cards by new
    ones, closed and empty, so the contents just written are no longer
    on the page. *)
Theorem remove_collapses_cards tg pid qid a s a' s' :
  ui_handle html_screen (RemoveIn tg pid qid) a s = (a', s', inl tt) ->
  playlist_cards s' = map (fresh_card (db a')) (playlist_rows (db a')) /\
  Forall (fun c => card_open c = false /\ card_items c = []) (playlist_cards s').
Proof.
  intros E. cbn [ui_handle] in E.
  destruct (handle (RemoveClick pid qid) a) as [a1 [[]|x]]; [|discriminate].
  injection E as <- <-. split; [done|]. apply Forall_map, Forall_forall. by intros [].
Qed.

End Fresh.

(** ** Witnesses

    The model serializer and the small browser of [Persist], from the
    saved one-board store of [App]: a playlist is created, question 1 is
    picked into it, then removed from its card. *)

#[local] Existing Instance demo_browser.

(** index.html's containers, empty, the dashboard hidden. *)
Definition blank_form : form := mkForm EmptyString EmptyString EmptyString EmptyString EmptyString.

Definition blank_screen : screen := mkScreen [] [] [] [] None [] [] false true blank_form.

Definition demo_screen : screen :=
  Eval vm_compute in render_questions (currentBoardId demo_saved) (db demo_saved)
    (render_playlists (db demo_saved) (render_boards (db demo_saved) blank_screen)).

Definition created : app * screen * (unit + exn) :=
  Eval vm_compute in ui_handle blank_screen (AppEv (CreatePlaylistClick "R")) demo_saved demo_screen.

Definition picked : app * screen * (unit + exn) :=
  Eval vm_compute in ui_handle blank_screen (AppEv (PickPlaylist 1 1)) (fst (fst created)) (snd (fst created)).

Definition removed : app * screen * (unit + exn) :=
  Eval vm_compute in ui_handle blank_screen (RemoveIn (InCard 1) 1 1) (fst (fst picked)) (snd (fst picked)).

Definition created_tables : tables := mkTables [mkBoard 1 "P"] [] [] [] [mkPlaylist 1 "R"] [].

(** A quick-add typed into the textarea, then "Add": the save of the
    grown store passes the small browser's argument limit and throws. *)
Definition typed_quick : screen :=
  Eval vm_compute in snd (fst (ui_handle blank_screen
    (Typed QuickQuestions "5|Physics|Motion|2021|Define velocity.") demo_saved demo_screen)).

Definition pressed_quick : app * screen * (unit + exn) :=
  Eval vm_compute in ui_handle blank_screen (Pressed AddQuickBtn) demo_saved typed_quick.

Lemma add_quick_press_witness :
  db (fst (fst pressed_quick)) =
    fst (QuickAdd.add_quick_questions (currentBoardId demo_saved) (quickQuestions (inputs typed_quick))
           (db demo_saved)) /\
  quickQuestions (inputs (snd (fst pressed_quick))) =
    match snd pressed_quick with inl _ => EmptyString | inr _ => quickQuestions (inputs typed_quick) end.
Proof.
  apply (add_quick_press blank_screen demo_saved typed_quick). vm_compute. reflexivity.
Defined.

(** The store of [pressed_quick] with a second board, exported: too
    large for the small browser's save. *)
Definition big_tables : tables :=
  Eval vm_compute in match db (fst (fst pressed_quick)) with
                     | Live t => set_boards (boards t ++ [mkBoard 2 "Q"]) t
                     | _ => empty_tables
                     end.

Definition imported_big : app * screen * (unit + exn) :=
  Eval vm_compute in ui_handle blank_screen (AppEv (ImportFile (db_export (Live big_tables)))) demo_saved demo_screen.

Lemma import_error_stale_screen_witness :
  fresh demo_saved demo_screen /\
  boards_panel (db_open (db_export (Live big_tables))) <> boards_panel (db demo_saved) /\
  ~ fresh (fst (fst imported_big)) (snd (fst imported_big)).
Proof.
  assert (Hf : fresh demo_saved demo_screen) by (vm_compute; split_and!; reflexivity).
  assert (Hb : boards_panel (db_open (db_export (Live big_tables))) <> boards_panel (db demo_saved))
    by (vm_compute; congruence).
  assert (E : ui_handle blank_screen (AppEv (ImportFile (db_export (Live big_tables)))) demo_saved demo_screen
              = (fst (fst imported_big), snd (fst imported_big), inr ArgRangeError))
    by (vm_compute; reflexivity).
  split; [exact Hf|]. split; [exact Hb|].
  destruct (import_error_stale_screen blank_screen _ _ _ _ _ _ E) as (_ & _ & Hs).
  exact (Hs Hf Hb).
Defined.

Lemma screen_fresh_witness : fresh (fst (fst created)) (snd (fst created)).
Proof.
  apply (screen_fresh blank_screen (AppEv (CreatePlaylistClick "R")) demo_saved demo_screen).
  - exact demo_saved_inv.
  - vm_compute. split_and!; reflexivity.
  - intros p q [=].
  - vm_compute. reflexivity.
Defined.

Lemma pick_leaves_screen_witness :
  snd (fst picked) = snd (fst created) /\
  (fresh (fst (fst created)) (snd (fst created)) -> ~ fresh (fst (fst picked)) (snd (fst picked))).
Proof.
  apply (pick_leaves_screen blank_screen 1 1 "R" (fst (fst created)) (snd (fst created)) _ _
           created_tables); vm_compute; [reflexivity|left; reflexivity|reflexivity].
Defined.

Lemma remove_collapses_cards_witness :
  playlist_cards (snd (fst removed)) =
    map (fresh_card (db (fst (fst removed)))) (playlist_rows (db (fst (fst removed)))) /\
  Forall (fun c => card_open c = false /\ card_items c = []) (playlist_cards (snd (fst removed))).
Proof.
  apply (remove_collapses_cards blank_screen (InCard 1) 1 1 (fst (fst picked)) (snd (fst picked))).
  vm_compute. reflexivity.
Defined.

End Ui.
