(* ===== verification/Progress.v ===== *)
(** * Progress: what the user can always get done

    [eventually P a]: [P] holds in [a], or after some event the page
    offers in [a] ([App.enabled]), and so on, finitely often.  The
    theorem of this file is a liveness property of the handlers: any
    question the page lists can be filed into a new playlist by two
    clicks (#createPlaylist, then the playlist's button in the picker),
    whatever the browser's limits, as long as SQLite has rowids left for
    the new playlist and the new item.  A failing save does not stop it:
    the database has changed before [saveDBToLocalStorage] throws, and
    neither step needs a render: #createPlaylist is always on the page,
    the picker reads the playlists when it opens (192), and creating a
    playlist does not redraw the question list.  The question must be on
    the page: the screen shows the store ([Ui.fresh]), which every
    completed event keeps ([Ui.screen_fresh]); a question inserted by a
    quick-add whose save threw is in the store but not on the page. *)

From Stdlib Require Import String ZArith List Lia Bool.
From stdpp Require Import base list.
From S2P Require Import Prelude JsString Db Persist Playlists Pages App Ui.

Module Progress.
Import Db Persist App.
Local Open Scope exec_scope.

Section Liveness.
Context `{Serializer} `{Browser}.

(** [P] holds now, or after an event the page offers. *)
Inductive eventually (P : app -> Prop) : app -> Prop :=
| ev_now a : P a -> eventually P a
| ev_later a e : enabled a e = true -> eventually P (fst (handle e a)) -> eventually P a.

(** The database holds a playlist named [v] with an item of question
    [qid]. *)
Definition in_playlist_named (v : string) (qid : Z) (a : app) : Prop :=
  exists t p, db a = Live t /\ In p (playlists t) /\ pl_name p = v /\
    existsb (fun it => Z.eqb (item_playlist it) (pl_id p) && Z.eqb (item_question it) qid)
            (items t) = true.

(** ** A statement, then the save *)

Lemma on_db_save {A} (c : Exec store A) a st' x :
  c (db a) = (st', inl x) ->
  db (fst ((on_db c ;;; saveDBToLocalStorage) a)) = st' /\
  currentBoardId (fst ((on_db c ;;; saveDBToLocalStorage) a)) = currentBoardId a.
Proof. intros Hc. unfold bind, on_db. rewrite Hc. apply (save_keeps (set_db st' a)). Qed.

Lemma new_rowid_Some {R} `{HasRowid R} (l : list R) :
  ids_ok l -> ~ In max_rowid (map row_id l) -> exists k, new_rowid l = Some k.
Proof.
  intros Hok Hn. destruct (new_rowid l) as [k|] eqn:E; [by exists k|].
  by apply new_rowid_None_max in E.
Qed.

Lemma existsb_snoc_true {A} (f : A -> bool) l x : f x = true -> existsb f (l ++ [x]) = true.
Proof. intros Hx. rewrite existsb_app. simpl. by rewrite Hx, !orb_true_r. Qed.

(** C38: from any state whose screen shows the store ([Ui.fresh]: the
    question list on the page is the one [renderQuestions] draws from
    the store) and lists question [qid], for any non-blank name [v], the
    user can reach a state in which a playlist named [trim v] holds
    [qid]: create the playlist, then pick it for the question. *)
Theorem question_can_be_filed a s t v qid :
  Ui.fresh a s ->
  db a = Live t -> ids_ok (playlists t) -> ids_ok (items t) ->
  ~ In max_rowid (map row_id (playlists t)) -> ~ In max_rowid (map row_id (items t)) ->
  Js.str_truthy (Js.trim v) = true -> In qid (shown_questions a) ->
  eventually (in_playlist_named (Js.trim v) qid) a.
Proof.
  intros _ Ha Hp Hi Hpf Hif Hv Hq.
  destruct (new_rowid_Some _ Hp Hpf) as [k Hk]. destruct (new_rowid_Some _ Hi Hif) as [j Hj].
  set (t1 := set_playlists (playlists t ++ [mkPlaylist k (Js.trim v)]) t).
  set (t2 := set_items (items t1 ++ [mkItem j k qid]) t1).
  apply (ev_later _ _ (CreatePlaylistClick v)); [reflexivity|].
  assert (E1 : db (fst (handle (CreatePlaylistClick v) a)) = Live t1 /\
               currentBoardId (fst (handle (CreatePlaylistClick v) a)) = currentBoardId a).
  { cbn [handle]. unfold createPlaylist_click, createPlaylist. rewrite Hv.
    apply on_db_save with (x := k). rewrite Ha. unfold insert_playlist, insert_into. by rewrite Hk. }
  destruct E1 as [Hdb1 Hb1]. set (a1 := fst (handle (CreatePlaylistClick v) a)) in *.
  apply (ev_later _ _ (PickPlaylist k qid)).
  - cbn [enabled]. apply andb_true_intro. split; apply existsb_exists.
    + exists k. split; [|apply Z.eqb_refl]. unfold listed_playlists. rewrite Hdb1.
      cbn [runQuery playlists t1 set_playlists]. rewrite map_app. apply in_or_app. right. by left.
    + exists qid. split; [|apply Z.eqb_refl]. unfold shown_questions in *.
      rewrite Hdb1, Hb1. rewrite Ha in Hq. exact Hq.
  - assert (E2 : db (fst (handle (PickPlaylist k qid) a1)) = Live t2).
    { cbn [handle]. unfold pick_click. apply on_db_save with (x := tt). rewrite Hdb1.
      unfold Playlists.add_to_playlist, insert_item, insert_into, bind, ret. change (items t1) with (items t). by rewrite Hj. }
    apply ev_now. exists t2, (mkPlaylist k (Js.trim v)). split_and!; [done| |done|].
    + cbn [t2 t1 playlists set_items set_playlists]. apply in_or_app. right. by left.
    + cbn [t2 items set_items]. apply existsb_snoc_true. simpl. by rewrite !Z.eqb_refl.
Qed.

End Liveness.

(** ** Instances *)

Definition demo_tables : tables :=
  mkTables [mkBoard 1 "Physics"] [] []
    [mkQuestion 1 (Some 1%Z) None None 3 None "Define velocity." None] [] [].

Definition demo_app : app := mkApp (Live demo_tables) (Some 1%Z) None.

(** The page as a load of [demo_app]'s store draws it. *)
Definition demo_screen : Ui.screen :=
  Eval vm_compute in
  Ui.render_questions (currentBoardId demo_app) (db demo_app)
    (Ui.render_playlists (db demo_app) (Ui.render_boards (db demo_app) Ui.blank_screen)).

Lemma question_can_be_filed_witness :
  eventually (H := bytes_serializer) (H0 := demo_browser)
    (in_playlist_named (Js.trim " Revision ") 1) demo_app.
Proof.
  apply (question_can_be_filed (H := bytes_serializer) (H0 := demo_browser)
           demo_app demo_screen demo_tables " Revision " 1).
  - vm_compute. split_and!; reflexivity.
  - reflexivity.
  - exact (proj1 (proj2 (proj2 (proj2 (proj2 (proj1 (wfb_sound demo_tables eq_refl))))))).
  - exact (proj2 (proj2 (proj2 (proj2 (proj2 (proj1 (wfb_sound demo_tables eq_refl))))))).
  - intros [].
  - intros [].
  - vm_compute. reflexivity.
  - vm_compute. left. reflexivity.
Defined.

End Progress.
