(* ===== verification/Picker.v ===== *)
(** * The playlist picker: popups, their timers and document listeners

    [showPlaylistPicker(questionId, anchor)] (188-211) appends a popup to
    [document.body] listing the playlists of the moment, one button each
    (199), and registers its [onDocClick] listener on [document] only
    after a 10 ms timer (211).  A later click whose target is not inside
    the popup removes the popup and the listener (209); a button of the
    popup adds the item, saves and removes the popup with
    [document.body.removeChild] (199).  Every click reaches the document
    listeners after the handler of its target, also when that handler
    threw: the browser reports the exception and goes on dispatching.
    The popup is placed under its anchor through [popup.style] (206-208).

    [picker] is the state the picker adds to the page: the popups in
    [document.body], every popup created, the pending timers and the
    registered listeners, by popup number.  [pstep] is one event, with
    the application state of [App] the pick changes; [preach] is the
    states reached from a page without popups.  The theorems: every
    reached state keeps each popup in the body watched by its timer or
    its listener ([picker_reach_inv]); a click on "Add to playlist" when
    no timer is pending leaves exactly the new popup, but a second click
    before the first timer fires leaves both ([add_click_single]); once
    the timers have fired, a pick on a playlist the popup lists that
    completes removes every popup but leaves the popup's own listener
    registered, and one that throws leaves its popup open
    ([popup_pick_closes]).  A pick is a click on a button of the popup:
    [pstep] ignores one on a popup not in the body or a playlist it does
    not list. *)

From Stdlib Require Import String ZArith List Lia.
From stdpp Require Import base list sets.
From S2P Require Import Prelude JsString Db Persist Render Views Pages App.

Module Picker.
Import Db Persist App Render Views Pages.

(** ** State *)

(** A popup element (188-205): the question it was opened for and the
    playlists its buttons hold, read when it was opened (192). *)
Record popup := mkPopup {
  pop_id : nat;
  pop_question : Z;
  pop_rows : list (Z * string);
  pop_node : node
}.

Record picker := mkPicker {
  body : list nat;        (** the popups that are children of [document.body] *)
  created : list popup;   (** every popup element created *)
  timers : list nat;      (** the pending [setTimeout(..., 10)] of each popup (211) *)
  listeners : list nat;   (** the [onDocClick] registered on [document] (209) *)
  next_id : nat
}.

Definition empty_picker : picker := mkPicker [] [] [] [] 0.

(** The target of a click: inside popup [n] ([popup.contains(e.target)]),
    or elsewhere on the page. *)
Inductive click_target := Outside | InPopup (n : nat).

#[export] Instance click_target_eq_dec : EqDecision click_target.
Proof. solve_decision. Defined.

(** The anchor's box as [anchor.getBoundingClientRect()] gives it and
    the page's [window.scrollY], in whole CSS pixels (the browser's are
    doubles; [String] of a whole number is [Js.number_to_string]). *)
Record anchor := mkAnchor { a_left : Z; a_bottom : Z; a_scrollY : Z }.

(** ** Operations *)

(** [popup.style.left] and [popup.style.top] (206-208). *)
Definition popup_position (r : anchor) : list (string * list Z) :=
  [("left"%string, units (Js.number_to_string (a_left r) ++ "px"));
   ("top"%string, units (Js.number_to_string (a_bottom r + a_scrollY r + 4) ++ "px"))].

(** More inline style properties set on an element. *)
Definition add_style (css : list (string * list Z)) (n : node) : node :=
  match n with Styled c m => Styled (c ++ css) m | _ => Styled css n end.

(** [showPlaylistPicker(questionId, anchor)] (188-211): a new popup in
    the body, and the timer that will register its listener. *)
Definition showPlaylistPicker (st : store) (questionId : Z) (r : anchor) (p : picker) : picker :=
  let n := next_id p in
  mkPicker (body p ++ [n])
           (created p ++ [mkPopup n questionId (playlist_rows st)
                                  (add_style (popup_position r) (picker_popup st))])
           (timers p ++ [n]) (listeners p) (S n).

(** The timer of popup [n] fires (211):
    [document.addEventListener('click', onDocClick)]. *)
Definition fire_timer (n : nat) (p : picker) : picker :=
  if decide (n ∈ timers p)
  then mkPicker (body p) (created p) (filter (.≠ n) (timers p)) (listeners p ++ [n]) (next_id p)
  else p.

(** The document listeners of one click (209): each registered popup
    that does not contain the target is removed ([popup.remove()], also
    when it is no longer in the body) and its listener with it. *)
Definition doc_click (tg : click_target) (p : picker) : picker :=
  mkPicker (filter (fun m => m ∉ listeners p \/ tg = InPopup m) (body p)) (created p) (timers p)
           (filter (fun m => tg = InPopup m) (listeners p)) (next_id p).

(** [document.body.removeChild(popup)] (199). *)
Definition remove_child (n : nat) (p : picker) : picker :=
  mkPicker (filter (.≠ n) (body p)) (created p) (timers p) (listeners p) (next_id p).

Definition lookup_popup (n : nat) (p : picker) : option popup :=
  List.find (fun q => Nat.eqb (pop_id q) n) (created p).

Inductive pevent :=
| AddClick (qid : Z) (r : anchor) (** "Add to playlist" of question [qid], at [r] (182) *)
| TimerFires (n : nat)          (** the 10 ms timer of popup [n] (211) *)
| PopupPick (n : nat) (pid : Z) (** the button of playlist [pid] in popup [n] (199) *)
| ClickIn (n : nat)             (** a click elsewhere inside popup [n] *)
| AppClick (e : event).         (** a click on another control of the page *)

Section Step.
Context `{Serializer} `{Browser}.

(** One event: the handler of the target, then the document listeners. *)
Definition pstep (ev : pevent) (a : app) (p : picker) : app * picker :=
  match ev with
  | AddClick qid r => (a, doc_click Outside (showPlaylistPicker (db a) qid r p))
  | TimerFires n => (a, fire_timer n p)
  | PopupPick n pid =>
      match lookup_popup n p with
      | Some q =>
          (** the button exists: its popup is in the body and lists [pid] *)
          if decide (n ∈ body p /\ pid ∈ map fst (pop_rows q)) then
            let '(a', r) := handle (PickPlaylist pid (pop_question q)) a in
            (a', doc_click (InPopup n) (match r with inl _ => remove_child n p | inr _ => p end))
          else (a, p)
      | None => (a, p)
      end
  | ClickIn n => (a, doc_click (InPopup n) p)
  | AppClick e => (fst (handle e a), doc_click Outside p)
  end.

(** The states reached from a page without popups. *)
Inductive preach : app -> picker -> Prop :=
| preach_init a : preach a empty_picker
| preach_step ev a p : preach a p -> preach (fst (pstep ev a p)) (snd (pstep ev a p)).

End Step.

(** ** The invariant *)

(** Each popup in the body is watched by its pending timer or its
    registered listener; numbers are below [next_id], a popup has at most
    one of a timer and a listener, and none is listed twice. *)
Definition pinv (p : picker) : Prop :=
  NoDup (body p) /\ NoDup (timers p) /\ NoDup (listeners p) /\
  (forall n, n ∈ body p -> n ∈ timers p \/ n ∈ listeners p) /\
  (forall n, n ∈ timers p -> n ∉ listeners p) /\
  (forall n, n ∈ body p \/ n ∈ timers p \/ n ∈ listeners p -> n < next_id p).

(** ** Lists of popup numbers *)

Lemma NoDup_snoc_fresh (l : list nat) n : NoDup l -> n ∉ l -> NoDup (l ++ [n]).
Proof.
  intros Hl Hn. apply NoDup_app. split_and!; [done| |apply NoDup_singleton].
  intros x Hx ->%list_elem_of_singleton. done.
Qed.

Lemma list_filter_none {A} (P : A -> Prop) `{forall x, Decision (P x)} (l : list A) :
  (forall x, x ∈ l -> ~ P x) -> filter P l = [].
Proof.
  induction l as [|x l IH]; intros Hl; [done|].
  rewrite filter_cons_False by (apply Hl; set_solver). apply IH. set_solver.
Qed.

Lemma list_filter_all {A} (P : A -> Prop) `{forall x, Decision (P x)} (l : list A) :
  (forall x, x ∈ l -> P x) -> filter P l = l.
Proof.
  induction l as [|x l IH]; intros Hl; [done|].
  rewrite filter_cons_True by (apply Hl; set_solver). f_equal. apply IH. set_solver.
Qed.

(** The one element [n] of a list without duplicates that [P] keeps. *)
Lemma filter_only {A} `{EqDecision A} (P : A -> Prop) `{forall x, Decision (P x)} (l : list A) n :
  NoDup l -> n ∈ l -> (forall m, m ∈ l -> P m <-> m = n) -> filter P l = [n].
Proof.
  induction 1 as [|x l Hx Hl IH]; intros Hn HP; [set_solver|].
  destruct (decide (x = n)) as [->|Hxn].
  - rewrite filter_cons_True by (apply HP; set_solver). f_equal.
    apply list_filter_none. intros m Hm HPm. apply HP in HPm; [|apply elem_of_cons; by right]. by subst.
  - rewrite filter_cons_False by (intros HPx; apply HP in HPx; [done|apply elem_of_cons; by left]).
    apply IH; [by apply elem_of_cons in Hn as [?|?]|]. intros m Hm. apply HP. apply elem_of_cons. by right.
Qed.

Ltac mem_simpl :=
  repeat first [rewrite list_elem_of_filter in * | rewrite elem_of_app in * |
                rewrite list_elem_of_singleton in *].

(** ** The invariant is kept *)

Lemma showPlaylistPicker_inv st q r p : pinv p -> pinv (showPlaylistPicker st q r p).
Proof.
  intros (Hb & Ht & Hl & Hw & Hd & Hlt). unfold pinv, showPlaylistPicker; cbn [body timers listeners next_id].
  assert (Hfresh : forall m, m ∈ body p \/ m ∈ timers p \/ m ∈ listeners p -> m <> next_id p)
    by (intros m Hm%Hlt; lia).
  split_and!.
  - apply NoDup_snoc_fresh; [done|]. intros Hn. by apply (Hfresh (next_id p)); [left|].
  - apply NoDup_snoc_fresh; [done|]. intros Hn. by apply (Hfresh (next_id p)); [right; left|].
  - done.
  - intros n Hn. mem_simpl. destruct Hn as [Hn| ->]; [destruct (Hw n Hn); auto|auto].
  - intros n Hn. mem_simpl. destruct Hn as [Hn| ->]; [by apply Hd|].
    intros Hn. by apply (Hfresh (next_id p)); [right; right|].
  - intros n Hn. mem_simpl.
    destruct Hn as [[Hn| ->]|[[Hn| ->]|Hn]]; try lia; assert (n < next_id p) by (apply Hlt; auto); lia.
Qed.

Lemma doc_click_inv tg p : pinv p -> pinv (doc_click tg p).
Proof.
  intros (Hb & Ht & Hl & Hw & Hd & Hlt). unfold pinv, doc_click; cbn [body timers listeners next_id].
  split_and!; [by apply NoDup_filter|done|by apply NoDup_filter| | |].
  - intros n Hn. mem_simpl. destruct Hn as [Hk Hn]. destruct (Hw n Hn); [by left|].
    destruct Hk; [done|by right].
  - intros n Hn. mem_simpl. intros [_ Hn']. by apply (Hd n).
  - intros n Hn. mem_simpl. apply Hlt. destruct Hn as [[_ ?]|[?|[_ ?]]]; auto.
Qed.

Lemma remove_child_inv n p : pinv p -> pinv (remove_child n p).
Proof.
  intros (Hb & Ht & Hl & Hw & Hd & Hlt). unfold pinv, remove_child; cbn [body timers listeners next_id].
  split_and!; [by apply NoDup_filter|done|done| |done|].
  - intros m Hm. mem_simpl. destruct Hm as [_ Hm]. by apply Hw.
  - intros m Hm. mem_simpl. apply Hlt. destruct Hm as [[_ ?]|[?|?]]; auto.
Qed.

Lemma fire_timer_inv n p : pinv p -> pinv (fire_timer n p).
Proof.
  intros Hp. unfold fire_timer. case_decide as Hn; [|done].
  destruct Hp as (Hb & Ht & Hl & Hw & Hd & Hlt). unfold pinv; cbn [body timers listeners next_id].
  split_and!; [done|by apply NoDup_filter|by apply NoDup_snoc_fresh, Hd| | |].
  - intros m Hm. mem_simpl. destruct (decide (m = n)) as [->|Hmn]; [by right; right|].
    destruct (Hw m Hm); auto.
  - intros m Hm. mem_simpl. destruct Hm as [Hmn Hm]. intros [Hm'| ->]; [by apply (Hd m)|done].
  - intros m Hm. mem_simpl. apply Hlt. destruct Hm as [?|[[_ ?]|[?| ->]]]; auto.
Qed.

Lemma empty_picker_inv : pinv empty_picker.
Proof.
  unfold pinv, empty_picker; cbn [body timers listeners].
  split_and!; try apply NoDup_nil_2; intros n; rewrite ?elem_of_nil; tauto.
Qed.

Section Steps.
Context `{Serializer} `{Browser}.

Lemma pstep_inv ev a p : pinv p -> pinv (snd (pstep ev a p)).
Proof.
  intros Hp. destruct ev as [q r|n|n pid|n|e]; cbn [pstep].
  - by apply doc_click_inv, showPlaylistPicker_inv.
  - by apply fire_timer_inv.
  - destruct (lookup_popup n p) as [q|]; [|done]. case_decide; [|done].
    destruct (handle _ a) as [a' [r|r]]; apply doc_click_inv; [by apply remove_child_inv|done].
  - by apply doc_click_inv.
  - by apply doc_click_inv.
Qed.

(** C25: in every state the page reaches, each popup in the body is
    watched: its 10 ms timer is pending or its document listener is
    registered, so a later click outside it removes it; no popup has both
    a timer and a listener, and none is listed twice. *)
Theorem picker_reach_inv a p : preach a p -> pinv p.
Proof.
  induction 1 as [a|ev a p _ IH]; [apply empty_picker_inv|by apply pstep_inv].
Qed.

(** C37: the popups of the picker (182, 211).  When no timer is pending,
    a click on "Add to playlist" leaves exactly the new popup in the body:
    the click reaches every registered listener, which removes its popup.
    A second click before the new popup's 10 ms timer fires finds no
    listener of it, and leaves both popups open. *)
Theorem add_click_single a p q1 q2 r1 r2 :
  pinv p -> timers p = [] ->
  body (snd (pstep (AddClick q1 r1) a p)) = [next_id p] /\
  body (snd (pstep (AddClick q2 r2) a (snd (pstep (AddClick q1 r1) a p)))) = [next_id p; S (next_id p)].
Proof.
  intros (Hb & Ht & Hl & Hw & Hd & Hlt) Hnt.
  cbn [pstep snd]. unfold doc_click, showPlaylistPicker. cbn [body listeners next_id].
  assert (E1 : filter (fun m => m ∉ listeners p \/ Outside = InPopup m) (body p ++ [next_id p])
               = [next_id p]).
  { assert (Hn : next_id p ∉ listeners p)
      by (intros Hn; assert (next_id p < next_id p) by (apply Hlt; auto); lia).
    rewrite filter_app, filter_singleton_True by (by left).
    rewrite list_filter_none; [done|]. intros m Hm [Hm'|?]; [|discriminate].
    destruct (Hw m Hm) as [Ht'|?]; [|done]. rewrite Hnt in Ht'. by apply elem_of_nil in Ht'. }
  split; [exact E1|]. rewrite E1, (list_filter_none (fun m => Outside = InPopup m)) by done.
  apply list_filter_all. intros m _. left. apply not_elem_of_nil.
Qed.

(** C24: a pick in an open popup [n], on a playlist it lists, once
    the timers have fired (199, 209): the pick runs the handler of
    [App]; when the handler returns, the popup is removed by its button
    and every other one by its listener, but the listener of popup [n]
    stays registered, its popup gone, until the next click outside; when
    the handler throws (SQLITE_FULL, a failed save), [removeChild] is not
    reached and popup [n] stays open, the others closed. *)
Theorem popup_pick_closes n pid a p q a' r :
  pinv p -> timers p = [] -> lookup_popup n p = Some q ->
  n ∈ body p -> pid ∈ map fst (pop_rows q) ->
  handle (PickPlaylist pid (pop_question q)) a = (a', r) ->
  fst (pstep (PopupPick n pid) a p) = a' /\
  match r with
  | inl _ => body (snd (pstep (PopupPick n pid) a p)) = [] /\
             (n ∈ listeners p -> listeners (snd (pstep (PopupPick n pid) a p)) = [n])
  | inr _ => body (snd (pstep (PopupPick n pid) a p)) = [n]
  end.
Proof.
  intros (Hb & Ht & Hl & Hw & Hd & Hlt) Hnt Hq Hn Hpid Ha. cbn [pstep]. rewrite Hq.
  rewrite decide_True by done. rewrite Ha.
  assert (Hw' : forall m, m ∈ body p -> m ∈ listeners p).
  { intros m Hm. destruct (Hw m Hm) as [Ht'|?]; [|done]. rewrite Hnt in Ht'. by apply elem_of_nil in Ht'. }
  split; [by destruct r|]. destruct r as [x|x]; unfold doc_click, remove_child; cbn [body listeners fst snd].
  - split.
    + apply list_filter_none. intros m Hm. mem_simpl. intros [Hm'|[= ->]]; [|by destruct Hm].
      apply Hm', Hw'. apply Hm.
    + intros Hn'. apply filter_only; [done|done|]. intros m _. split; [by intros [= ->]|by intros ->].
  - apply filter_only; [done|done|]. intros m Hm. split; [|intros ->; by right].
    intros [Hm'|[= ->]]; [by destruct Hm'; apply Hw'|done].
Qed.

End Steps.

(** ** Witnesses *)

#[local] Existing Instance demo_browser.

(** Two questions' "Add to playlist" clicked, the first popup's timer
    fired in between, then a click on the page. *)
Definition demo_anchor : anchor := mkAnchor 16 120 0.

Definition demo_events : list pevent :=
  [AddClick 1 demo_anchor; TimerFires 0; AddClick 2 demo_anchor; ClickIn 1].

Definition run_events (evs : list pevent) (a : app) (p : picker) : app * picker :=
  fold_left (fun ap ev => pstep ev (fst ap) (snd ap)) evs (a, p).

Lemma picker_reach_inv_witness : pinv (snd (run_events demo_events demo_saved empty_picker)).
Proof.
  apply (picker_reach_inv (fst (run_events demo_events demo_saved empty_picker))).
  unfold run_events, demo_events. cbn [fold_left].
  repeat apply preach_step. apply preach_init.
Defined.

Lemma add_click_single_witness :
  body (snd (pstep (AddClick 1 demo_anchor) demo_saved empty_picker)) = [0] /\
  body (snd (pstep (AddClick 2 demo_anchor) demo_saved
              (snd (pstep (AddClick 1 demo_anchor) demo_saved empty_picker)))) = [0; 1].
Proof.
  apply (add_click_single demo_saved empty_picker 1 2 demo_anchor demo_anchor);
    [exact empty_picker_inv|reflexivity].
Defined.


(** A popup opened on the store of [App.playlist_added] (one playlist,
    id 1), its timer fired, then its playlist picked. *)
Definition opened : picker :=
  Eval vm_compute in
  snd (pstep (TimerFires 0) playlist_added
         (snd (pstep (AddClick 1 demo_anchor) playlist_added empty_picker))).

Definition opened_popup : popup :=
  Eval vm_compute in match lookup_popup 0 opened with Some q => q | None => mkPopup 0 0 [] (TextN []) end.

Definition pick_result : app * (unit + exn) :=
  Eval vm_compute in handle (PickPlaylist 1 (pop_question opened_popup)) playlist_added.

Lemma popup_pick_closes_witness :
  fst (pstep (PopupPick 0 1) playlist_added opened) = fst pick_result /\
  match snd pick_result with
  | inl _ => body (snd (pstep (PopupPick 0 1) playlist_added opened)) = [] /\
             (0 ∈ listeners opened -> listeners (snd (pstep (PopupPick 0 1) playlist_added opened)) = [0])
  | inr _ => body (snd (pstep (PopupPick 0 1) playlist_added opened)) = [0]
  end.
Proof.
  apply (popup_pick_closes 0 1 playlist_added opened opened_popup (fst pick_result) (snd pick_result)).
  - exact (pstep_inv (TimerFires 0) playlist_added _
             (pstep_inv (AddClick 1 demo_anchor) playlist_added _ empty_picker_inv)).
  - reflexivity.
  - reflexivity.
  - vm_compute. apply list_elem_of_singleton; reflexivity.
  - vm_compute. apply list_elem_of_singleton; reflexivity.
  - vm_compute. reflexivity.
Defined.

End Picker.
